(** * Yoga pose image generator: a shallow embedding of [main.py]

    The script reads pose rows from a spreadsheet, builds a prompt per row,
    asks one of three image providers for an image, uploads the image to a
    file store and writes an image formula back into the sheet.

    Python [str] values are modelled by [string]; each character stands for
    one code point below 256.  Python [int] values are modelled by [Z].
    Everything the script does to the outside (logging, sleeping, HTTP and
    Google API requests) is recorded in a trace; what the outside answers is
    given by a [World], a family of functions of the trace so far. *)

From Stdlib Require Import ZArith Ascii DecimalString.
From Stdlib Require DecimalZ.
From stdpp Require Import gmap strings list fin_maps.

Local Open Scope Z_scope.
Local Open Scope nat_scope.

(** ** Python strings *)

Module PyStr.

Definition is_empty (s : string) : bool :=
  match s with EmptyString => true | String _ _ => false end.

(** Truth value of a [str]: only the empty string is false. *)
Definition truthy (s : string) : bool := negb (is_empty s).

Definition space : ascii := ascii_of_nat 32.
Definition dquote : ascii := ascii_of_nat 34.

Fixpoint spaces (n : nat) : string :=
  match n with
  | O => EmptyString
  | S k => String space (spaces k)
  end.

(** [str.isspace] on the code points below 256. *)
Definition isspace (c : ascii) : bool :=
  let n := nat_of_ascii c in
  ((9 <=? n) && (n <=? 13)) || ((28 <=? n) && (n <=? 32))
  || (n =? 133) || (n =? 160).

(** [str.lower] on the code points below 256: A-Z and the accented
    capitals of Latin-1 (192-222 but for the multiplication sign 215). *)
Definition lower_char (c : ascii) : ascii :=
  let n := nat_of_ascii c in
  if ((65 <=? n) && (n <=? 90))
     || ((192 <=? n) && (n <=? 222) && negb (n =? 215))
  then ascii_of_nat (n + 32) else c.

(** [str.upper] on the ASCII letters.  The script applies it to the
    provider name only, which the argument parser restricts to three
    lower-case ASCII words. *)
Definition upper_char (c : ascii) : ascii :=
  let n := nat_of_ascii c in
  if (97 <=? n) && (n <=? 122) then ascii_of_nat (n - 32) else c.

Fixpoint map_chars (f : ascii -> ascii) (s : string) : string :=
  match s with
  | EmptyString => EmptyString
  | String c r => String (f c) (map_chars f r)
  end.

Definition lower : string -> string := map_chars lower_char.
Definition upper : string -> string := map_chars upper_char.

(** [s.replace(old, new)] for a non-empty [old]: scan from the left; where
    [old] starts, emit [new] and skip the characters of [old]; elsewhere
    copy one character.  [skip] counts the characters of a match still to
    be dropped. *)
Fixpoint replace_scan (old new : string) (skip : nat) (s : string) : string :=
  match s with
  | EmptyString => EmptyString
  | String c r =>
      match skip with
      | S k => replace_scan old new k r
      | O =>
          if String.prefix old s
          then new +:+ replace_scan old new (String.length old - 1) r
          else String c (replace_scan old new 0 r)
      end
  end.

(** With an empty [old], Python puts [new] before every character and at
    the end. *)
Fixpoint interleave (new s : string) : string :=
  match s with
  | EmptyString => new
  | String c r => new +:+ String c (interleave new r)
  end.

Definition replace (s old new : string) : string :=
  if is_empty old then interleave new s else replace_scan old new 0 s.

(** [s.lstrip()], [s.rstrip()], [s.strip()] with no argument. *)
Fixpoint lstrip (s : string) : string :=
  match s with
  | EmptyString => EmptyString
  | String c r => if isspace c then lstrip r else s
  end.

Fixpoint rstrip (s : string) : string :=
  match s with
  | EmptyString => EmptyString
  | String c r =>
      let r' := rstrip r in
      if isspace c && is_empty r' then EmptyString else String c r'
  end.

Definition strip (s : string) : string := rstrip (lstrip s).

Definition first_char (s : string) : option ascii :=
  match s with EmptyString => None | String c _ => Some c end.

Fixpoint last_char (s : string) : option ascii :=
  match s with
  | EmptyString => None
  | String c EmptyString => Some c
  | String _ r => last_char r
  end.

(** [sub in s]. *)
Fixpoint contains (sub s : string) : bool :=
  String.prefix sub s ||
  match s with
  | EmptyString => false
  | String _ r => contains sub r
  end.

(** [str(n)] for an [int]. *)
Definition of_int (z : Z) : string := NilZero.string_of_int (Z.to_int z).

End PyStr.


(** ** Values exchanged with the outside *)

Definition bytes := list Byte.byte.

(** Truth value of an optional [bytes]: [None] and the empty [bytes] are
    false. *)
Definition bytes_truthy (b : option bytes) : bool :=
  match b with
  | Some (_ :: _) => true
  | _ => false
  end.

(** Truth value of an optional [str] ([None] or a string). *)
Definition opt_truthy (s : option string) : bool :=
  match s with
  | Some v => PyStr.truthy v
  | None => false
  end.

(** Request payloads, as the JSON values the script builds. *)
#[warnings="-register-all"]
Inductive json :=
| JStr (s : string)
| JInt (z : Z)
| JFloat (literal : string)
| JList (items : list json)
| JObj (fields : list (string * json)).

(** An instance of a subclass of Python's [Exception]; [str(e)] is
    [exc_text]. *)
Record exception := Exception { exc_class : string; exc_text : string }.

(** What can leave a function by raising: an [Exception], or the
    [SystemExit] of the argument parser, which [except Exception] does not
    catch. *)
Inductive raised :=
| RaisedException (e : exception)
| RaisedSystemExit (code : Z).

(** The answer of a library or network call. *)
Inductive reply (A : Type) :=
| Raises (e : exception)
| Returns (a : A).
Arguments Raises {A} e.
Arguments Returns {A} a.

Definition Credentials := string.
Definition headers_t := list (string * string).

(** Body of the OpenAI answer: [result["data"]], a list of items whose
    ["b64_json"] field may be absent. *)
Record openai_body := { oa_data : option (list (option string)) }.

(** Body of the Ideogram submission answer and of a status answer. *)
Record ideogram_submitted := { ig_generation_id : option string }.
Record ideogram_status := { ig_state : option string; ig_image_url : option string }.

(** Body of the Stability answer: [result["artifacts"]], a list of items
    whose ["base64"] field may be absent. *)
Record stability_body := { st_artifacts : option (list (option string)) }.

(** Answer of a plain [requests.get]. *)
Record http_response := { status_code : Z; content : bytes }.

(** The file resource returned by the file store. *)
Record drive_file := { file_id : option string; webContentLink : option string }.

(** Everything the script does to the outside, in order. *)
Inductive event :=
| LogInfo (msg : string)
| LogError (msg : string)
| Print (msg : string)
| Input (prompt : string)
| Sleep (seconds : Z)
| HttpPost (url : string) (headers : headers_t) (payload : json)
| HttpGet (url : string) (headers : headers_t)
| ServiceAccountLoad (file : string)
| SheetsGet (sheet_id range : string)
| SheetsUpdate (sheet_id range option : string) (values : list (list string))
| DriveCreate (name mime : string) (data : bytes)
| DrivePermission (file : option string) (type role : string).

Definition trace := list event.

(** The outside world.  Each answer may depend on everything that happened
    before the request. *)
Record World := {
  getenv : string -> option string;
  path_exists : string -> bool;
  b64decode : string -> reply bytes;
  stdin_line : trace -> string;
  service_account_load : trace -> reply Credentials;
  openai_generations : trace -> headers_t -> json -> reply openai_body;
  ideogram_generation : trace -> headers_t -> json -> reply ideogram_submitted;
  ideogram_poll : trace -> string -> headers_t -> reply ideogram_status;
  http_get : trace -> string -> reply http_response;
  stability_text_to_image : trace -> headers_t -> json -> reply stability_body;
  sheets_values_get : trace -> string -> string -> reply (option (list (list string)));
  sheets_values_update : trace -> string -> string -> list (list string) -> reply unit;
  drive_files_create : trace -> string -> bytes -> reply drive_file;
  drive_permissions_create : trace -> option string -> reply unit
}.

(** ** The monad of the script: a trace that grows, and exceptions *)

Inductive outcome (A : Type) :=
| Ret (a : A)
| Raise (r : raised).
Arguments Ret {A} a.
Arguments Raise {A} r.

Definition M (A : Type) : Type := trace -> outcome A * trace.

Definition ret {A} (a : A) : M A := fun t => (Ret a, t).

Definition bind {A B} (m : M A) (k : A -> M B) : M B :=
  fun t =>
    match m t with
    | (Ret a, t') => k a t'
    | (Raise r, t') => (Raise r, t')
    end.

Definition raise {A} (r : raised) : M A := fun t => (Raise r, t).

Definition emit (e : event) : M unit := fun t => (Ret tt, t ++ [e]).

(** Ask the world, having recorded nothing yet. *)
Definition ask {A} (f : trace -> reply A) : M (reply A) := fun t => (Ret (f t), t).

Definition of_reply {A} (r : reply A) : M A :=
  match r with
  | Returns a => ret a
  | Raises e => raise (RaisedException e)
  end.

(** [try: m  except Exception as e: handler e]. *)
Definition try_except {A} (m : M A) (handler : exception -> M A) : M A :=
  fun t =>
    match m t with
    | (Raise (RaisedException e), t') => handler e t'
    | other => other
    end.

Declare Scope py_scope.
Delimit Scope py_scope with py.
Notation "x <- m ;; k" := (bind m (fun x => k))
  (at level 100, m at next level, right associativity) : py_scope.
Notation "m ;;; k" := (bind m (fun _ => k))
  (at level 100, right associativity) : py_scope.

Definition log_info (msg : string) : M unit := emit (LogInfo msg).
Definition log_error (msg : string) : M unit := emit (LogError msg).

(** How a loop body ends: fall through to the next iteration, [break], or
    [return v] from the enclosing function. *)
Inductive loop_exit (A : Type) :=
| Continue
| Break
| Return (v : A).
Arguments Continue {A}.
Arguments Break {A}.
Arguments Return {A} v.

(** [for i in range(start, start + count): body i]; the result is [Some v]
    when the body returned [v], [None] when the loop ran out or broke. *)
Fixpoint for_range {A} (body : nat -> M (loop_exit A)) (start count : nat)
  : M (option A) :=
  match count with
  | O => ret None
  | S k =>
      (r <- body start ;;
       match r with
       | Continue => for_range body (S start) k
       | Break => ret None
       | Return v => ret (Some v)
       end)%py
  end.

(** [for i, x in enumerate(l, i0): body i x], for a body without [break]. *)
Fixpoint for_enumerate {A} (body : nat -> A -> M unit) (i : nat) (l : list A)
  : M unit :=
  match l with
  | [] => ret tt
  | x :: rest => (body i x ;;; for_enumerate body (S i) rest)%py
  end.

(** ** Rows of the sheet *)

(** A row as the script holds it: a [dict] from header to cell. *)
Abbreviation row := (gmap string string).

(** [dict(pairs)]: later pairs overwrite earlier ones. *)
Definition dict (pairs : list (string * string)) : row :=
  foldl (fun d kv => <[kv.1 := kv.2]> d) ∅ pairs.

(** [d.get(key, default)]. *)
Definition dict_get (d : row) (key default : string) : string :=
  match d !! key with
  | Some v => v
  | None => default
  end.

(** [row + [''] * (len(headers) - len(row))]: a negative count repeats
    nothing, as the truncated subtraction does here. *)
Definition row_extended (headers cells : list string) : list string :=
  cells ++ replicate (length headers - length cells) EmptyString.

(** The body of [get_sheet_data] after the request: [values] is
    [result.get('values', [])]. *)
Definition rows_of_values (values : list (list string)) : list row :=
  match values with
  | [] => []
  | headers :: rest =>
      map (fun cells => dict (zip headers (row_extended headers cells))) rest
  end.

(** ** Prompt text *)

(** The f-string of [craft_prompt]. *)
Definition prompt_template (style pose bg_color theme : string) : string :=
  style +:+ " " +:+ pose +:+ " yoga pose, " +:+ bg_color +:+ " background. " +:+ theme.

Definition assembled_prompt (pose_data : row) : string :=
  let style := dict_get pose_data "Image Style" "" in
  let bg_color := dict_get pose_data "Background Color" "" in
  let theme := dict_get pose_data "Theme Description" "" in
  let pose := dict_get pose_data "Content Title" "" in
  prompt_template style pose bg_color theme.

(** [prompt.replace('None', '').replace('  ', ' ').strip()]. *)
Definition clean_prompt (prompt : string) : string :=
  PyStr.strip (PyStr.replace (PyStr.replace prompt "None" "") "  " " ").

Definition craft_prompt_text (pose_data : row) : string :=
  clean_prompt (assembled_prompt pose_data).

(** ** Constants of the script *)

Definition SERVICE_ACCOUNT_FILE : string := "service_account.json".
Definition max_attempts : nat := 30.
Definition api_choices : list string := ["openai"; "ideogram"; "stability"].

Definition json_headers (api_key : string) : headers_t :=
  [("Content-Type", "application/json"); ("Authorization", "Bearer " +:+ api_key)].

Definition openai_payload (prompt : string) : json :=
  JObj [("model", JStr "dall-e-3"); ("prompt", JStr prompt); ("n", JInt 1);
        ("size", JStr "1024x1024"); ("response_format", JStr "b64_json")].

Definition ideogram_payload (prompt : string) : json :=
  JObj [("prompt", JStr prompt); ("style", JStr "illustration");
        ("aspect_ratio", JStr "1:1")].

Definition stability_payload (prompt : string) : json :=
  JObj [("text_prompts", JList [JObj [("text", JStr prompt); ("weight", JFloat "1.0")]]);
        ("cfg_scale", JInt 7); ("height", JInt 1024); ("width", JInt 1024);
        ("samples", JInt 1); ("steps", JInt 30)].

Definition openai_url : string := "https://api.openai.com/v1/images/generations".
Definition ideogram_url : string := "https://api.ideogram.ai/api/v1/generation".
Definition ideogram_status_url (generation_id : string) : string :=
  "https://api.ideogram.ai/api/v1/generation/" +:+ generation_id.
Definition stability_url : string :=
  "https://api.stability.ai/v1/generation/stable-diffusion-xl-1024-v1-0/text-to-image".

Definition timeout_message : string := "Image generation timed out or failed".

(** The exceptions of indexing a missing key or position; [str] of a
    [KeyError] shows the key in single quotes. *)
Definition KeyError (key : string) : exception :=
  Exception "KeyError" ("'" +:+ key +:+ "'").
Definition IndexError : exception :=
  Exception "IndexError" "list index out of range".

(** [=IMAGE("url", 3)]. *)
Definition image_formula (image_url : string) : string :=
  "=IMAGE(" +:+ String PyStr.dquote image_url +:+ String PyStr.dquote ", 3)".

(** [f'Sheet1!E{row+1}']. *)
Definition range_name (sheet_row : Z) : string :=
  "Sheet1!E" +:+ PyStr.of_int (sheet_row + 1)%Z.

(** [f"yoga_{pose_name.lower().replace(' ', '_')}.png"]. *)
Definition image_filename (pose_name : string) : string :=
  "yoga_" +:+ PyStr.replace (PyStr.lower pose_name) " " "_" +:+ ".png".

(** The download link cleaned for the image formula. *)
Definition clean_download_link (download_link : string) : string :=
  PyStr.replace download_link "&export=download" "".

(** ** The script *)

Section Script.

Variable W : World.

Local Open Scope py_scope.

(** [parse_arguments]: [argv_sheet_id] and [argv_api] are the values given
    on the command line, if any.  A provider outside the three choices
    makes the parser exit with status 2. *)
Record args_t := { args_sheet_id : option string; args_api : string }.

Definition parse_arguments (argv_sheet_id argv_api : option string) : M args_t :=
  match argv_api with
  | None => ret {| args_sheet_id := argv_sheet_id; args_api := "ideogram" |}
  | Some api =>
      if bool_decide (api ∈ api_choices)
      then ret {| args_sheet_id := argv_sheet_id; args_api := api |}
      else raise (RaisedSystemExit 2)
  end.

Definition authenticate_google : M Credentials :=
  if negb (path_exists W SERVICE_ACCOUNT_FILE) then
    log_error ("Service account file " +:+ SERVICE_ACCOUNT_FILE +:+ " not found.") ;;;
    raise (RaisedException
             (Exception "FileNotFoundError"
                ("Service account key file " +:+ SERVICE_ACCOUNT_FILE +:+ " is missing")))
  else
    try_except
      (r <- ask (service_account_load W) ;;
       emit (ServiceAccountLoad SERVICE_ACCOUNT_FILE) ;;;
       creds <- of_reply r ;;
       log_info "Successfully authenticated using service account" ;;;
       ret creds)
      (fun e =>
         log_error ("Error authenticating with service account: " +:+ exc_text e) ;;;
         raise (RaisedException e)).

Definition get_sheet_data (sheet_id : string) (credentials : Credentials)
  : M (list row) :=
  r <- ask (fun t => sheets_values_get W t sheet_id "Sheet1!A1:E") ;;
  emit (SheetsGet sheet_id "Sheet1!A1:E") ;;;
  result <- of_reply r ;;
  let values := default [] result in
  match values with
  | [] => log_error "No data found in sheet" ;;; ret []
  | _ :: _ => ret (rows_of_values values)
  end.

Definition craft_prompt (pose_data : row) : M string :=
  let pose := dict_get pose_data "Content Title" "" in
  let prompt := craft_prompt_text pose_data in
  log_info ("Generated prompt for " +:+ pose +:+ ": " +:+ prompt) ;;;
  ret prompt.

Definition generate_image_openai (prompt : string) : M (option bytes) :=
  let api_key := getenv W "OPENAI_API_KEY" in
  if negb (opt_truthy api_key) then
    log_error "OpenAI API key not found in environment variables" ;;;
    ret None
  else
    let headers := json_headers (default "" api_key) in
    let payload := openai_payload prompt in
    try_except
      (r <- ask (fun t => openai_generations W t headers payload) ;;
       emit (HttpPost openai_url headers payload) ;;;
       result <- of_reply r ;;
       data <- match oa_data result with
               | Some data => ret data
               | None => raise (RaisedException (KeyError "data"))
               end ;;
       item <- match data with
               | item :: _ => ret item
               | [] => raise (RaisedException IndexError)
               end ;;
       image_data <- match item with
                     | Some image_data => ret image_data
                     | None => raise (RaisedException (KeyError "b64_json"))
                     end ;;
       decoded <- of_reply (b64decode W image_data) ;;
       ret (Some decoded))
      (fun e =>
         log_error ("Error generating image with OpenAI: " +:+ exc_text e) ;;;
         ret None).

(** One round of the polling loop of [generate_image_ideogram]. *)
Definition ideogram_poll_body (headers : headers_t) (generation_id : string)
    (attempt : nat) : M (loop_exit (option bytes)) :=
  emit (Sleep 2) ;;;
  r <- ask (fun t => ideogram_poll W t generation_id headers) ;;
  emit (HttpGet (ideogram_status_url generation_id) headers) ;;;
  status_data <- of_reply r ;;
  if bool_decide (ig_state status_data = Some "completed") then
    match ig_image_url status_data with
    | Some image_url =>
        if PyStr.truthy image_url then
          ir <- ask (fun t => http_get W t image_url) ;;
          emit (HttpGet image_url []) ;;;
          img_response <- of_reply ir ;;
          if bool_decide (status_code img_response = 200%Z)
          then ret (Return (Some (content img_response)))
          else ret Break
        else ret Break
    | None => ret Break
    end
  else ret Continue.

Definition generate_image_ideogram (prompt : string) : M (option bytes) :=
  let api_key := getenv W "IDEOGRAM_API_KEY" in
  if negb (opt_truthy api_key) then
    log_error "Ideogram API key not found in environment variables" ;;;
    ret None
  else
    let headers := json_headers (default "" api_key) in
    let payload := ideogram_payload prompt in
    try_except
      (r <- ask (fun t => ideogram_generation W t headers payload) ;;
       emit (HttpPost ideogram_url headers payload) ;;;
       result <- of_reply r ;;
       let generation_id := ig_generation_id result in
       if negb (opt_truthy generation_id) then
         log_error "No generation ID returned from Ideogram API" ;;;
         ret None
       else
         polled <- for_range
                     (ideogram_poll_body headers (default "" generation_id))
                     0 max_attempts ;;
         match polled with
         | Some image => ret image
         | None => log_error timeout_message ;;; ret None
         end)
      (fun e =>
         log_error ("Error generating image with Ideogram: " +:+ exc_text e) ;;;
         ret None).

Definition generate_image_stability (prompt : string) : M (option bytes) :=
  let api_key := getenv W "STABILITY_API_KEY" in
  if negb (opt_truthy api_key) then
    log_error "Stability AI API key not found in environment variables" ;;;
    ret None
  else
    let headers := json_headers (default "" api_key) in
    let payload := stability_payload prompt in
    try_except
      (r <- ask (fun t => stability_text_to_image W t headers payload) ;;
       emit (HttpPost stability_url headers payload) ;;;
       result <- of_reply r ;;
       match st_artifacts result with
       | Some (artifact :: _) =>
           image_data <- match artifact with
                         | Some image_data => ret image_data
                         | None => raise (RaisedException (KeyError "base64"))
                         end ;;
           decoded <- of_reply (b64decode W image_data) ;;
           ret (Some decoded)
       | _ =>
           log_error "No image artifacts returned from Stability API" ;;;
           ret None
       end)
      (fun e =>
         log_error ("Error generating image with Stability AI: " +:+ exc_text e) ;;;
         ret None).

(** The table [api_functions] of [generate_image]. *)
Definition api_functions (api : string) : option (string -> M (option bytes)) :=
  if bool_decide (api = "openai") then Some generate_image_openai
  else if bool_decide (api = "ideogram") then Some generate_image_ideogram
  else if bool_decide (api = "stability") then Some generate_image_stability
  else None.

Definition generate_image (prompt api : string) : M (option bytes) :=
  match api_functions api with
  | None => log_error ("Unsupported API: " +:+ api) ;;; ret None
  | Some f => f prompt
  end.

Definition upload_image_to_drive (image_data : bytes) (filename : string)
    (credentials : Credentials) : M string :=
  r <- ask (fun t => drive_files_create W t filename image_data) ;;
  emit (DriveCreate filename "image/png" image_data) ;;;
  file <- of_reply r ;;
  p <- ask (fun t => drive_permissions_create W t (file_id file)) ;;
  emit (DrivePermission (file_id file) "anyone" "reader") ;;;
  of_reply p ;;;
  let download_link := default "" (webContentLink file) in
  let download_link := clean_download_link download_link in
  emit (Print ("IF STATEMENT " +:+ download_link)) ;;;
  log_info ("Created image URL: " +:+ download_link) ;;;
  ret download_link.

Definition update_sheet_with_image (sheet_id : string) (sheet_row : Z)
    (image_url : string) (credentials : Credentials) : M unit :=
  let formula := image_formula image_url in
  let range := range_name sheet_row in
  r <- ask (fun t => sheets_values_update W t sheet_id range [[formula]]) ;;
  emit (SheetsUpdate sheet_id range "USER_ENTERED" [[formula]]) ;;;
  of_reply r ;;;
  log_info ("Updated cell " +:+ range +:+ " with image").

(** The body of the loop of [main] over [enumerate(yoga_poses)]; [total]
    is [len(yoga_poses)]. *)
Definition main_loop_body (sheet_id api : string) (credentials : Credentials)
    (total : nat) (i : nat) (pose_data : row) : M unit :=
  let pose_name := dict_get pose_data "Content Title" "" in
  if negb (PyStr.truthy pose_name) then ret tt
  else
    log_info ("Processing pose " +:+ PyStr.of_int (Z.of_nat i + 1)%Z +:+ "/"
              +:+ PyStr.of_int (Z.of_nat total) +:+ ": " +:+ pose_name) ;;;
    prompt <- craft_prompt pose_data ;;
    log_info ("Generating image for " +:+ pose_name +:+ "...") ;;;
    image_data <- generate_image prompt api ;;
    if bytes_truthy image_data then
      let filename := image_filename pose_name in
      image_url <- upload_image_to_drive (default [] image_data) filename credentials ;;
      update_sheet_with_image sheet_id (Z.of_nat i + 1)%Z image_url credentials ;;;
      log_info ("Successfully processed " +:+ pose_name)
    else
      log_error ("Failed to generate image for " +:+ pose_name).

Definition main_loop (sheet_id api : string) (credentials : Credentials)
    (yoga_poses : list row) : M unit :=
  for_enumerate (main_loop_body sheet_id api credentials (length yoga_poses))
    0 yoga_poses.

Definition main (argv_sheet_id argv_api : option string) : M unit :=
  args <- parse_arguments argv_sheet_id argv_api ;;
  sheet_id <- (if opt_truthy (args_sheet_id args)
               then ret (default "" (args_sheet_id args))
               else (fun t => (Ret (stdin_line W t), t ++ [Input "Enter Google Sheet ID: "]))) ;;
  let api := args_api args in
  emit (Print ("Using " +:+ PyStr.upper api +:+ " API for image generation")) ;;;
  credentials <- authenticate_google ;;
  yoga_poses <- get_sheet_data sheet_id credentials ;;
  log_info ("Retrieved " +:+ PyStr.of_int (Z.of_nat (length yoga_poses))
            +:+ " yoga poses from sheet") ;;;
  main_loop sheet_id api credentials yoga_poses ;;;
  log_info "Process completed!".

End Script.

(** ** Predicates used in the statements *)

(** [c] occurs in [s]. *)
Fixpoint occurs (c : ascii) (s : string) : bool :=
  match s with
  | EmptyString => false
  | String d r => bool_decide (c = d) || occurs c r
  end.

(** A pattern whose first character occurs nowhere else in it cannot
    overlap a later copy of itself. *)
Definition head_fresh (old : string) : bool :=
  match old with
  | EmptyString => false
  | String c r => negb (occurs c r)
  end.

(** The character, if there is one, is not white space. *)
Definition not_space (o : option ascii) : bool :=
  match o with
  | Some c => negb (PyStr.isspace c)
  | None => true
  end.

(** The character, if there is one, is not the space character. *)
Definition not_blank (o : option ascii) : bool :=
  match o with
  | Some c => negb (bool_decide (c = PyStr.space))
  | None => true
  end.

(** The four columns [craft_prompt] reads. *)
Definition prompt_keys : list string :=
  ["Image Style"; "Background Color"; "Theme Description"; "Content Title"].

(** One pass of [replace('  ', ' ')] and of [replace('None', '')]. *)
Definition collapse_pairs (s : string) : string := PyStr.replace s "  " " ".
Definition remove_none (s : string) : string := PyStr.replace s "None" "".

(** ** Reading traces and outcomes *)

Definition is_upload (e : event) : bool :=
  match e with DriveCreate _ _ _ => true | _ => false end.

Definition is_sheet_write (e : event) : bool :=
  match e with SheetsUpdate _ _ _ _ => true | _ => false end.

Definition is_poll (e : event) : bool :=
  match e with HttpGet _ (_ :: _) => true | _ => false end.

Definition is_sleep (e : event) : bool :=
  match e with Sleep _ => true | _ => false end.

Fixpoint count_events (p : event -> bool) (d : trace) : nat :=
  match d with
  | [] => 0
  | e :: rest => (if p e then 1 else 0) + count_events p rest
  end.

(** No upload and no sheet write among the events. *)
Definition storage_free (d : trace) : Prop :=
  Forall (fun e => is_upload e || is_sheet_write e = false) d.

(** At most [n] uploads and [k] sheet writes among the events. *)
Definition storage_within (n k : nat) (d : trace) : Prop :=
  count_events is_upload d <= n /\ count_events is_sheet_write d <= k.

(** Every sheet write among the events puts an image formula into column E
    of sheet row [i + 2] of [sheet_id]. *)
Definition writes_row (sheet_id : string) (i : nat) (d : trace) : Prop :=
  Forall (fun e =>
            match e with
            | SheetsUpdate sid range option values =>
                sid = sheet_id
                /\ range = "Sheet1!E" +:+ PyStr.of_int (Z.of_nat i + 2)%Z
                /\ option = "USER_ENTERED"
                /\ exists image_url, values = [[image_formula image_url]]
            | _ => True
            end) d.

Definition returned {A} (o : outcome A) : Prop :=
  match o with Ret _ => True | Raise _ => False end.

Definition no_exit {A} (o : outcome A) : Prop :=
  match o with Raise (RaisedSystemExit _) => False | _ => True end.

Definition any_outcome {A} (o : outcome A) : Prop := True.

(** Run from any trace, [m] appends events [d] with [D d] and ends in an
    outcome with [Q]. *)
Definition run_spec {A} (m : M A) (D : trace -> Prop) (Q : outcome A -> Prop)
  : Prop :=
  forall t, exists o d, m t = (o, t ++ d) /\ D d /\ Q o.

(** One round of polling as it shows in the trace: the wait, then the status
    request; and [n] rounds in a row. *)
Definition poll_round (headers : headers_t) (generation_id : string) : trace :=
  [Sleep 2; HttpGet (ideogram_status_url generation_id) headers].

Fixpoint poll_rounds (headers : headers_t) (generation_id : string) (n : nat)
  : trace :=
  match n with
  | O => []
  | S k => poll_round headers generation_id ++ poll_rounds headers generation_id k
  end.

(** The world answers poll number [j] (from 0) of a loop started at trace
    [t0] with the status [st]. *)
Definition poll_answer (W : World) (headers : headers_t) (generation_id : string)
    (t0 : trace) (j : nat) (st : ideogram_status) : Prop :=
  ideogram_poll W (t0 ++ poll_rounds headers generation_id j ++ [Sleep 2])
    generation_id headers = Returns st.

Definition completed (st : ideogram_status) : bool :=
  bool_decide (ig_state st = Some "completed").

(** The rows of a batch that are not skipped. *)
Definition titled (pose_data : row) : bool :=
  PyStr.truthy (dict_get pose_data "Content Title" "").

Definition count_titled (yoga_poses : list row) : nat :=
  length (List.filter titled yoga_poses).

(** The storage and the sheet never raise. *)
Definition storage_never_raises (W : World) : Prop :=
  (forall t name data, exists f, drive_files_create W t name data = Returns f)
  /\ (forall t file, drive_permissions_create W t file = Returns tt)
  /\ (forall t sheet_id range values,
         sheets_values_update W t sheet_id range values = Returns tt).

(** What one row of the batch may leave in the trace: at most [n] uploads
    and [k] sheet writes, each write aimed at the row's own cell. *)
Definition row_trace (sheet_id : string) (i n k : nat) (d : trace) : Prop :=
  storage_within n k d /\ writes_row sheet_id i d.

(** The outcome is a normal return, provided the storage and the sheet
    never raise. *)
Definition ok_if_storage {A} (W : World) (o : outcome A) : Prop :=
  storage_never_raises W -> returned o.

(** What a titled row logs before its image is asked for. *)
Definition row_prologue (total i : nat) (pose_data : row) : trace :=
  let pose_name := dict_get pose_data "Content Title" "" in
  [LogInfo ("Processing pose " +:+ PyStr.of_int (Z.of_nat i + 1)%Z +:+ "/"
            +:+ PyStr.of_int (Z.of_nat total) +:+ ": " +:+ pose_name);
   LogInfo ("Generated prompt for " +:+ pose_name +:+ ": "
            +:+ craft_prompt_text pose_data);
   LogInfo ("Generating image for " +:+ pose_name +:+ "...")].

(** The trace of a row, and of a batch, when every generation logs [msg]
    and gives nothing. *)
Definition failed_row (msg : string) (total i : nat) (pose_data : row) : trace :=
  if titled pose_data then
    row_prologue total i pose_data
    ++ [LogError msg;
        LogError ("Failed to generate image for "
                  +:+ dict_get pose_data "Content Title" "")]
  else [].

Fixpoint failed_rows (msg : string) (total i : nat) (yoga_poses : list row)
  : trace :=
  match yoga_poses with
  | [] => []
  | pose_data :: rest =>
      failed_row msg total i pose_data ++ failed_rows msg total (S i) rest
  end.

(** ** Sample inputs *)

Definition row_three_spaces : row := dict [("Content Title", "A   B")].
Definition row_warrior : row :=
  dict [("Content Title", "Warrior II"); ("Image Style", "flat");
        ("Background Color", "white"); ("Theme Description", "calm")].

Definition refused : exception := Exception "ConnectionError" "connection refused".

Definition png : bytes := [Byte.x89; Byte.x50; Byte.x4e; Byte.x47].

Definition lookup_key (keys : list (string * string)) (name : string)
  : option string :=
  snd <$> List.find (fun kv => bool_decide (kv.1 = name)) keys.

(** A world with the given API keys, status script (by number of earlier
    status requests), sheet content and file store answer; every other
    request succeeds. *)
Definition sample_world (keys : list (string * string))
    (statuses : nat -> ideogram_status) (sheet : list (list string))
    (drive : reply drive_file) : World :=
  {| getenv := lookup_key keys;
     path_exists := fun _ => true;
     b64decode := fun _ => Returns png;
     stdin_line := fun _ => "sheet-1";
     service_account_load := fun _ => Returns "creds";
     openai_generations := fun _ _ _ => Returns {| oa_data := Some [Some "iVBORw=="] |};
     ideogram_generation := fun _ _ _ => Returns {| ig_generation_id := Some "gen-1" |};
     ideogram_poll := fun t _ _ => Returns (statuses (count_events is_poll t));
     http_get := fun _ _ => Returns {| status_code := 200; content := png |};
     stability_text_to_image :=
       fun _ _ _ => Returns {| st_artifacts := Some [Some "iVBORw=="] |};
     sheets_values_get := fun _ _ _ => Returns (Some sheet);
     sheets_values_update := fun _ _ _ _ => Returns tt;
     drive_files_create := fun _ _ _ => drive;
     drive_permissions_create := fun _ _ => Returns tt |}.

Definition status_of (state : string) : ideogram_status :=
  {| ig_state := Some state; ig_image_url := None |}.

Definition done_at (n : nat) (k : nat) : ideogram_status :=
  if k <? n then status_of "processing"
  else {| ig_state := Some "completed"; ig_image_url := Some "https://img/1.png" |}.

Definition two_poses : list (list string) :=
  [["Content Title"; "Image Style"]; ["Tree"; "flat"]; ["Cobra"]].

Definition drive_ok : reply drive_file :=
  Returns {| file_id := Some "f1";
             webContentLink := Some "https://drive.google.com/uc?id=f1&export=download" |}.

Definition world_29_then_done : World :=
  sample_world [("IDEOGRAM_API_KEY", "key")] (done_at 29) two_poses drive_ok.
Definition world_processing : World :=
  sample_world [("IDEOGRAM_API_KEY", "key")] (fun _ => status_of "processing") two_poses drive_ok.
Definition world_failed : World :=
  sample_world [("IDEOGRAM_API_KEY", "key")] (fun _ => status_of "failed") two_poses drive_ok.
Definition world_no_keys : World :=
  sample_world [] (fun _ => status_of "processing") two_poses drive_ok.
Definition world_drive_down : World :=
  sample_world [("OPENAI_API_KEY", "key")] (fun _ => status_of "processing") two_poses
    (Raises refused).
Definition world_openai : World :=
  sample_world [("OPENAI_API_KEY", "key")] (fun _ => status_of "processing") two_poses drive_ok.

(** A raw row cut or padded to the width of the header: extra cells
    dropped, missing cells filled with the empty string. *)
Definition one_cell_per_header (headers cells : list string) : list string :=
  take (length headers)
    (cells ++ replicate (length headers - length cells) EmptyString).

Definition download_first : string :=
  "https://drive.google.com/uc?export=download&id=f1".

Definition world_download_first : World :=
  sample_world [("OPENAI_API_KEY", "key")] (fun _ => status_of "processing") two_poses
    (Returns {| file_id := Some "f1"; webContentLink := Some download_first |}).

(** ** More trace readers and sample worlds *)



Definition all_keys : list (string * string) :=
  [("OPENAI_API_KEY", "key"); ("IDEOGRAM_API_KEY", "key"); ("STABILITY_API_KEY", "key")].

(** A world for the polling provider: the answer to the submission, the
    answer to each status request (by number of earlier ones), the answer to
    the image download. *)
Definition polling_world (submit : reply ideogram_submitted)
    (poll : nat -> reply ideogram_status) (download : reply http_response) : World :=
  {| getenv := lookup_key all_keys;
     path_exists := fun _ => true;
     b64decode := fun _ => Returns png;
     stdin_line := fun _ => "sheet-1";
     service_account_load := fun _ => Returns "creds";
     openai_generations := fun _ _ _ => Raises refused;
     ideogram_generation := fun _ _ _ => submit;
     ideogram_poll := fun t _ _ => poll (count_events is_poll t);
     http_get := fun _ _ => download;
     stability_text_to_image := fun _ _ _ => Raises refused;
     sheets_values_get := fun _ _ _ => Returns (Some two_poses);
     sheets_values_update := fun _ _ _ _ => Returns tt;
     drive_files_create := fun _ _ _ => drive_ok;
     drive_permissions_create := fun _ _ => Returns tt |}.

(** A world for the two direct providers. *)
Definition provider_world (openai : reply openai_body)
    (stability : reply stability_body) (decode : string -> reply bytes) : World :=
  {| getenv := lookup_key all_keys;
     path_exists := fun _ => true;
     b64decode := decode;
     stdin_line := fun _ => "sheet-1";
     service_account_load := fun _ => Returns "creds";
     openai_generations := fun _ _ _ => openai;
     ideogram_generation := fun _ _ _ => Raises refused;
     ideogram_poll := fun _ _ _ => Raises refused;
     http_get := fun _ _ => Raises refused;
     stability_text_to_image := fun _ _ _ => stability;
     sheets_values_get := fun _ _ _ => Returns (Some two_poses);
     sheets_values_update := fun _ _ _ _ => Returns tt;
     drive_files_create := fun _ _ _ => drive_ok;
     drive_permissions_create := fun _ _ => Returns tt |}.

(** A world for the run as a whole: is the key file there, does it load,
    what the sheet holds, what the file store and the sheet answer.  The
    direct provider always gives an image. *)
Definition office_world (file_there : bool) (load : reply Credentials)
    (typed : string) (sheet : reply (option (list (list string))))
    (drive : reply drive_file) (permission update : reply unit) : World :=
  {| getenv := lookup_key all_keys;
     path_exists := fun _ => file_there;
     b64decode := fun _ => Returns png;
     stdin_line := fun _ => typed;
     service_account_load := fun _ => load;
     openai_generations := fun _ _ _ => Returns {| oa_data := Some [Some "iVBORw=="] |};
     ideogram_generation := fun _ _ _ => Raises refused;
     ideogram_poll := fun _ _ _ => Raises refused;
     http_get := fun _ _ => Raises refused;
     stability_text_to_image := fun _ _ _ => Raises refused;
     sheets_values_get := fun _ _ _ => sheet;
     sheets_values_update := fun _ _ _ _ => update;
     drive_files_create := fun _ _ _ => drive;
     drive_permissions_create := fun _ _ => permission |}.

Definition completed_with (url : option string) : ideogram_status :=
  {| ig_state := Some "completed"; ig_image_url := url |}.

Definition submitted_ok : reply ideogram_submitted :=
  Returns {| ig_generation_id := Some "gen-1" |}.

Definition image_ok : reply http_response :=
  Returns {| status_code := 200; content := png |}.

(** The link the upload returns for a file, what a successful upload leaves
    in the trace, and the sheet write for the row at position [i]. *)
Definition uploaded_link (file : drive_file) : string :=
  clean_download_link (default "" (webContentLink file)).

Definition upload_trace (filename : string) (image : bytes) (file : drive_file)
  : trace :=
  [DriveCreate filename "image/png" image;
   DrivePermission (file_id file) "anyone" "reader";
   Print ("IF STATEMENT " +:+ uploaded_link file);
   LogInfo ("Created image URL: " +:+ uploaded_link file)].

Definition sheet_write (sheet_id : string) (i : nat) (image_url : string) : event :=
  SheetsUpdate sheet_id ("Sheet1!E" +:+ PyStr.of_int (Z.of_nat i + 2)%Z)
    "USER_ENTERED" [[image_formula image_url]].

(** The sheet identifier the run works on, and what the run leaves in the
    trace before it authenticates. *)
Definition chosen_sheet_id (W : World) (argv_sheet_id : option string) (t : trace)
  : string :=
  if opt_truthy argv_sheet_id then default "" argv_sheet_id else stdin_line W t.

Definition main_opening (argv_sheet_id : option string) (api : string) : trace :=
  (if opt_truthy argv_sheet_id then [] else [Input "Enter Google Sheet ID: "])
  ++ [Print ("Using " +:+ PyStr.upper api +:+ " API for image generation")].

Definition retrieved_line (n : nat) : event :=
  LogInfo ("Retrieved " +:+ PyStr.of_int (Z.of_nat n) +:+ " yoga poses from sheet").

Definition authenticated : trace :=
  [ServiceAccountLoad SERVICE_ACCOUNT_FILE;
   LogInfo "Successfully authenticated using service account"].

Definition sheet_ok : reply (option (list (list string))) := Returns (Some two_poses).

(** What a row leaves in the trace once its image is generated, when the
    upload and the sheet write both succeed. *)
Definition row_epilogue (sheet_id : string) (i : nat) (pose_name : string)
    (image : bytes) (file : drive_file) : trace :=
  upload_trace (image_filename pose_name) image file
  ++ [sheet_write sheet_id i (uploaded_link file);
      LogInfo ("Updated cell " +:+ range_name (Z.of_nat i + 1)%Z +:+ " with image");
      LogInfo ("Successfully processed " +:+ pose_name)].

Definition file_without_link : drive_file :=
  {| file_id := Some "f2"; webContentLink := None |}.

(** A space turned into an underscore, any other character kept. *)
Definition underscored (c : ascii) : ascii :=
  if decide (PyStr.space = c) then "_"%char else c.

(** * Facts *)

Example replace_pairs_once : PyStr.replace "a  b   c" "  " " " = "a b  c".
Proof. reflexivity. Qed.

Example replace_empty_pattern : PyStr.replace "abc" "" "-" = "-a-b-c-".
Proof. reflexivity. Qed.

Example strip_both_ends : PyStr.strip "  a b  " = "a b".
Proof. reflexivity. Qed.

Example of_int_decimal :
  PyStr.of_int 12%Z = "12" /\ PyStr.of_int 0%Z = "0" /\ PyStr.of_int (-3)%Z = "-3".
Proof. repeat split; reflexivity. Qed.

Example image_filename_warrior : image_filename "Warrior II" = "yoga_warrior_ii.png".
Proof. reflexivity. Qed.

(** ** Strings *)

Section StringFacts.

Implicit Types (s t a b old new : string) (c : ascii).

Lemma str_app_cons c s t : String c s +:+ t = String c (s +:+ t).
Proof. reflexivity. Qed.

Lemma str_app_nil_l s : "" +:+ s = s.
Proof. reflexivity. Qed.

Lemma str_app_nil_r s : s +:+ "" = s.
Proof.
  induction s as [|c s IH]; [reflexivity|]. by rewrite str_app_cons, IH.
Qed.

Lemma str_app_assoc a b t : (a +:+ b) +:+ t = a +:+ (b +:+ t).
Proof.
  induction a as [|c a IH]; [reflexivity|]. by rewrite !str_app_cons, IH.
Qed.

Lemma str_app_length a b : String.length (a +:+ b) = String.length a + String.length b.
Proof.
  induction a as [|c a IH]; [reflexivity|].
  rewrite str_app_cons. cbn. by rewrite IH.
Qed.

Lemma prefix_cons c d a b :
  String.prefix (String c a) (String d b) =
  if decide (c = d) then String.prefix a b else false.
Proof.
  cbn. destruct (ascii_dec c d), (decide (c = d)); congruence.
Qed.

Lemma prefix_nil s : String.prefix "" s = true.
Proof. by destruct s. Qed.

Lemma prefix_app a t : String.prefix a (a +:+ t) = true.
Proof.
  induction a as [|c a IH]; [apply prefix_nil|].
  rewrite str_app_cons, prefix_cons. by rewrite decide_True.
Qed.

Lemma prefix_split a s : String.prefix a s = true -> exists r, s = a +:+ r.
Proof.
  revert s. induction a as [|c a IH]; intros s H.
  - by exists s.
  - destruct s as [|d s]; [discriminate|].
    rewrite prefix_cons in H. case_decide; [|discriminate]. subst d.
    destruct (IH _ H) as [r ->]. by exists r.
Qed.

Lemma prefix_app_l a s t : String.prefix a s = true -> String.prefix a (s +:+ t) = true.
Proof.
  intros [r ->]%prefix_split. rewrite str_app_assoc. apply prefix_app.
Qed.

(** ** [replace] *)

Lemma replace_scan_skip old new a t :
  PyStr.replace_scan old new (String.length a) (a +:+ t)
  = PyStr.replace_scan old new 0 t.
Proof.
  induction a as [|c a IH]; [reflexivity|]. cbn. exact IH.
Qed.

Lemma replace_scan_hit old new t :
  old <> "" ->
  PyStr.replace_scan old new 0 (old +:+ t)
  = new +:+ PyStr.replace_scan old new 0 t.
Proof.
  intros Hne. destruct old as [|c old]; [done|].
  pose proof (prefix_app (String c old) t) as Hp.
  rewrite str_app_cons in *.
  unfold PyStr.replace_scan at 1; fold PyStr.replace_scan. rewrite Hp.
  replace (String.length (String c old) - 1) with (String.length old) by (cbn; lia).
  by rewrite replace_scan_skip.
Qed.

Lemma replace_scan_miss old new c t :
  String.prefix old (String c t) = false ->
  PyStr.replace_scan old new 0 (String c t)
  = String c (PyStr.replace_scan old new 0 t).
Proof.
  intros Hp. unfold PyStr.replace_scan at 1; fold PyStr.replace_scan.
  by rewrite Hp.
Qed.

Lemma replace_nonempty s old new :
  old <> "" -> PyStr.replace s old new = PyStr.replace_scan old new 0 s.
Proof. intros H. unfold PyStr.replace. by destruct old. Qed.

Lemma prefix_before_fresh c p a t :
  occurs c p = false ->
  String.prefix p (a +:+ String c t) = true ->
  String.prefix p a = true.
Proof.
  revert a. induction p as [|d p IH]; intros a Hocc Hp; [apply prefix_nil|].
  cbn in Hocc. apply orb_false_iff in Hocc as [Hcd Hocc].
  apply bool_decide_eq_false in Hcd.
  destruct a as [|e a].
  - rewrite str_app_nil_l, prefix_cons in Hp.
    case_decide; [congruence|discriminate].
  - rewrite str_app_cons in Hp. rewrite prefix_cons in *.
    case_decide; [|discriminate]. by apply IH.
Qed.

(** Cutting at an occurrence of a head-fresh pattern: the occurrence is
    replaced and both sides are scanned on their own. *)
Lemma replace_scan_cut old new :
  head_fresh old = true ->
  forall a b,
    PyStr.replace_scan old new 0 (a +:+ old +:+ b)
    = PyStr.replace_scan old new 0 a +:+ new +:+ PyStr.replace_scan old new 0 b.
Proof.
  intros Hfresh.
  assert (old <> "") as Hne by (by destruct old).
  intros a. remember (String.length a) as n eqn:Hn.
  revert a Hn. induction (lt_wf n) as [n _ IH]. intros a Hn b.
  destruct a as [|c a].
  - rewrite str_app_nil_l. by rewrite replace_scan_hit.
  - destruct (String.prefix old (String c a +:+ old +:+ b)) eqn:Hp.
    + assert (String.prefix old (String c a) = true) as Hpa.
      { destruct old as [|d p]; [done|]. cbn in Hfresh.
        apply negb_true_iff in Hfresh.
        rewrite (str_app_cons c a) in Hp. rewrite prefix_cons in *.
        case_decide; [|discriminate].
        eapply prefix_before_fresh; [exact Hfresh|].
        rewrite <- str_app_cons. exact Hp. }
      destruct (prefix_split _ _ Hpa) as [r Hr]. rewrite Hr.
      rewrite str_app_assoc. rewrite !replace_scan_hit by done.
      assert (String.length r < n) as Hlt.
      { subst n. rewrite Hr, str_app_length. destruct old; [done|cbn; lia]. }
      rewrite (IH _ Hlt r eq_refl). by rewrite str_app_assoc.
    + assert (String.prefix old (String c a) = false) as Hpa.
      { destruct (String.prefix old (String c a)) eqn:E; [|done].
        by rewrite (prefix_app_l _ _ _ E) in Hp. }
      rewrite str_app_cons in *. rewrite replace_scan_miss by done.
      rewrite (replace_scan_miss _ _ _ _ Hpa).
      assert (String.length a < n) as Hlt by (subst n; cbn; lia).
      by rewrite (IH _ Hlt a eq_refl).
Qed.

Lemma contains_cons old c r :
  PyStr.contains old (String c r)
  = String.prefix old (String c r) || PyStr.contains old r.
Proof. reflexivity. Qed.

Lemma replace_scan_absent old new s :
  PyStr.contains old s = false -> PyStr.replace_scan old new 0 s = s.
Proof.
  induction s as [|c r IH]; [reflexivity|].
  rewrite contains_cons. intros [Hp Hr]%orb_false_iff.
  rewrite replace_scan_miss by done. by rewrite IH.
Qed.

Lemma contains_skip_fresh c p a b :
  occurs c a = false ->
  PyStr.contains (String c p) (a +:+ b) = PyStr.contains (String c p) b.
Proof.
  induction a as [|d a IH]; [reflexivity|].
  cbn [occurs]. intros [Hcd Ha]%orb_false_iff.
  apply bool_decide_eq_false in Hcd.
  rewrite str_app_cons, contains_cons, prefix_cons.
  rewrite decide_False by done. cbn [orb]. by apply IH.
Qed.

(** ** [strip] *)

Lemma lstrip_first s : not_space (PyStr.first_char (PyStr.lstrip s)) = true.
Proof.
  induction s as [|c r IH]; [reflexivity|]. cbn [PyStr.lstrip].
  destruct (PyStr.isspace c) eqn:E; [exact IH|].
  cbn. by rewrite E.
Qed.

Lemma rstrip_first s :
  not_space (PyStr.first_char s) = true ->
  not_space (PyStr.first_char (PyStr.rstrip s)) = true.
Proof.
  destruct s as [|c r]; [done|]. cbn [PyStr.first_char not_space].
  intros Hc%negb_true_iff. cbn [PyStr.rstrip]. rewrite Hc. cbn. by rewrite Hc.
Qed.

Lemma rstrip_last s : not_space (PyStr.last_char (PyStr.rstrip s)) = true.
Proof.
  induction s as [|c r IH]; [reflexivity|]. cbn [PyStr.rstrip].
  destruct (PyStr.rstrip r) as [|d r'] eqn:Er.
  - destruct (PyStr.isspace c) eqn:E; cbn; [done|by rewrite E].
  - rewrite andb_false_r. exact IH.
Qed.

Lemma strip_edges s :
  not_space (PyStr.first_char (PyStr.strip s)) = true
  /\ not_space (PyStr.last_char (PyStr.strip s)) = true.
Proof.
  unfold PyStr.strip. split; [apply rstrip_first, lstrip_first|apply rstrip_last].
Qed.

(** ** Merging pairs of spaces *)

Lemma spaces_two n t : PyStr.spaces (S (S n)) +:+ t = "  " +:+ PyStr.spaces n +:+ t.
Proof. reflexivity. Qed.

Lemma prefix_pair c t :
  String.prefix "  " (String c t)
  = bool_decide (c = PyStr.space) && negb (not_blank (PyStr.first_char t)).
Proof.
  change "  " with (String PyStr.space (String PyStr.space "")).
  rewrite prefix_cons. destruct t as [|d t].
  - by case_decide; case_bool_decide.
  - rewrite prefix_cons, prefix_nil. cbn [PyStr.first_char not_blank].
    rewrite negb_involutive.
    repeat case_decide; repeat case_bool_decide; try congruence; reflexivity.
Qed.

Lemma collapse_run n t :
  not_blank (PyStr.first_char t) = true ->
  collapse_pairs (PyStr.spaces n +:+ t)
  = PyStr.spaces (Nat.div2 (S n)) +:+ collapse_pairs t.
Proof.
  intros Ht. unfold collapse_pairs. rewrite !replace_nonempty by done.
  enough (forall k,
    (PyStr.replace_scan "  " " " 0 (PyStr.spaces k +:+ t)
     = PyStr.spaces (Nat.div2 (S k)) +:+ PyStr.replace_scan "  " " " 0 t)
    /\ (PyStr.replace_scan "  " " " 0 (PyStr.spaces (S k) +:+ t)
     = PyStr.spaces (Nat.div2 (S (S k))) +:+ PyStr.replace_scan "  " " " 0 t))
    as H by apply H.
  induction k as [|k [IH1 IH2]].
  - split; [reflexivity|].
    change (PyStr.spaces 1 +:+ t) with (String PyStr.space t).
    rewrite replace_scan_miss; [reflexivity|].
    rewrite prefix_pair, Ht. apply andb_false_r.
  - split; [exact IH2|].
    rewrite spaces_two, replace_scan_hit by done. rewrite IH1. reflexivity.
Qed.

Lemma last_char_cons c d r :
  PyStr.last_char (String c (String d r)) = PyStr.last_char (String d r).
Proof. reflexivity. Qed.

Lemma collapse_app a t :
  not_blank (PyStr.last_char a) = true ->
  collapse_pairs (a +:+ t) = collapse_pairs a +:+ collapse_pairs t.
Proof.
  unfold collapse_pairs. rewrite !replace_nonempty by done.
  remember (String.length a) as n eqn:Hn. revert a Hn.
  induction (lt_wf n) as [n _ IH]. intros a Hn Ha.
  destruct a as [|c a]; [reflexivity|].
  destruct (String.prefix "  " (String c a)) eqn:Hp.
  - rewrite prefix_pair in Hp. apply andb_true_iff in Hp as [Hc Hd].
    apply bool_decide_eq_true in Hc. subst c.
    destruct a as [|d a]; [done|].
    cbn [PyStr.first_char not_blank] in Hd. rewrite negb_involutive in Hd.
    apply bool_decide_eq_true in Hd. subst d.
    change (String PyStr.space (String PyStr.space a)) with ("  " +:+ a) in *.
    rewrite str_app_assoc, !replace_scan_hit by done.
    assert (String.length a < n) as Hlt by (subst n; rewrite str_app_length; cbn; lia).
    rewrite (IH _ Hlt a eq_refl); [by rewrite str_app_assoc|].
    destruct a as [|e a]; [done|]. exact Ha.
  - assert (String.prefix "  " (String c a +:+ t) = false) as Hpt.
    { rewrite str_app_cons, prefix_pair. rewrite prefix_pair in Hp.
      apply andb_false_iff in Hp as [->|Hp]; [done|].
      destruct a as [|d a].
      - destruct (bool_decide (c = PyStr.space)) eqn:E; [|done].
        apply bool_decide_eq_true in E. subst c. done.
      - rewrite str_app_cons. cbn [PyStr.first_char] in *. rewrite Hp.
        apply andb_false_r. }
    rewrite str_app_cons in *. rewrite !replace_scan_miss by done.
    assert (String.length a < n) as Hlt by (subst n; cbn; lia).
    rewrite str_app_cons. f_equal. apply (IH _ Hlt a eq_refl).
    destruct a as [|d a]; [done|]. exact Ha.
Qed.

End StringFacts.

(** ** The prompt *)

Section PromptFacts.

Implicit Types (pose_data : row) (key u v a b : string).

Lemma dict_get_insert_absent pose_data key k :
  pose_data !! key = None ->
  dict_get (<[key := ""]> pose_data) k "" = dict_get pose_data k "".
Proof.
  intros Hnone. unfold dict_get. destruct (decide (key = k)) as [->|Hne].
  - by rewrite lookup_insert_eq, Hnone.
  - by rewrite lookup_insert_ne.
Qed.

Lemma craft_prompt_text_ext (r1 r2 : row) :
  (forall key, key ∈ prompt_keys -> dict_get r1 key "" = dict_get r2 key "") ->
  craft_prompt_text r1 = craft_prompt_text r2.
Proof.
  intros H. unfold craft_prompt_text, assembled_prompt.
  rewrite !(H _) by (unfold prompt_keys; set_solver). reflexivity.
Qed.



End PromptFacts.



(** What [craft_prompt] does.  It never raises and its only effect is one
    line of the log; the prompt is a function of the four columns alone, a
    missing column counting as the empty string; the prompt neither starts
    nor ends with white space.  The clean-up of doubled spaces is a single
    pass of [replace] from the left: a run of [n] spaces between two other
    characters of the text left after the removal of None comes out as a
    run of [n] halved and rounded up, which is one space only for [n] at
    most 2. *)
Theorem craft_prompt_facts :
  (forall (pose_data : row) (t : trace),
      craft_prompt pose_data t
      = (Ret (craft_prompt_text pose_data),
         t ++ [LogInfo ("Generated prompt for "
                        +:+ dict_get pose_data "Content Title" "" +:+ ": "
                        +:+ craft_prompt_text pose_data)]))
  /\ (forall r1 r2 : row,
      (forall key, key ∈ prompt_keys -> dict_get r1 key "" = dict_get r2 key "") ->
      craft_prompt_text r1 = craft_prompt_text r2)
  /\ (forall (pose_data : row) (key : string),
      pose_data !! key = None ->
      craft_prompt_text pose_data = craft_prompt_text (<[key := ""]> pose_data))
  /\ (forall pose_data : row,
      not_space (PyStr.first_char (craft_prompt_text pose_data)) = true
      /\ not_space (PyStr.last_char (craft_prompt_text pose_data)) = true)
  /\ (forall (pose_data : row) (a b : string) (n : nat),
      remove_none (assembled_prompt pose_data) = a +:+ PyStr.spaces n +:+ b ->
      not_blank (PyStr.last_char a) = true ->
      not_blank (PyStr.first_char b) = true ->
      craft_prompt_text pose_data
      = PyStr.strip (collapse_pairs a +:+ PyStr.spaces (Nat.div2 (S n))
                     +:+ collapse_pairs b)).
Proof.
  split; [reflexivity|].
  split; [exact craft_prompt_text_ext|].
  split.
  { intros pose_data key Hnone. apply craft_prompt_text_ext. intros k _.
    symmetry. by apply dict_get_insert_absent. }
  split; [intros pose_data; apply strip_edges|].
  intros pose_data a b n Hrun Ha Hb.
  unfold craft_prompt_text, clean_prompt.
  fold (remove_none (assembled_prompt pose_data)). rewrite Hrun.
  fold (collapse_pairs (a +:+ PyStr.spaces n +:+ b)).
  rewrite collapse_app by done. by rewrite collapse_run.
Qed.

Lemma craft_prompt_facts_three_spaces :
  remove_none (assembled_prompt row_three_spaces)
  = " A" +:+ PyStr.spaces 3 +:+ "B yoga pose,  background. "
  /\ craft_prompt_text row_three_spaces = "A  B yoga pose, background.".
Proof.
  split; [reflexivity|].
  rewrite (proj2 (proj2 (proj2 (proj2 craft_prompt_facts)))
             row_three_spaces " A" "B yoga pose,  background. " 3
             eq_refl eq_refl eq_refl).
  reflexivity.
Defined.

(** C6. The clean-up of [craft_prompt] is meant to remove doubled spaces
    and misses runs of three and more: at a row whose title is A, three
    spaces, B, the prompt keeps two adjacent spaces between A and B. *)
Lemma C6_three_spaces_not_collapsed :
  assembled_prompt row_three_spaces = " A   B yoga pose,  background. "
  /\ craft_prompt_text row_three_spaces = "A  B yoga pose, background."
  /\ PyStr.contains "  " (craft_prompt_text row_three_spaces) = true.
Proof. repeat split; reflexivity. Qed.

(** ** Running the monad *)

Section RunFacts.

Context {A B : Type}.

Lemma run_ret (a : A) (D : trace -> Prop) (Q : outcome A -> Prop) :
  D [] -> Q (Ret a) -> run_spec (ret a) D Q.
Proof. intros HD HQ t. exists (Ret a), []. by rewrite app_nil_r. Qed.

Lemma run_raise (r : raised) (D : trace -> Prop) (Q : outcome A -> Prop) :
  D [] -> Q (Raise r) -> run_spec (raise r) D Q.
Proof. intros HD HQ t. exists (Raise r), []. by rewrite app_nil_r. Qed.

Lemma run_ask (f : trace -> reply A) (D : trace -> Prop)
    (Q : outcome (reply A) -> Prop) :
  D [] -> (forall r, Q (Ret r)) -> run_spec (ask f) D Q.
Proof. intros HD HQ t. exists (Ret (f t)), []. by rewrite app_nil_r. Qed.

Lemma run_of_reply (r : reply A) (D : trace -> Prop) (Q : outcome A -> Prop) :
  D [] -> (forall a, Q (Ret a)) -> (forall e, Q (Raise (RaisedException e))) ->
  run_spec (of_reply r) D Q.
Proof.
  intros HD HR HE t. destruct r as [e|a].
  - exists (Raise (RaisedException e)), []. by rewrite app_nil_r.
  - exists (Ret a), []. by rewrite app_nil_r.
Qed.

Lemma run_bind (m : M A) (k : A -> M B) (D1 D2 D : trace -> Prop)
    (Q1 : outcome A -> Prop) (Q : outcome B -> Prop) :
  run_spec m D1 Q1 ->
  (forall a, Q1 (Ret a) -> run_spec (k a) D2 Q) ->
  (forall r, Q1 (Raise r) -> Q (Raise r)) ->
  (forall d1, D1 d1 -> D d1) ->
  (forall d1 d2, D1 d1 -> D2 d2 -> D (d1 ++ d2)) ->
  run_spec (bind m k) D Q.
Proof.
  intros Hm Hk Hr HD1 HD t. unfold bind.
  destruct (Hm t) as (o & d1 & -> & Hd1 & Ho). destruct o as [a|r].
  - destruct (Hk a Ho (t ++ d1)) as (o2 & d2 & -> & Hd2 & Ho2).
    exists o2, (d1 ++ d2). rewrite app_assoc. auto.
  - exists (Raise r), d1. auto.
Qed.

Lemma run_weaken (m : M A) (D D' : trace -> Prop) (Q Q' : outcome A -> Prop) :
  run_spec m D Q ->
  (forall d, D d -> D' d) -> (forall o, Q o -> Q' o) ->
  run_spec m D' Q'.
Proof.
  intros Hm HD HQ t. destruct (Hm t) as (o & d & E & Hd & Ho).
  exists o, d. auto.
Qed.

Lemma run_try (m : M A) (h : exception -> M A) (D : trace -> Prop)
    (Q : outcome A -> Prop) :
  run_spec m D no_exit ->
  (forall e, run_spec (h e) D Q) ->
  (forall a, Q (Ret a)) ->
  (forall d1 d2, D d1 -> D d2 -> D (d1 ++ d2)) ->
  run_spec (try_except m h) D Q.
Proof.
  intros Hm Hh HQ HD t. unfold try_except.
  destruct (Hm t) as (o & d1 & -> & Hd1 & Ho).
  destruct o as [a|[e|code]]; [by exists (Ret a), d1| |done].
  destruct (Hh e (t ++ d1)) as (o2 & d2 & -> & Hd2 & Ho2).
  exists o2, (d1 ++ d2). rewrite app_assoc. auto.
Qed.

End RunFacts.

Lemma run_emit (e : event) (D : trace -> Prop) (Q : outcome unit -> Prop) :
  D [e] -> Q (Ret tt) -> run_spec (emit e) D Q.
Proof. intros HD HQ t. by exists (Ret tt), [e]. Qed.

Lemma count_events_app p d1 d2 :
  count_events p (d1 ++ d2) = count_events p d1 + count_events p d2.
Proof. induction d1 as [|e d1 IH]; [reflexivity|]. cbn. rewrite IH. lia. Qed.

Lemma storage_free_app d1 d2 :
  storage_free d1 -> storage_free d2 -> storage_free (d1 ++ d2).
Proof. apply Forall_app_2. Qed.

Lemma storage_free_within d : storage_free d -> storage_within 0 0 d.
Proof.
  induction 1 as [|e d He _ IH]; [by split|].
  apply orb_false_iff in He as [Hu Hs]. destruct IH as [IHu IHs].
  split; cbn; [rewrite Hu|rewrite Hs]; lia.
Qed.

Lemma storage_within_app n1 k1 n2 k2 d1 d2 :
  storage_within n1 k1 d1 -> storage_within n2 k2 d2 ->
  storage_within (n1 + n2) (k1 + k2) (d1 ++ d2).
Proof.
  intros [Hu1 Hs1] [Hu2 Hs2]. split; rewrite count_events_app; lia.
Qed.

Lemma storage_free_writes_row sheet_id i d :
  storage_free d -> writes_row sheet_id i d.
Proof.
  intros Hd. eapply Forall_impl; [exact Hd|].
  intros [] H; try exact I. discriminate H.
Qed.

(** Steps of a computation that touches neither the storage nor the
    sheet. *)
Ltac quiet_step :=
  lazymatch goal with
  | |- forall _, _ => intros
  | |- storage_free [] => constructor
  | |- storage_free [_] => by repeat constructor
  | |- storage_free (_ ++ _) => by apply storage_free_app
  | |- storage_free _ => assumption
  | |- no_exit (Raise ?r) => first [exact I | by destruct r]
  | |- no_exit _ => exact I
  | |- returned (Ret _) => exact I
  | |- returned (Raise _) => done
  | |- run_spec (bind _ _) storage_free no_exit =>
      eapply (run_bind _ _ storage_free storage_free storage_free no_exit)
  | |- run_spec (bind _ _) storage_free returned =>
      eapply (run_bind _ _ storage_free storage_free storage_free returned)
  | |- run_spec (ret _) _ _ => apply run_ret
  | |- run_spec (raise _) _ _ => apply run_raise
  | |- run_spec (ask _) _ _ => apply run_ask
  | |- run_spec (of_reply _) _ _ => apply run_of_reply
  | |- run_spec (emit _) _ _ => apply run_emit
  | |- run_spec (log_info _) _ _ => apply run_emit
  | |- run_spec (log_error _) _ _ => apply run_emit
  | |- run_spec (try_except _ _) _ _ => apply run_try
  | |- run_spec (match ?x with _ => _ end) _ _ => destruct x
  end.

Section QuietFacts.

Variable W : World.

Lemma for_range_quiet {A} (body : nat -> M (loop_exit A)) start count :
  (forall i, run_spec (body i) storage_free no_exit) ->
  run_spec (for_range body start count) storage_free no_exit.
Proof.
  intros Hbody. revert start.
  induction count as [|k IH]; intros start; cbn [for_range];
    repeat quiet_step; [apply Hbody|apply IH].
Qed.

Lemma ideogram_poll_body_quiet headers generation_id attempt :
  run_spec (ideogram_poll_body W headers generation_id attempt)
    storage_free no_exit.
Proof. unfold ideogram_poll_body. repeat quiet_step. Qed.

Lemma generate_image_openai_quiet prompt :
  run_spec (generate_image_openai W prompt) storage_free returned.
Proof. unfold generate_image_openai. repeat quiet_step. Qed.

Lemma generate_image_ideogram_quiet prompt :
  run_spec (generate_image_ideogram W prompt) storage_free returned.
Proof.
  unfold generate_image_ideogram. repeat quiet_step.
  apply for_range_quiet, ideogram_poll_body_quiet.
Qed.

Lemma generate_image_stability_quiet prompt :
  run_spec (generate_image_stability W prompt) storage_free returned.
Proof. unfold generate_image_stability. repeat quiet_step. Qed.

Lemma generate_image_quiet prompt api :
  run_spec (generate_image W prompt api) storage_free returned.
Proof.
  unfold generate_image, api_functions.
  repeat case_bool_decide;
    auto using generate_image_openai_quiet, generate_image_ideogram_quiet,
      generate_image_stability_quiet.
  repeat quiet_step.
Qed.

End QuietFacts.

(** ** The polling loop *)

Section PollingFacts.

Variable W : World.
Variables (headers : headers_t) (generation_id : string).

Local Abbreviation rounds := (poll_rounds headers generation_id).
Local Abbreviation body := (ideogram_poll_body W headers generation_id).

Lemma poll_rounds_S n : rounds (S n) = rounds n ++ poll_round headers generation_id.
Proof.
  induction n as [|n IH]; [reflexivity|].
  change (rounds (S (S n))) with (poll_round headers generation_id ++ rounds (S n)).
  rewrite IH at 1. by rewrite app_assoc.
Qed.

Lemma poll_answer_shift t0 j st :
  poll_answer W headers generation_id t0 (S j) st ->
  poll_answer W headers generation_id (t0 ++ poll_round headers generation_id) j st.
Proof.
  unfold poll_answer. intros H. rewrite <- H. f_equal.
  change (rounds (S j)) with (poll_round headers generation_id ++ rounds j).
  by rewrite <- !app_assoc.
Qed.

(** A status other than completed sends the loop to its next round. *)
Lemma ideogram_poll_body_continue attempt t0 st :
  poll_answer W headers generation_id t0 0 st ->
  completed st = false ->
  body attempt t0 = (Ret Continue, t0 ++ poll_round headers generation_id).
Proof.
  unfold poll_answer, completed. cbn [poll_rounds app]. intros Hst Hc.
  unfold ideogram_poll_body, bind, emit, ask, of_reply, ret.
  rewrite Hst, Hc. by rewrite <- app_assoc.
Qed.

(** A completed status with an image that downloads ends the call. *)
Lemma ideogram_poll_body_return attempt t0 st image_url resp :
  poll_answer W headers generation_id t0 0 st ->
  completed st = true ->
  ig_image_url st = Some image_url ->
  PyStr.truthy image_url = true ->
  http_get W (t0 ++ poll_round headers generation_id) image_url = Returns resp ->
  status_code resp = 200%Z ->
  body attempt t0
  = (Ret (Return (Some (content resp))),
     t0 ++ poll_round headers generation_id ++ [HttpGet image_url []]).
Proof.
  unfold poll_answer, completed. cbn [poll_rounds app].
  intros Hst Hc Hurl Htruthy Hget Hcode.
  unfold ideogram_poll_body, bind, emit, ask, of_reply, ret.
  rewrite Hst, Hc, Hurl, Htruthy.
  rewrite <- app_assoc. cbn [app]. fold (poll_round headers generation_id).
  rewrite Hget. rewrite bool_decide_true by done.
  by rewrite <- app_assoc.
Qed.

(** While no status is completed, the loop runs all its rounds. *)
Lemma for_range_no_completion count start t0 :
  (forall j, j < count ->
     exists st, poll_answer W headers generation_id t0 j st /\ completed st = false) ->
  for_range body start count t0 = (Ret None, t0 ++ rounds count).
Proof.
  revert start t0. induction count as [|k IH]; intros start t0 Hall.
  - cbn. by rewrite app_nil_r.
  - destruct (Hall 0 ltac:(lia)) as (st & Hst & Hc).
    cbn [for_range]. unfold bind at 1.
    rewrite (ideogram_poll_body_continue _ _ _ Hst Hc).
    rewrite IH; [by rewrite <- app_assoc|].
    intros j Hj. destruct (Hall (S j) ltac:(lia)) as (st' & Hst' & Hc').
    exists st'. split; [by apply poll_answer_shift|done].
Qed.

(** The first completed status, if its image downloads, ends the loop. *)
Lemma for_range_completion n count start t0 st image_url resp :
  n < count ->
  (forall j, j < n ->
     exists st', poll_answer W headers generation_id t0 j st' /\ completed st' = false) ->
  poll_answer W headers generation_id t0 n st ->
  completed st = true ->
  ig_image_url st = Some image_url ->
  PyStr.truthy image_url = true ->
  http_get W (t0 ++ rounds (S n)) image_url = Returns resp ->
  status_code resp = 200%Z ->
  for_range body start count t0
  = (Ret (Some (Some (content resp))),
     t0 ++ rounds (S n) ++ [HttpGet image_url []]).
Proof.
  revert count start t0.
  induction n as [|n IH]; intros count start t0 Hlt Hall Hst Hc Hurl Htr Hget Hcode;
    (destruct count as [|k]; [lia|]); cbn [for_range]; unfold bind at 1.
  - cbn [poll_rounds] in *. rewrite app_nil_r in *.
    by rewrite (ideogram_poll_body_return _ _ _ _ _ Hst Hc Hurl Htr Hget Hcode).
  - destruct (Hall 0 ltac:(lia)) as (st0 & Hst0 & Hc0).
    rewrite (ideogram_poll_body_continue _ _ _ Hst0 Hc0).
    rewrite (IH k (S start) (t0 ++ poll_round headers generation_id));
      try done; try lia.
    + change (rounds (S (S n)))
        with (poll_round headers generation_id ++ rounds (S n)).
      by rewrite <- !app_assoc.
    + intros j Hj. destruct (Hall (S j) ltac:(lia)) as (st' & Hst' & Hc').
      exists st'. split; [by apply poll_answer_shift|done].
    + by apply poll_answer_shift.
    + rewrite <- Hget. f_equal.
      change (rounds (S (S n)))
        with (poll_round headers generation_id ++ rounds (S n)).
      by rewrite <- !app_assoc.
Qed.

End PollingFacts.

(** ** The polling provider *)

Section IdeogramFacts.

Variable W : World.
Variables (prompt api_key generation_id : string) (t : trace).

Let headers := json_headers api_key.
Let t0 := t ++ [HttpPost ideogram_url headers (ideogram_payload prompt)].

Hypothesis Hkey : getenv W "IDEOGRAM_API_KEY" = Some api_key.
Hypothesis Hkey_truthy : PyStr.truthy api_key = true.
Hypothesis Hsubmit :
  ideogram_generation W t headers (ideogram_payload prompt)
  = Returns {| ig_generation_id := Some generation_id |}.
Hypothesis Hid_truthy : PyStr.truthy generation_id = true.

(** Once the request is accepted, the call is its polling loop. *)
Lemma generate_image_ideogram_submitted :
  generate_image_ideogram W prompt t
  = match for_range (ideogram_poll_body W headers generation_id) 0 max_attempts t0 with
    | (Ret (Some image), t1) => (Ret image, t1)
    | (Ret None, t1) => (Ret None, t1 ++ [LogError timeout_message])
    | (Raise (RaisedException e), t1) =>
        (Ret None,
         t1 ++ [LogError ("Error generating image with Ideogram: " +:+ exc_text e)])
    | (Raise r, t1) => (Raise r, t1)
    end.
Proof.
  unfold generate_image_ideogram. rewrite Hkey. cbn [opt_truthy from_option id].
  rewrite Hkey_truthy. cbn [negb].
  unfold try_except, bind at 1 2 3, ask, emit, of_reply, ret. fold headers.
  rewrite Hsubmit. cbn [ig_generation_id opt_truthy from_option id].
  rewrite Hid_truthy. cbn [negb]. unfold bind. fold t0.
  destruct (for_range _ _ _ t0) as [[[image|]|[e|code]] t1]; reflexivity.
Qed.

Lemma generate_image_ideogram_timeout :
  (forall j, j < max_attempts ->
     exists st, poll_answer W headers generation_id t0 j st /\ completed st = false) ->
  generate_image_ideogram W prompt t
  = (Ret None,
     t0 ++ poll_rounds headers generation_id max_attempts ++ [LogError timeout_message]).
Proof.
  intros Hall. rewrite generate_image_ideogram_submitted.
  rewrite (for_range_no_completion _ _ _ _ _ _ Hall). by rewrite <- app_assoc.
Qed.

Lemma generate_image_ideogram_completion n st image_url resp :
  n < max_attempts ->
  (forall j, j < n ->
     exists st', poll_answer W headers generation_id t0 j st' /\ completed st' = false) ->
  poll_answer W headers generation_id t0 n st ->
  completed st = true ->
  ig_image_url st = Some image_url ->
  PyStr.truthy image_url = true ->
  http_get W (t0 ++ poll_rounds headers generation_id (S n)) image_url = Returns resp ->
  status_code resp = 200%Z ->
  generate_image_ideogram W prompt t
  = (Ret (Some (content resp)),
     t0 ++ poll_rounds headers generation_id (S n) ++ [HttpGet image_url []]).
Proof.
  intros Hn Hall Hst Hc Hurl Htr Hget Hcode.
  rewrite generate_image_ideogram_submitted.
  by rewrite (for_range_completion _ _ _ n _ _ _ _ _ _
                Hn Hall Hst Hc Hurl Htr Hget Hcode).
Qed.

End IdeogramFacts.

Lemma poll_rounds_counts headers generation_id n :
  headers <> [] ->
  count_events is_poll (poll_rounds headers generation_id n) = n
  /\ count_events is_sleep (poll_rounds headers generation_id n) = n.
Proof.
  intros Hh. destruct headers as [|h hs]; [done|].
  induction n as [|n [IHp IHs]]; [done|]. cbn. by rewrite IHp, IHs.
Qed.

(** C1. With a key and an accepted request: if the first 29 status answers
    say processing and the 30th says completed (with an image that
    downloads), the call returns the image right after the 30th poll; if
    none of 30 status answers says completed, the call makes exactly 30
    polls, each after a wait of 2, logs the time-out and returns nothing. *)
Theorem C1_polling_thirty (W : World) (prompt api_key generation_id : string)
    (t : trace) :
  let headers := json_headers api_key in
  let t0 := t ++ [HttpPost ideogram_url headers (ideogram_payload prompt)] in
  getenv W "IDEOGRAM_API_KEY" = Some api_key ->
  PyStr.truthy api_key = true ->
  ideogram_generation W t headers (ideogram_payload prompt)
  = Returns {| ig_generation_id := Some generation_id |} ->
  PyStr.truthy generation_id = true ->
  (forall (image_url : string) (resp : http_response),
      (forall j, j < 29 ->
         exists url, poll_answer W headers generation_id t0 j
                       {| ig_state := Some "processing"; ig_image_url := url |}) ->
      poll_answer W headers generation_id t0 29
        {| ig_state := Some "completed"; ig_image_url := Some image_url |} ->
      PyStr.truthy image_url = true ->
      http_get W (t0 ++ poll_rounds headers generation_id 30) image_url = Returns resp ->
      status_code resp = 200%Z ->
      generate_image_ideogram W prompt t
      = (Ret (Some (content resp)),
         t0 ++ poll_rounds headers generation_id 30 ++ [HttpGet image_url []]))
  /\ ((forall j, j < 30 ->
         exists st, poll_answer W headers generation_id t0 j st
                    /\ ig_state st <> Some "completed") ->
      generate_image_ideogram W prompt t
      = (Ret None,
         t0 ++ poll_rounds headers generation_id 30 ++ [LogError timeout_message]))
  /\ count_events is_poll (poll_rounds headers generation_id 30) = 30
  /\ count_events is_sleep (poll_rounds headers generation_id 30) = 30
  /\ Forall (fun e => is_sleep e = true -> e = Sleep 2)
       (poll_rounds headers generation_id 30).
Proof.
  intros headers t0 Hkey Hkt Hsubmit Hit. split; [|split].
  - intros image_url resp Hproc Hdone Htr Hget Hcode.
    eapply (generate_image_ideogram_completion W prompt api_key generation_id t
              Hkey Hkt Hsubmit Hit 29); try done; [unfold max_attempts; lia|].
    intros j Hj. destruct (Hproc j Hj) as [url Hurl]. eauto.
  - intros Hall.
    apply (generate_image_ideogram_timeout W prompt api_key generation_id t
             Hkey Hkt Hsubmit Hit).
    intros j Hj. destruct (Hall j Hj) as (st & Hst & Hne).
    exists st. split; [done|]. by apply bool_decide_eq_false.
  - split; [|split]; try by apply poll_rounds_counts.
    cbn. repeat (constructor; [by intros; try discriminate|]). constructor.
Qed.

Lemma C1_polling_thirty_witness :
  generate_image_ideogram world_29_then_done "tree" []
  = (Ret (Some png),
     [HttpPost ideogram_url (json_headers "key") (ideogram_payload "tree")]
     ++ poll_rounds (json_headers "key") "gen-1" 30
     ++ [HttpGet "https://img/1.png" []])
  /\ generate_image_ideogram world_processing "tree" []
     = (Ret None,
        [HttpPost ideogram_url (json_headers "key") (ideogram_payload "tree")]
        ++ poll_rounds (json_headers "key") "gen-1" 30
        ++ [LogError timeout_message]).
Proof.
  split.
  - apply (proj1 (C1_polling_thirty world_29_then_done "tree" "key" "gen-1" []
                    eq_refl eq_refl eq_refl eq_refl)
             "https://img/1.png" {| status_code := 200; content := png |});
      try reflexivity.
    intros j Hj. exists None.
    do 29 (destruct j as [|j]; [reflexivity|]). exfalso. lia.
  - apply (proj1 (proj2 (C1_polling_thirty world_processing "tree" "key" "gen-1" []
                           eq_refl eq_refl eq_refl eq_refl))).
    intros j Hj. exists (status_of "processing"). split; [reflexivity|discriminate].
Defined.

(** C8. No status other than completed ends the polling early: while the
    status answers are anything but completed (failed included), each of the
    30 rounds falls through to the next, and the call returns nothing only
    after 30 polls and 30 waits. *)
Theorem C8_no_early_exit (W : World) (prompt api_key generation_id : string)
    (t : trace) :
  let headers := json_headers api_key in
  let t0 := t ++ [HttpPost ideogram_url headers (ideogram_payload prompt)] in
  getenv W "IDEOGRAM_API_KEY" = Some api_key ->
  PyStr.truthy api_key = true ->
  ideogram_generation W t headers (ideogram_payload prompt)
  = Returns {| ig_generation_id := Some generation_id |} ->
  PyStr.truthy generation_id = true ->
  (forall j, j < 30 ->
     exists st, poll_answer W headers generation_id t0 j st
                /\ ig_state st <> Some "completed") ->
  (forall k, k < 30 ->
     ideogram_poll_body W headers generation_id k
       (t0 ++ poll_rounds headers generation_id k)
     = (Ret Continue, t0 ++ poll_rounds headers generation_id (S k)))
  /\ generate_image_ideogram W prompt t
     = (Ret None,
        t0 ++ poll_rounds headers generation_id 30 ++ [LogError timeout_message])
  /\ count_events is_poll (poll_rounds headers generation_id 30) = 30
  /\ count_events is_sleep (poll_rounds headers generation_id 30) = 30.
Proof.
  intros headers t0 Hkey Hkt Hsubmit Hit Hall. split; [|split].
  - intros k Hk. destruct (Hall k Hk) as (st & Hst & Hne).
    rewrite poll_rounds_S, app_assoc.
    apply ideogram_poll_body_continue with (st := st).
    + unfold poll_answer in *. cbn [poll_rounds app].
      by rewrite <- app_assoc.
    + by apply bool_decide_eq_false.
  - apply (generate_image_ideogram_timeout W prompt api_key generation_id t
             Hkey Hkt Hsubmit Hit).
    intros j Hj. destruct (Hall j Hj) as (st & Hst & Hne).
    exists st. split; [done|]. by apply bool_decide_eq_false.
  - by apply poll_rounds_counts.
Qed.

Lemma C8_no_early_exit_witness :
  generate_image_ideogram world_failed "tree" []
  = (Ret None,
     [HttpPost ideogram_url (json_headers "key") (ideogram_payload "tree")]
     ++ poll_rounds (json_headers "key") "gen-1" 30
     ++ [LogError timeout_message]).
Proof.
  apply (proj1 (proj2 (C8_no_early_exit world_failed "tree" "key" "gen-1" []
                         eq_refl eq_refl eq_refl eq_refl
                         ltac:(intros j Hj; exists (status_of "failed");
                               split; [reflexivity|discriminate])))).
Defined.

(** ** One row of the batch *)

Section RowFacts.

Variable W : World.
Variables (sheet_id api : string) (credentials : Credentials).

Lemma row_trace_app i n1 k1 n2 k2 d1 d2 :
  row_trace sheet_id i n1 k1 d1 -> row_trace sheet_id i n2 k2 d2 ->
  row_trace sheet_id i (n1 + n2) (k1 + k2) (d1 ++ d2).
Proof.
  intros [Hw1 Hr1] [Hw2 Hr2]. split; [by apply storage_within_app|].
  by apply Forall_app_2.
Qed.

Lemma row_trace_quiet i n k d : storage_free d -> row_trace sheet_id i n k d.
Proof.
  intros Hd. split; [|by apply storage_free_writes_row].
  destruct (storage_free_within d Hd). split; lia.
Qed.

Lemma row_trace_mono i n k n' k' d :
  n <= n' -> k <= k' -> row_trace sheet_id i n k d -> row_trace sheet_id i n' k' d.
Proof. intros Hn Hk [[Hu Hs] Hr]. repeat split; [lia|lia|done]. Qed.

Lemma row_trace_quiet_app i n k d1 d2 :
  storage_free d1 -> row_trace sheet_id i n k d2 ->
  row_trace sheet_id i n k (d1 ++ d2).
Proof.
  intros H1 H2. apply (row_trace_app i 0 0 n k); [by apply row_trace_quiet|done].
Qed.

Lemma upload_image_to_drive_returns image_data filename t file :
  drive_files_create W t filename image_data = Returns file ->
  drive_permissions_create W (t ++ [DriveCreate filename "image/png" image_data])
    (file_id file) = Returns tt ->
  let link := clean_download_link (default "" (webContentLink file)) in
  upload_image_to_drive W image_data filename credentials t
  = (Ret link,
     t ++ [DriveCreate filename "image/png" image_data;
           DrivePermission (file_id file) "anyone" "reader";
           Print ("IF STATEMENT " +:+ link);
           LogInfo ("Created image URL: " +:+ link)]).
Proof.
  intros Hcreate Hperm link.
  unfold upload_image_to_drive, log_info, bind, ask, emit, of_reply, ret.
  rewrite Hcreate, Hperm. by rewrite <- !app_assoc.
Qed.

Lemma upload_image_to_drive_spec i image_data filename :
  run_spec (upload_image_to_drive W image_data filename credentials)
    (row_trace sheet_id i 1 0) (ok_if_storage W).
Proof.
  intros t.
  unfold upload_image_to_drive, log_info, bind, ask, emit, of_reply, ret, raise.
  destruct (drive_files_create W t filename image_data) as [e|file] eqn:Hc.
  { eexists _, _. split; [reflexivity|]. split.
    - split; [split; cbn; lia|by repeat constructor].
    - intros (Hcreate & _). destruct (Hcreate t filename image_data); congruence. }
  destruct (drive_permissions_create W _ (file_id file)) as [e|[]] eqn:Hp.
  { eexists _, _. split; [by rewrite <- !app_assoc|]. split.
    - split; [split; cbn; lia|by repeat constructor].
    - intros (_ & Hperm & _). rewrite Hperm in Hp. congruence. }
  eexists _, _. split; [by rewrite <- !app_assoc|]. split.
  - split; [split; cbn; lia|by repeat constructor].
  - by intros _.
Qed.

Lemma update_sheet_with_image_spec i image_url :
  run_spec (update_sheet_with_image W sheet_id (Z.of_nat i + 1)%Z image_url credentials)
    (row_trace sheet_id i 0 1) (ok_if_storage W).
Proof.
  intros t.
  unfold update_sheet_with_image, log_info, bind, ask, emit, of_reply, ret, raise.
  assert (range_name (Z.of_nat i + 1)
          = "Sheet1!E" +:+ PyStr.of_int (Z.of_nat i + 2)%Z) as Hrange.
  { unfold range_name. do 2 f_equal. lia. }
  destruct (sheets_values_update W t sheet_id _ _) as [e|[]] eqn:Hu.
  - eexists _, _. split; [reflexivity|]. split.
    + split; [split; cbn; lia|]. repeat constructor; eauto.
    + intros (_ & _ & Hupd). rewrite Hupd in Hu. congruence.
  - eexists _, _. split; [by rewrite <- !app_assoc|]. split.
    + split; [split; cbn; lia|]. repeat constructor; eauto.
    + by intros _.
Qed.

Lemma main_loop_body_untitled total i pose_data t :
  titled pose_data = false ->
  main_loop_body W sheet_id api credentials total i pose_data t = (Ret tt, t).
Proof.
  unfold titled, main_loop_body. by intros ->.
Qed.

Lemma main_loop_body_spec total i pose_data :
  run_spec (main_loop_body W sheet_id api credentials total i pose_data)
    (row_trace sheet_id i 1 1) (ok_if_storage W).
Proof.
  unfold main_loop_body.
  destruct (negb _).
  { apply run_ret; [apply row_trace_quiet; constructor|by intros _]. }
  eapply (run_bind _ _ storage_free (row_trace sheet_id i 1 1) _ returned);
    [repeat quiet_step| |done|intros; by apply row_trace_quiet
     |intros; by apply row_trace_quiet_app].
  intros _ _.
  eapply (run_bind _ _ storage_free (row_trace sheet_id i 1 1) _ returned);
    [unfold craft_prompt; repeat quiet_step| |done
     |intros; by apply row_trace_quiet
     |intros; by apply row_trace_quiet_app].
  intros prompt _.
  eapply (run_bind _ _ storage_free (row_trace sheet_id i 1 1) _ returned);
    [repeat quiet_step| |done|intros; by apply row_trace_quiet
     |intros; by apply row_trace_quiet_app].
  intros _ _.
  eapply (run_bind _ _ storage_free (row_trace sheet_id i 1 1) _ returned);
    [apply generate_image_quiet| |done
     |intros; by apply row_trace_quiet
     |intros; by apply row_trace_quiet_app].
  intros image_data _. destruct (bytes_truthy image_data).
  - eapply (run_bind _ _ (row_trace sheet_id i 1 0) (row_trace sheet_id i 0 1)
              _ (ok_if_storage W));
      [apply upload_image_to_drive_spec| |done
       |intros d1 H1; eapply row_trace_mono; [| |exact H1]; lia
       |intros; by apply (row_trace_app i 1 0 0 1)].
    intros image_url _.
    eapply (run_bind _ _ (row_trace sheet_id i 0 1) storage_free
              _ (ok_if_storage W));
      [apply update_sheet_with_image_spec| |done|done|].
    + intros _ _. apply run_emit; [by repeat constructor|by intros _].
    + intros d1 d2 H1 H2.
      apply (row_trace_app i 0 1 0 0); [done|by apply row_trace_quiet].
  - apply run_emit; [|by intros _].
    apply row_trace_quiet. by repeat constructor.
Qed.

End RowFacts.

(** ** One row, from the image to the cell *)

Section RowStages.

Variable W : World.
Variables (sheet_id api : string) (credentials : Credentials).

Local Open Scope py_scope.

Lemma sheet_write_range i image_url :
  SheetsUpdate sheet_id (range_name (Z.of_nat i + 1)%Z) "USER_ENTERED"
    [[image_formula image_url]]
  = sheet_write sheet_id i image_url.
Proof. unfold sheet_write, range_name. do 3 f_equal. lia. Qed.

(** Past a generation that gave an image, the row goes on with the upload
    of that image under the file name made from the title. *)
Lemma main_loop_body_generated total i pose_data t image d :
  titled pose_data = true ->
  generate_image W (craft_prompt_text pose_data) api (t ++ row_prologue total i pose_data)
  = (Ret (Some image), (t ++ row_prologue total i pose_data) ++ d) ->
  bytes_truthy (Some image) = true ->
  let pose_name := dict_get pose_data "Content Title" "" in
  main_loop_body W sheet_id api credentials total i pose_data t
  = (image_url <- upload_image_to_drive W image (image_filename pose_name) credentials ;;
     update_sheet_with_image W sheet_id (Z.of_nat i + 1)%Z image_url credentials ;;;
     log_info ("Successfully processed " +:+ pose_name))
      ((t ++ row_prologue total i pose_data) ++ d).
Proof.
  intros Ht Hgen Htruthy pose_name. unfold titled in Ht.
  unfold main_loop_body. rewrite Ht. cbn [negb].
  unfold craft_prompt, log_info at 1 2 3.
  unfold bind at 1 2 3 4 5. unfold emit at 1 2 3. unfold ret at 1.
  rewrite <- !app_assoc. cbn [app]. unfold row_prologue in Hgen.
  rewrite <- !app_assoc in Hgen. cbn [app] in Hgen.
  rewrite Hgen, Htruthy. reflexivity.
Qed.

Lemma upload_image_to_drive_create_raises image_data filename t e :
  drive_files_create W t filename image_data = Raises e ->
  upload_image_to_drive W image_data filename credentials t
  = (Raise (RaisedException e), t ++ [DriveCreate filename "image/png" image_data]).
Proof.
  intros Hcreate.
  unfold upload_image_to_drive, log_info, bind, ask, emit, of_reply, ret, raise.
  by rewrite Hcreate.
Qed.

Lemma upload_image_to_drive_permission_raises image_data filename t file e :
  drive_files_create W t filename image_data = Returns file ->
  drive_permissions_create W (t ++ [DriveCreate filename "image/png" image_data])
    (file_id file) = Raises e ->
  upload_image_to_drive W image_data filename credentials t
  = (Raise (RaisedException e),
     t ++ [DriveCreate filename "image/png" image_data;
           DrivePermission (file_id file) "anyone" "reader"]).
Proof.
  intros Hcreate Hperm.
  unfold upload_image_to_drive, log_info, bind, ask, emit, of_reply, ret, raise.
  rewrite Hcreate, Hperm. by rewrite <- !app_assoc.
Qed.

Lemma update_sheet_with_image_returns i image_url t :
  sheets_values_update W t sheet_id (range_name (Z.of_nat i + 1)%Z)
    [[image_formula image_url]] = Returns tt ->
  update_sheet_with_image W sheet_id (Z.of_nat i + 1)%Z image_url credentials t
  = (Ret tt,
     t ++ [sheet_write sheet_id i image_url;
           LogInfo ("Updated cell " +:+ range_name (Z.of_nat i + 1)%Z +:+ " with image")]).
Proof.
  intros Hupdate.
  unfold update_sheet_with_image, log_info, bind, ask, emit, of_reply, ret, raise.
  rewrite Hupdate, sheet_write_range. by rewrite <- !app_assoc.
Qed.

Lemma update_sheet_with_image_raises i image_url t e :
  sheets_values_update W t sheet_id (range_name (Z.of_nat i + 1)%Z)
    [[image_formula image_url]] = Raises e ->
  update_sheet_with_image W sheet_id (Z.of_nat i + 1)%Z image_url credentials t
  = (Raise (RaisedException e), t ++ [sheet_write sheet_id i image_url]).
Proof.
  intros Hupdate.
  unfold update_sheet_with_image, log_info, bind, ask, emit, of_reply, ret, raise.
  by rewrite Hupdate, sheet_write_range.
Qed.

Lemma for_enumerate_raises {A} (body : nat -> A -> M unit) i x rest t r t' :
  body i x t = (Raise r, t') ->
  for_enumerate body i (x :: rest) t = (Raise r, t').
Proof. intros Hbody. cbn [for_enumerate]. unfold bind. by rewrite Hbody. Qed.

Lemma for_enumerate_app {A} (body : nat -> A -> M unit) before rest :
  forall i t t1,
    for_enumerate body i before t = (Ret tt, t1) ->
    for_enumerate body i (before ++ rest) t
    = for_enumerate body (i + length before) rest t1.
Proof.
  induction before as [|x before IH]; intros i t t1 H.
  { cbn in H. unfold ret in H. simplify_eq. cbn [app length].
    by rewrite Nat.add_0_r. }
  cbn [for_enumerate app length] in *. unfold bind in *.
  destruct (body i x t) as [[[]|r] t0]; [|discriminate].
  rewrite (IH _ _ _ H). f_equal. lia.
Qed.

(** A row whose image is generated and uploaded asks for one sheet write,
    into the cell of its own line, whatever the sheet answers. *)
Lemma main_loop_body_writes total i pose_data t d image file :
  let pose_name := dict_get pose_data "Content Title" "" in
  let generated := (t ++ row_prologue total i pose_data) ++ d in
  titled pose_data = true ->
  generate_image W (craft_prompt_text pose_data) api (t ++ row_prologue total i pose_data)
  = (Ret (Some image), generated) ->
  bytes_truthy (Some image) = true ->
  drive_files_create W generated (image_filename pose_name) image = Returns file ->
  drive_permissions_create W
    (generated ++ [DriveCreate (image_filename pose_name) "image/png" image])
    (file_id file) = Returns tt ->
  exists o rest,
    main_loop_body W sheet_id api credentials total i pose_data t
    = (o, generated ++ upload_trace (image_filename pose_name) image file
          ++ sheet_write sheet_id i (uploaded_link file) :: rest)
    /\ count_events is_sheet_write rest = 0.
Proof.
  intros pose_name generated Ht Hgen Htruthy Hcreate Hperm.
  rewrite (main_loop_body_generated total i pose_data t image d Ht Hgen Htruthy).
  fold pose_name generated. unfold bind at 1.
  rewrite (upload_image_to_drive_returns W credentials _ _ _ file Hcreate Hperm).
  cbn zeta. fold (uploaded_link file).
  fold (upload_trace (image_filename pose_name) image file).
  unfold bind at 1.
  destruct (sheets_values_update W
              (generated ++ upload_trace (image_filename pose_name) image file)
              sheet_id (range_name (Z.of_nat i + 1)%Z)
              [[image_formula (uploaded_link file)]]) as [e|[]] eqn:Hupdate.
  - rewrite (update_sheet_with_image_raises i _ _ e Hupdate).
    eexists _, []. split; [by rewrite <- !app_assoc|reflexivity].
  - rewrite (update_sheet_with_image_returns i _ _ Hupdate).
    unfold log_info, emit. eexists _, [_; _].
    split; [by rewrite <- !app_assoc|reflexivity].
Qed.

End RowStages.

Lemma for_enumerate_skip_untitled (W : World) sheet_id api credentials total
    before yoga_poses :
  Forall (fun pose_data => titled pose_data = false) before ->
  forall i t,
    for_enumerate (main_loop_body W sheet_id api credentials total) i
      (before ++ yoga_poses) t
    = for_enumerate (main_loop_body W sheet_id api credentials total)
        (i + length before) yoga_poses t.
Proof.
  induction 1 as [|x rest Hx _ IH]; intros i t.
  { cbn [app length]. by rewrite Nat.add_0_r. }
  cbn [app for_enumerate length]. unfold bind at 1.
  rewrite main_loop_body_untitled by done. rewrite IH. f_equal. lia.
Qed.

(** ** The batch *)

Section BatchFacts.

Variable W : World.
Variables (sheet_id api : string) (credentials : Credentials).

Local Abbreviation body := (main_loop_body W sheet_id api credentials).

(** The loop leaves one stretch of trace per row it reached. *)
Lemma for_enumerate_rows total yoga_poses :
  forall i0 t, exists o ds,
    for_enumerate (body total) i0 yoga_poses t = (o, t ++ concat ds)
    /\ length ds <= length yoga_poses
    /\ (forall j d, ds !! j = Some d ->
          row_trace sheet_id (i0 + j) 1 1 d
          /\ (forall pose_data, yoga_poses !! j = Some pose_data ->
                titled pose_data = false -> d = []))
    /\ storage_within (count_titled yoga_poses) (count_titled yoga_poses) (concat ds)
    /\ ok_if_storage W o.
Proof.
  induction yoga_poses as [|x rest IH]; intros i0 t.
  { exists (Ret tt), []. cbn. rewrite app_nil_r.
    repeat split; try done; lia. }
  cbn [for_enumerate]. unfold bind.
  destruct (titled x) eqn:Hx.
  - destruct (main_loop_body_spec W sheet_id api credentials total i0 x t)
      as (o1 & d1 & -> & Hd1 & Ho1).
    destruct o1 as [[]|r].
    + destruct (IH (S i0) (t ++ d1)) as (o & ds & -> & Hlen & Hrows & Hcount & Ho).
      exists o, (d1 :: ds). cbn [concat length]. rewrite app_assoc.
      split; [done|]. split; [lia|]. split; [|split; [|done]].
      * intros [|j] d Hj; simplify_eq/=.
        -- rewrite Nat.add_0_r. split; [done|]. intros ? [= <-]. congruence.
        -- replace (i0 + S j) with (S i0 + j) by lia. by apply Hrows.
      * unfold count_titled in *. cbn [List.filter]. rewrite Hx. cbn [length].
        destruct Hd1 as [Hd1 _].
        by apply (storage_within_app 1 1 _ _ d1 (concat ds)).
    + exists (Raise r), [d1]. cbn [concat length]. rewrite app_nil_r.
      split; [done|]. split; [lia|]. split; [|split; [|done]].
      * intros [|j] d Hj; simplify_eq/=.
        rewrite Nat.add_0_r. split; [done|]. intros ? [= <-]. congruence.
      * unfold count_titled. cbn [List.filter]. rewrite Hx. cbn [length].
        destruct Hd1 as [[Hu Hs] _]. split; lia.
  - rewrite main_loop_body_untitled by done.
    destruct (IH (S i0) t) as (o & ds & -> & Hlen & Hrows & Hcount & Ho).
    exists o, ([] :: ds). cbn [concat length app].
    split; [done|]. split; [lia|]. split; [|split; [|done]].
    + intros [|j] d Hj; simplify_eq/=.
      * split; [|done]. apply row_trace_quiet. constructor.
      * replace (i0 + S j) with (S i0 + j) by lia. by apply Hrows.
    + unfold count_titled in *. cbn [List.filter]. by rewrite Hx.
Qed.

(** Each stretch is what the body of the loop leaves for the row of that
    position, run after the stretches before it. *)
Lemma for_enumerate_steps total yoga_poses :
  forall i0 t, exists o ds,
    for_enumerate (body total) i0 yoga_poses t = (o, t ++ concat ds)
    /\ length ds <= length yoga_poses
    /\ (forall j d, ds !! j = Some d ->
          exists pose_data oj,
            yoga_poses !! j = Some pose_data
            /\ body total (i0 + j) pose_data (t ++ concat (take j ds))
               = (oj, (t ++ concat (take j ds)) ++ d)
            /\ writes_row sheet_id (i0 + j) d).
Proof.
  induction yoga_poses as [|x rest IH]; intros i0 t.
  { exists (Ret tt), []. cbn. rewrite app_nil_r. repeat split; try done; lia. }
  cbn [for_enumerate]. unfold bind.
  destruct (main_loop_body_spec W sheet_id api credentials total i0 x t)
    as (o1 & d1 & E1 & [_ Hd1] & _).
  rewrite E1. destruct o1 as [[]|r].
  - destruct (IH (S i0) (t ++ d1)) as (o & ds & -> & Hlen & Hrows).
    exists o, (d1 :: ds). cbn [concat length]. rewrite app_assoc.
    split; [done|]. split; [lia|].
    intros [|j] d Hj; simplify_eq/=.
    + exists x, (Ret tt). rewrite app_nil_r, Nat.add_0_r. by repeat split.
    + destruct (Hrows j d Hj) as (pose_data & oj & Hrow & Hrun & Hcell).
      exists pose_data, oj. rewrite app_assoc.
      replace (i0 + S j) with (S i0 + j) by lia. by repeat split.
  - exists (Raise r), [d1]. cbn [concat length]. rewrite app_nil_r.
    split; [done|]. split; [lia|].
    intros [|j] d Hj; simplify_eq/=.
    exists x, (Raise r). rewrite app_nil_r, Nat.add_0_r. by repeat split.
Qed.

End BatchFacts.

(** C4. A row without a title is skipped: the trace is left as it was and
    the loop goes on.  Any row leaves at most one upload and at most one
    sheet write in the trace.  Over a batch, each row reached leaves its own
    stretch of trace, empty for a row without title, and the uploads and the
    sheet writes number at most the rows with a title. *)
Theorem C4_at_most_one_per_row (W : World) (sheet_id api : string)
    (credentials : Credentials) :
  (forall total i pose_data t,
      titled pose_data = false ->
      main_loop_body W sheet_id api credentials total i pose_data t = (Ret tt, t))
  /\ (forall total i pose_data t, exists o d,
      main_loop_body W sheet_id api credentials total i pose_data t = (o, t ++ d)
      /\ count_events is_upload d <= 1
      /\ count_events is_sheet_write d <= 1)
  /\ (forall yoga_poses t, exists o ds,
      main_loop W sheet_id api credentials yoga_poses t = (o, t ++ concat ds)
      /\ length ds <= length yoga_poses
      /\ (forall j d, ds !! j = Some d ->
            count_events is_upload d <= 1
            /\ count_events is_sheet_write d <= 1
            /\ (forall pose_data, yoga_poses !! j = Some pose_data ->
                  titled pose_data = false -> d = []))
      /\ count_events is_upload (concat ds) <= count_titled yoga_poses
      /\ count_events is_sheet_write (concat ds) <= count_titled yoga_poses).
Proof.
  split; [|split].
  - intros. by apply main_loop_body_untitled.
  - intros total i pose_data t.
    destruct (main_loop_body_spec W sheet_id api credentials total i pose_data t)
      as (o & d & E & [[Hu Hs] _] & _).
    by exists o, d.
  - intros yoga_poses t. unfold main_loop.
    destruct (for_enumerate_rows W sheet_id api credentials (length yoga_poses)
                yoga_poses 0 t) as (o & ds & E & Hlen & Hrows & [Hu Hs] & _).
    exists o, ds. repeat split; try done.
    + by destruct (Hrows j d H) as [[[? ?] _] _].
    + by destruct (Hrows j d H) as [[[? ?] _] _].
    + by destruct (Hrows j d H) as [_ ?].
Qed.

Lemma C4_at_most_one_per_row_witness :
  main_loop_body world_openai "sheet-1" "openai" "creds" 1 0
    (dict [("Content Title", ""); ("Image Style", "flat")]) []
  = (Ret tt, []).
Proof.
  apply (proj1 (C4_at_most_one_per_row world_openai "sheet-1" "openai" "creds")).
  reflexivity.
Defined.

(** C5. The sheet write for the data row at position [i] (from 0) goes to
    column E of sheet row [i + 2], and the value written is the image
    formula around the image URL.  [update_sheet_with_image] adds one to the
    row it is given, and the loop of [main] gives it the position plus one:
    a row of the batch that is titled, whose image is generated and
    uploaded, asks for a write into [Sheet1!E] followed by its position
    plus 2, after whatever rows ran before it; every stretch of the trace
    of the batch is the run of the loop body on the row of that position,
    and every sheet write in it goes to the cell of that position; three
    rows write to E2, E3 and E4. *)
Theorem C5_image_cell_target (W : World) (sheet_id api : string)
    (credentials : Credentials) :
  (forall (i : nat) (image_url : string) (t : trace), exists o rest,
      update_sheet_with_image W sheet_id (Z.of_nat i + 1)%Z image_url credentials t
      = (o, t ++ SheetsUpdate sheet_id
                   ("Sheet1!E" +:+ PyStr.of_int (Z.of_nat i + 2)%Z)
                   "USER_ENTERED" [[image_formula image_url]] :: rest))
  /\ (forall image_url,
      image_formula image_url
      = "=IMAGE(" +:+ String PyStr.dquote "" +:+ image_url
        +:+ String PyStr.dquote "" +:+ ", 3)")
  /\ (forall before pose_data rest t t1 d image file,
      let yoga_poses := before ++ pose_data :: rest in
      let i := length before in
      let pose_name := dict_get pose_data "Content Title" "" in
      let generated := (t1 ++ row_prologue (length yoga_poses) i pose_data) ++ d in
      for_enumerate (main_loop_body W sheet_id api credentials (length yoga_poses))
        0 before t = (Ret tt, t1) ->
      titled pose_data = true ->
      generate_image W (craft_prompt_text pose_data) api
        (t1 ++ row_prologue (length yoga_poses) i pose_data)
      = (Ret (Some image), generated) ->
      bytes_truthy (Some image) = true ->
      drive_files_create W generated (image_filename pose_name) image = Returns file ->
      drive_permissions_create W
        (generated ++ [DriveCreate (image_filename pose_name) "image/png" image])
        (file_id file) = Returns tt ->
      exists o rest',
        main_loop W sheet_id api credentials yoga_poses t
        = (o, generated ++ upload_trace (image_filename pose_name) image file
              ++ SheetsUpdate sheet_id
                   ("Sheet1!E" +:+ PyStr.of_int (Z.of_nat i + 2)%Z)
                   "USER_ENTERED" [[image_formula (uploaded_link file)]] :: rest'))
  /\ (forall yoga_poses t, exists o ds,
      main_loop W sheet_id api credentials yoga_poses t = (o, t ++ concat ds)
      /\ length ds <= length yoga_poses
      /\ (forall j d, ds !! j = Some d ->
            exists pose_data oj,
              yoga_poses !! j = Some pose_data
              /\ main_loop_body W sheet_id api credentials (length yoga_poses) j
                   pose_data (t ++ concat (take j ds))
                 = (oj, (t ++ concat (take j ds)) ++ d)
              /\ writes_row sheet_id j d))
  /\ List.filter is_sheet_write
       (main_loop world_openai "sheet-1" "openai" "creds"
          [row_warrior; row_warrior; row_warrior] []).2
     = [SheetsUpdate "sheet-1" "Sheet1!E2" "USER_ENTERED"
          [[image_formula "https://drive.google.com/uc?id=f1"]];
        SheetsUpdate "sheet-1" "Sheet1!E3" "USER_ENTERED"
          [[image_formula "https://drive.google.com/uc?id=f1"]];
        SheetsUpdate "sheet-1" "Sheet1!E4" "USER_ENTERED"
          [[image_formula "https://drive.google.com/uc?id=f1"]]]
  /\ "Sheet1!E" +:+ PyStr.of_int (Z.of_nat 0 + 2)%Z = "Sheet1!E2"
  /\ "Sheet1!E" +:+ PyStr.of_int (Z.of_nat 1 + 2)%Z = "Sheet1!E3"
  /\ "Sheet1!E" +:+ PyStr.of_int (Z.of_nat 2 + 2)%Z = "Sheet1!E4".
Proof.
  split; [|split; [|split; [|split; [|split; [|by repeat split]]]]].
  - intros i image_url t.
    unfold update_sheet_with_image, log_info, bind, ask, emit, of_reply, ret, raise.
    assert (range_name (Z.of_nat i + 1)
            = "Sheet1!E" +:+ PyStr.of_int (Z.of_nat i + 2)%Z) as ->.
    { unfold range_name. do 2 f_equal. lia. }
    destruct (sheets_values_update W t sheet_id _ _) as [e|[]].
    + by eexists _, [].
    + eexists _, [_]. by rewrite <- app_assoc.
  - intros image_url. unfold image_formula.
    by rewrite !str_app_cons, !str_app_nil_l.
  - intros before pose_data rest t t1 d image file yoga_poses i pose_name generated
      Hbefore Ht Hgen Htruthy Hcreate Hperm.
    unfold main_loop. subst yoga_poses.
    rewrite (for_enumerate_app _ before (pose_data :: rest) 0 t t1 Hbefore).
    cbn [Nat.add]. fold i. cbn [for_enumerate]. unfold bind at 1.
    destruct (main_loop_body_writes W sheet_id api credentials _ i pose_data t1 d
                image file Ht Hgen Htruthy Hcreate Hperm) as (o1 & r1 & -> & _).
    fold pose_name generated. fold (sheet_write sheet_id i (uploaded_link file)).
    destruct o1 as [[]|r]; [|by eexists _, _].
    destruct (for_enumerate_rows W sheet_id api credentials
                (length (before ++ pose_data :: rest)) rest (S i)
                (generated ++ upload_trace (image_filename pose_name) image file
                 ++ sheet_write sheet_id i (uploaded_link file) :: r1))
      as (o & ds & -> & _).
    exists o, (r1 ++ concat ds). f_equal. by rewrite <- !app_assoc.
  - intros yoga_poses t. unfold main_loop.
    apply (for_enumerate_steps W sheet_id api credentials (length yoga_poses)
             yoga_poses 0 t).
  - vm_compute. reflexivity.
Qed.

Lemma C5_image_cell_target_witness :
  exists o rest',
    main_loop world_openai "sheet-1" "openai" "creds" ([row_warrior] ++ [row_warrior]) []
    = (o, (((main_loop_body world_openai "sheet-1" "openai" "creds" 2 0 row_warrior []).2
            ++ row_prologue 2 1 row_warrior)
           ++ [HttpPost openai_url (json_headers "key")
                 (openai_payload (craft_prompt_text row_warrior))])
          ++ upload_trace "yoga_warrior_ii.png" png
               {| file_id := Some "f1";
                  webContentLink := Some "https://drive.google.com/uc?id=f1&export=download" |}
          ++ SheetsUpdate "sheet-1" "Sheet1!E3" "USER_ENTERED"
               [[image_formula "https://drive.google.com/uc?id=f1"]] :: rest').
Proof.
  exact (proj1 (proj2 (proj2 (C5_image_cell_target world_openai "sheet-1" "openai" "creds")))
           [row_warrior] row_warrior [] []
           (main_loop_body world_openai "sheet-1" "openai" "creds" 2 0 row_warrior []).2
           _ png _ eq_refl eq_refl eq_refl eq_refl eq_refl eq_refl).
Defined.

(** The batch of the one row Warrior II, with the direct provider. *)
Example main_loop_warrior :
  main_loop world_openai "sheet-1" "openai" "creds" [row_warrior] []
  = (Ret tt,
     [LogInfo "Processing pose 1/1: Warrior II";
      LogInfo "Generated prompt for Warrior II: flat Warrior II yoga pose, white background. calm";
      LogInfo "Generating image for Warrior II...";
      HttpPost openai_url (json_headers "key")
        (openai_payload "flat Warrior II yoga pose, white background. calm");
      DriveCreate "yoga_warrior_ii.png" "image/png" png;
      DrivePermission (Some "f1") "anyone" "reader";
      Print "IF STATEMENT https://drive.google.com/uc?id=f1";
      LogInfo "Created image URL: https://drive.google.com/uc?id=f1";
      SheetsUpdate "sheet-1" "Sheet1!E2" "USER_ENTERED"
        [[image_formula "https://drive.google.com/uc?id=f1"]];
      LogInfo "Updated cell Sheet1!E2 with image";
      LogInfo "Successfully processed Warrior II"]).
Proof. vm_compute. reflexivity. Qed.

(** ** The download link *)

Lemma clean_download_link_cut a b :
  clean_download_link (a +:+ "&export=download" +:+ b)
  = clean_download_link a +:+ clean_download_link b.
Proof.
  unfold clean_download_link. rewrite !replace_nonempty by done.
  by rewrite replace_scan_cut.
Qed.

Lemma clean_download_link_absent s :
  PyStr.contains "&export=download" s = false -> clean_download_link s = s.
Proof.
  intros H. unfold clean_download_link. rewrite replace_nonempty by done.
  by apply replace_scan_absent.
Qed.

Lemma contains_no_amp a :
  occurs "&" a = false -> PyStr.contains "&export=download" a = false.
Proof.
  intros H. rewrite <- (str_app_nil_r a).
  change "&export=download" with (String "&"%char "export=download").
  by rewrite contains_skip_fresh.
Qed.

(** What the upload does to the link.  The link returned by the upload is
    the raw content link with every occurrence of the text
    [&export=download] cut out in one pass from the left.  When the raw
    link is [a ++ &export=download ++ b] with no ampersand in [a] and no
    further occurrence in [b], the result is [a ++ b] and no longer
    contains that text.  A raw link without that text comes back as it
    was. *)
Theorem upload_link_facts (W : World) (image_data : bytes)
    (filename : string) (credentials : Credentials) (t : trace)
    (file : drive_file) (raw : string) :
  drive_files_create W t filename image_data = Returns file ->
  drive_permissions_create W (t ++ [DriveCreate filename "image/png" image_data])
    (file_id file) = Returns tt ->
  webContentLink file = Some raw ->
  (upload_image_to_drive W image_data filename credentials t).1
  = Ret (clean_download_link raw)
  /\ (forall a b, raw = a +:+ "&export=download" +:+ b ->
        clean_download_link raw = clean_download_link a +:+ clean_download_link b)
  /\ (forall a b, raw = a +:+ "&export=download" +:+ b ->
        occurs "&" a = false ->
        PyStr.contains "&export=download" b = false ->
        clean_download_link raw = a +:+ b
        /\ PyStr.contains "&export=download" (a +:+ b) = false)
  /\ (PyStr.contains "&export=download" raw = false ->
        clean_download_link raw = raw).
Proof.
  intros Hcreate Hperm Hlink. split; [|split; [|split]].
  - rewrite (upload_image_to_drive_returns W credentials _ _ _ _ Hcreate Hperm).
    by rewrite Hlink.
  - intros a b ->. apply clean_download_link_cut.
  - intros a b -> Ha Hb. split.
    + rewrite clean_download_link_cut.
      rewrite (clean_download_link_absent a) by by apply contains_no_amp.
      by rewrite (clean_download_link_absent b).
    + change "&export=download" with (String "&"%char "export=download") in *.
      by rewrite contains_skip_fresh.
  - apply clean_download_link_absent.
Qed.

Lemma upload_link_facts_last_parameter :
  (upload_image_to_drive world_openai png "yoga_tree.png" "creds" []).1
  = Ret "https://drive.google.com/uc?id=f1"
  /\ PyStr.contains "&export=download" "https://drive.google.com/uc?id=f1" = false.
Proof.
  pose proof (upload_link_facts world_openai png "yoga_tree.png" "creds" []
                {| file_id := Some "f1";
                   webContentLink := Some "https://drive.google.com/uc?id=f1&export=download" |}
                "https://drive.google.com/uc?id=f1&export=download"
                eq_refl eq_refl eq_refl) as (Hret & _ & Hclean & _).
  destruct (Hclean "https://drive.google.com/uc?id=f1" "" eq_refl eq_refl eq_refl)
    as [Heq Hnone].
  split; [by rewrite Hret, Heq|exact Hnone].
Defined.

(** C7. The upload is meant to remove the download parameter from the
    link and misses it when it is the first query parameter: the link
    comes back as it was and still carries export=download. *)
Lemma C7_first_parameter_kept :
  PyStr.contains "export=download" download_first = true
  /\ upload_image_to_drive world_download_first png "yoga_tree.png" "creds" []
     = (Ret download_first,
        [DriveCreate "yoga_tree.png" "image/png" png;
         DrivePermission (Some "f1") "anyone" "reader";
         Print ("IF STATEMENT " +:+ download_first);
         LogInfo ("Created image URL: " +:+ download_first)])
  /\ PyStr.contains "export=download"
       (match (upload_image_to_drive world_download_first png "yoga_tree.png" "creds" []).1 with
        | Ret link => link
        | Raise _ => ""
        end) = true.
Proof. repeat split; vm_compute; reflexivity. Qed.

(** ** Reading the sheet *)

Section SheetFacts.

Implicit Types (headers cells : list string) (pairs : list (string * string)).

Lemma dict_snoc pairs k v : dict (pairs ++ [(k, v)]) = <[k := v]> (dict pairs).
Proof. unfold dict. by rewrite foldl_app. Qed.

(** The last pair with key [k] decides the value of [k]. *)
Lemma dict_lookup_last pairs j k v :
  pairs !! j = Some (k, v) ->
  (forall j' v', j < j' -> pairs !! j' <> Some (k, v')) ->
  dict pairs !! k = Some v.
Proof.
  revert j. induction pairs as [|[k' v'] pairs IH] using rev_ind; intros j Hj Hlast.
  { done. }
  rewrite dict_snoc. destruct (decide (j = length pairs)) as [->|Hne].
  - rewrite list_lookup_middle in Hj by done. simplify_eq.
    by rewrite lookup_insert_eq.
  - assert (j < length pairs) as Hlt.
    { apply lookup_lt_Some in Hj. rewrite length_app in Hj. cbn in Hj. lia. }
    rewrite lookup_app_l in Hj by done.
    assert (k' <> k) as Hk.
    { intros ->. apply (Hlast (length pairs) v' Hlt).
      by rewrite list_lookup_middle. }
    rewrite lookup_insert_ne by done. apply (IH j Hj).
    intros j' w Hj' Hw. apply (Hlast j' w Hj').
    rewrite lookup_app_l; [done|]. by apply lookup_lt_Some in Hw.
Qed.

Lemma dict_lookup_none pairs k :
  k ∉ pairs.*1 -> dict pairs !! k = None.
Proof.
  induction pairs as [|[k' v'] pairs IH] using rev_ind; intros Hk; [done|].
  rewrite dict_snoc. rewrite fmap_app in Hk.
  apply not_elem_of_app in Hk as [Hk Hk']. cbn in Hk'.
  apply not_elem_of_cons in Hk' as [Hne _].
  rewrite lookup_insert_ne by done. by apply IH.
Qed.

Lemma row_extended_lookup headers cells j :
  j < length headers ->
  row_extended headers cells !! j = Some (default "" (cells !! j)).
Proof.
  intros Hj. unfold row_extended.
  destruct (decide (j < length cells)) as [Hc|Hc].
  - rewrite lookup_app_l by done.
    destruct (lookup_lt_is_Some_2 cells j Hc) as [c Hcj]. by rewrite Hcj.
  - rewrite lookup_app_r by lia. rewrite lookup_replicate_2 by lia.
    by rewrite lookup_ge_None_2 by lia.
Qed.

Lemma row_extended_length headers cells :
  length headers <= length (row_extended headers cells).
Proof. unfold row_extended. rewrite length_app, length_replicate. lia. Qed.

Lemma zip_row_lookup headers cells j h :
  headers !! j = Some h ->
  zip headers (row_extended headers cells) !! j = Some (h, default "" (cells !! j)).
Proof.
  intros Hh. rewrite lookup_zip_with, Hh. cbn.
  rewrite row_extended_lookup by by apply lookup_lt_Some in Hh. done.
Qed.

End SheetFacts.

(** C10.  Every raw data row becomes a dictionary built from exactly one
    (header, cell) pair per header column: the cells of a short row are
    followed by empty strings, the cells beyond the header are dropped.  An
    absent or empty list of values gives no rows and raises nothing. *)
Theorem C10_rows_normalised :
  (forall headers cells,
      length (one_cell_per_header headers cells) = length headers
      /\ zip headers (row_extended headers cells)
         = zip headers (one_cell_per_header headers cells)
      /\ length (zip headers (row_extended headers cells)) = length headers)
  /\ (forall headers cells j h,
      headers !! j = Some h ->
      zip headers (row_extended headers cells) !! j
      = Some (h, default "" (cells !! j)))
  /\ (forall headers cells j h,
      headers !! j = Some h ->
      (forall j', j < j' -> headers !! j' <> Some h) ->
      dict (zip headers (row_extended headers cells)) !! h
      = Some (default "" (cells !! j)))
  /\ (forall headers cells k,
      k ∉ headers -> dict (zip headers (row_extended headers cells)) !! k = None)
  /\ (forall headers rest,
      rows_of_values (headers :: rest)
      = map (fun cells => dict (zip headers (one_cell_per_header headers cells))) rest)
  /\ (forall (W : World) sheet_id credentials t,
      sheets_values_get W t sheet_id "Sheet1!A1:E" = Returns None
      \/ sheets_values_get W t sheet_id "Sheet1!A1:E" = Returns (Some []) ->
      get_sheet_data W sheet_id credentials t
      = (Ret [], t ++ [SheetsGet sheet_id "Sheet1!A1:E";
                       LogError "No data found in sheet"]))
  /\ (forall (W : World) sheet_id credentials t headers rest,
      sheets_values_get W t sheet_id "Sheet1!A1:E" = Returns (Some (headers :: rest)) ->
      get_sheet_data W sheet_id credentials t
      = (Ret (rows_of_values (headers :: rest)),
         t ++ [SheetsGet sheet_id "Sheet1!A1:E"])).
Proof.
  assert (forall headers cells,
             zip headers (row_extended headers cells)
             = zip headers (one_cell_per_header headers cells)) as Hzip.
  { intros headers cells. unfold one_cell_per_header, row_extended.
    by rewrite zip_with_take_r. }
  split; [|split; [|split; [|split; [|split; [|split]]]]].
  - intros headers cells. split; [|split; [apply Hzip|]].
    + unfold one_cell_per_header. rewrite length_take.
      pose proof (row_extended_length headers cells) as H.
      unfold row_extended in H. lia.
    + rewrite length_zip. pose proof (row_extended_length headers cells). lia.
  - apply zip_row_lookup.
  - intros headers cells j h Hh Hlast.
    apply (dict_lookup_last _ j); [by apply zip_row_lookup|].
    intros j' v' Hj' Hz. rewrite lookup_zip_with in Hz.
    destruct (headers !! j') as [h'|] eqn:E; [|done]. cbn in Hz.
    destruct (row_extended headers cells !! j'); [|done]. cbn in Hz.
    simplify_eq. by apply (Hlast j' Hj').
  - intros headers cells k Hk. apply dict_lookup_none.
    intros Hin. apply Hk. apply list_elem_of_fmap in Hin as ([k' v] & -> & Hin).
    apply list_elem_of_lookup in Hin as [j Hj].
    rewrite lookup_zip_with in Hj.
    destruct (headers !! j) as [h'|] eqn:E; [|done]. cbn in Hj.
    destruct (row_extended headers cells !! j); [|done]. cbn in Hj.
    simplify_eq. cbn. by eapply list_elem_of_lookup_2.
  - intros headers rest. cbn [rows_of_values]. apply map_ext.
    intros cells. by rewrite Hzip.
  - intros W sheet_id credentials t Hget.
    unfold get_sheet_data, log_error, bind, ask, emit, of_reply, ret.
    destruct Hget as [-> | ->]; cbn; by rewrite <- app_assoc.
  - intros W sheet_id credentials t headers rest Hget.
    unfold get_sheet_data, log_error, bind, ask, emit, of_reply, ret.
    by rewrite Hget.
Qed.

Lemma C10_rows_normalised_witness :
  dict (zip ["Content Title"; "Image Style"]
          (row_extended ["Content Title"; "Image Style"] ["Cobra"]))
    !! "Image Style" = Some ""
  /\ dict (zip ["Content Title"]
             (row_extended ["Content Title"] ["Cobra"; "flat"; "blue"]))
       !! "Content Title" = Some "Cobra".
Proof.
  split.
  - apply (proj1 (proj2 (proj2 C10_rows_normalised))
             ["Content Title"; "Image Style"] ["Cobra"] 1 "Image Style" eq_refl).
    intros [|[|j']] Hj' H; [lia|lia|discriminate H].
  - apply (proj1 (proj2 (proj2 C10_rows_normalised))
             ["Content Title"] ["Cobra"; "flat"; "blue"] 0 "Content Title" eq_refl).
    intros [|j'] Hj' H; [lia|discriminate H].
Defined.

(** ** Failures of the generation step *)

Section FailureFacts.

Variable W : World.
Variables (sheet_id api : string) (credentials : Credentials).

Local Abbreviation body := (main_loop_body W sheet_id api credentials).

Lemma generate_image_returns prompt t :
  exists image d, generate_image W prompt api t = (Ret image, t ++ d) /\ storage_free d.
Proof.
  destruct (generate_image_quiet W prompt api t) as (o & d & E & Hd & Ho).
  destruct o as [image|r]; [|done]. by exists image, d.
Qed.

(** A row whose generation gives nothing is logged as failed, and the
    loop moves to the next row. *)
Lemma main_loop_body_failed total i pose_data t image d :
  titled pose_data = true ->
  generate_image W (craft_prompt_text pose_data) api (t ++ row_prologue total i pose_data)
  = (Ret image, (t ++ row_prologue total i pose_data) ++ d) ->
  bytes_truthy image = false ->
  body total i pose_data t
  = (Ret tt,
     t ++ row_prologue total i pose_data ++ d
     ++ [LogError ("Failed to generate image for "
                   +:+ dict_get pose_data "Content Title" "")]).
Proof.
  unfold titled. intros Ht Hgen Hfalsy.
  unfold main_loop_body. rewrite Ht. cbn [negb].
  unfold craft_prompt, log_info, log_error, bind, emit, ret.
  rewrite <- !app_assoc. cbn [app]. unfold row_prologue in Hgen.
  rewrite Hgen, Hfalsy. unfold row_prologue.
  by rewrite <- !app_assoc.
Qed.

Lemma main_loop_returns yoga_poses t :
  storage_never_raises W ->
  exists d, main_loop W sheet_id api credentials yoga_poses t = (Ret tt, t ++ d).
Proof.
  intros Hs. unfold main_loop.
  destruct (for_enumerate_rows W sheet_id api credentials (length yoga_poses)
              yoga_poses 0 t) as (o & ds & E & _ & _ & _ & Ho).
  specialize (Ho Hs). destruct o as [[]|r]; [|done]. by exists (concat ds).
Qed.

(** When every generation logs [msg] and gives nothing, the batch runs to
    its end. *)
Lemma for_enumerate_all_failed msg total yoga_poses :
  (forall prompt t, generate_image W prompt api t = (Ret None, t ++ [LogError msg])) ->
  forall i t,
    for_enumerate (body total) i yoga_poses t
    = (Ret tt, t ++ failed_rows msg total i yoga_poses).
Proof.
  intros Hgen. induction yoga_poses as [|x rest IH]; intros i t.
  { cbn. by rewrite app_nil_r. }
  cbn [for_enumerate failed_rows]. unfold bind, failed_row.
  destruct (titled x) eqn:Hx.
  - rewrite (main_loop_body_failed total i x t None [LogError msg] Hx (Hgen _ _) eq_refl).
    rewrite IH. by rewrite <- !app_assoc.
  - rewrite main_loop_body_untitled by done. by rewrite IH.
Qed.

End FailureFacts.

Lemma api_functions_unknown (W : World) (api : string) :
  api ∉ api_choices -> api_functions W api = None.
Proof.
  unfold api_choices, api_functions. rewrite !not_elem_of_cons.
  intros (H1 & H2 & H3 & _). by rewrite !bool_decide_false.
Qed.

Section MissingKeyFacts.

Variable W : World.

Lemma generate_image_openai_no_key prompt t :
  opt_truthy (getenv W "OPENAI_API_KEY") = false ->
  generate_image W prompt "openai" t
  = (Ret None, t ++ [LogError "OpenAI API key not found in environment variables"]).
Proof.
  intros H. unfold generate_image, api_functions.
  rewrite bool_decide_true by done. unfold generate_image_openai. by rewrite H.
Qed.

Lemma generate_image_ideogram_no_key prompt t :
  opt_truthy (getenv W "IDEOGRAM_API_KEY") = false ->
  generate_image W prompt "ideogram" t
  = (Ret None, t ++ [LogError "Ideogram API key not found in environment variables"]).
Proof.
  intros H. unfold generate_image, api_functions.
  rewrite bool_decide_false by done. rewrite bool_decide_true by done.
  unfold generate_image_ideogram. by rewrite H.
Qed.

Lemma generate_image_stability_no_key prompt t :
  opt_truthy (getenv W "STABILITY_API_KEY") = false ->
  generate_image W prompt "stability" t
  = (Ret None, t ++ [LogError "Stability AI API key not found in environment variables"]).
Proof.
  intros H. unfold generate_image, api_functions.
  rewrite !bool_decide_false by done. rewrite bool_decide_true by done.
  unfold generate_image_stability. by rewrite H.
Qed.

Lemma generate_image_unknown prompt api t :
  api ∉ api_choices ->
  generate_image W prompt api t
  = (Ret None, t ++ [LogError ("Unsupported API: " +:+ api)]).
Proof.
  intros H. unfold generate_image. by rewrite api_functions_unknown.
Qed.

End MissingKeyFacts.

(** ** The run around the rows *)

Section SetupFacts.

Variable W : World.

Lemma authenticate_google_missing_file t :
  path_exists W SERVICE_ACCOUNT_FILE = false ->
  authenticate_google W t
  = (Raise (RaisedException
              (Exception "FileNotFoundError"
                 "Service account key file service_account.json is missing")),
     t ++ [LogError "Service account file service_account.json not found."]).
Proof.
  intros H. unfold authenticate_google. by rewrite H.
Qed.

Lemma authenticate_google_load_fails t e :
  path_exists W SERVICE_ACCOUNT_FILE = true ->
  service_account_load W t = Raises e ->
  authenticate_google W t
  = (Raise (RaisedException e),
     t ++ [ServiceAccountLoad SERVICE_ACCOUNT_FILE;
           LogError ("Error authenticating with service account: " +:+ exc_text e)]).
Proof.
  intros H Hload. unfold authenticate_google. rewrite H. cbn [negb].
  unfold try_except, log_info, log_error, bind, ask, emit, of_reply, ret, raise.
  rewrite Hload. by rewrite <- app_assoc.
Qed.

Lemma authenticate_google_ok t creds :
  path_exists W SERVICE_ACCOUNT_FILE = true ->
  service_account_load W t = Returns creds ->
  authenticate_google W t = (Ret creds, t ++ authenticated).
Proof.
  intros H Hload. unfold authenticate_google. rewrite H. cbn [negb].
  unfold try_except, log_info, log_error, bind, ask, emit, of_reply, ret, raise.
  rewrite Hload. by rewrite <- app_assoc.
Qed.

(** The run is: opening, credentials, sheet data, rows, closing line. *)
Lemma main_unfolded argv_sheet_id api t :
  api ∈ api_choices ->
  main W argv_sheet_id (Some api) t
  = match authenticate_google W (t ++ main_opening argv_sheet_id api) with
    | (Ret credentials, t2) =>
        let sheet_id := chosen_sheet_id W argv_sheet_id t in
        match get_sheet_data W sheet_id credentials t2 with
        | (Ret yoga_poses, t3) =>
            match main_loop W sheet_id api credentials yoga_poses
                    (t3 ++ [retrieved_line (length yoga_poses)]) with
            | (Ret _, t4) => (Ret tt, t4 ++ [LogInfo "Process completed!"])
            | (Raise r, t4) => (Raise r, t4)
            end
        | (Raise r, t3) => (Raise r, t3)
        end
    | (Raise r, t2) => (Raise r, t2)
    end.
Proof.
  intros Hapi. unfold main, parse_arguments, chosen_sheet_id, main_opening.
  rewrite bool_decide_true by done.
  unfold bind at 1. unfold ret at 1. cbn [args_sheet_id args_api].
  destruct (opt_truthy argv_sheet_id).
  - unfold log_info, bind, emit, ret. cbn [app].
    destruct (authenticate_google W _) as [[creds|r] t2]; [|done].
    destruct (get_sheet_data W _ creds t2) as [[poses|r] t3]; [|done].
    unfold retrieved_line.
    by destruct (main_loop W _ api creds poses _) as [[[]|r] t4].
  - unfold log_info, bind, emit, ret. rewrite <- app_assoc. cbn [app].
    destruct (authenticate_google W _) as [[creds|r] t2]; [|done].
    destruct (get_sheet_data W _ creds t2) as [[poses|r] t3]; [|done].
    unfold retrieved_line.
    by destruct (main_loop W _ api creds poses _) as [[[]|r] t4].
Qed.

Lemma get_sheet_data_raises sheet_id credentials t e :
  sheets_values_get W t sheet_id "Sheet1!A1:E" = Raises e ->
  get_sheet_data W sheet_id credentials t
  = (Raise (RaisedException e), t ++ [SheetsGet sheet_id "Sheet1!A1:E"]).
Proof.
  intros H. unfold get_sheet_data, bind, ask, emit, of_reply, ret, raise.
  by rewrite H.
Qed.

Lemma get_sheet_data_rows sheet_id credentials t headers rest :
  sheets_values_get W t sheet_id "Sheet1!A1:E" = Returns (Some (headers :: rest)) ->
  get_sheet_data W sheet_id credentials t
  = (Ret (rows_of_values (headers :: rest)), t ++ [SheetsGet sheet_id "Sheet1!A1:E"]).
Proof.
  intros H. unfold get_sheet_data, bind, ask, emit, of_reply, ret, raise.
  by rewrite H.
Qed.

Lemma get_sheet_data_empty sheet_id credentials t :
  sheets_values_get W t sheet_id "Sheet1!A1:E" = Returns None
  \/ sheets_values_get W t sheet_id "Sheet1!A1:E" = Returns (Some []) ->
  get_sheet_data W sheet_id credentials t
  = (Ret [], t ++ [SheetsGet sheet_id "Sheet1!A1:E"; LogError "No data found in sheet"]).
Proof.
  intros H. unfold get_sheet_data, log_error, bind, ask, emit, of_reply, ret, raise.
  destruct H as [-> | ->]; cbn; by rewrite <- app_assoc.
Qed.

End SetupFacts.

(** C2, as amended.  Whatever fails inside the generation step (a missing
    key, an error answer, a malformed body, a time-out, a network error) is
    caught there: [generate_image] always returns, and touches neither the
    storage nor the sheet.  A titled row whose generation gives nothing is
    logged as failed and the loop goes on with the next row.  When the
    storage and the sheet do not raise, the batch runs to its end.  A
    failure of the upload or of the sheet write is not caught: when the
    creation of the file, the permission request or the update of the cell
    raises, the row raises that exception, at that request; an exception
    of a row leaves the loop, the rows after it untouched; and an exception
    of the loop leaves the run, with no closing line. *)
Theorem C2_generation_failures_local (W : World) (sheet_id api : string)
    (credentials : Credentials) :
  (forall prompt t, exists image d,
      generate_image W prompt api t = (Ret image, t ++ d) /\ storage_free d)
  /\ (forall total i pose_data rest t image d,
      titled pose_data = true ->
      generate_image W (craft_prompt_text pose_data) api
        (t ++ row_prologue total i pose_data)
      = (Ret image, (t ++ row_prologue total i pose_data) ++ d) ->
      bytes_truthy image = false ->
      for_enumerate (main_loop_body W sheet_id api credentials total) i
        (pose_data :: rest) t
      = for_enumerate (main_loop_body W sheet_id api credentials total) (S i) rest
          (t ++ row_prologue total i pose_data ++ d
           ++ [LogError ("Failed to generate image for "
                         +:+ dict_get pose_data "Content Title" "")]))
  /\ (storage_never_raises W ->
      forall yoga_poses t, exists d,
        main_loop W sheet_id api credentials yoga_poses t = (Ret tt, t ++ d))
  /\ (forall total i pose_data t d image,
      let pose_name := dict_get pose_data "Content Title" "" in
      let generated := (t ++ row_prologue total i pose_data) ++ d in
      let created := DriveCreate (image_filename pose_name) "image/png" image in
      titled pose_data = true ->
      generate_image W (craft_prompt_text pose_data) api
        (t ++ row_prologue total i pose_data)
      = (Ret (Some image), generated) ->
      bytes_truthy (Some image) = true ->
      (forall e,
          drive_files_create W generated (image_filename pose_name) image = Raises e ->
          main_loop_body W sheet_id api credentials total i pose_data t
          = (Raise (RaisedException e), generated ++ [created]))
      /\ (forall file e,
          drive_files_create W generated (image_filename pose_name) image
          = Returns file ->
          drive_permissions_create W (generated ++ [created]) (file_id file)
          = Raises e ->
          main_loop_body W sheet_id api credentials total i pose_data t
          = (Raise (RaisedException e),
             generated ++ [created; DrivePermission (file_id file) "anyone" "reader"]))
      /\ (forall file e,
          drive_files_create W generated (image_filename pose_name) image
          = Returns file ->
          drive_permissions_create W (generated ++ [created]) (file_id file)
          = Returns tt ->
          sheets_values_update W
            (generated ++ upload_trace (image_filename pose_name) image file)
            sheet_id (range_name (Z.of_nat i + 1)%Z)
            [[image_formula (uploaded_link file)]] = Raises e ->
          main_loop_body W sheet_id api credentials total i pose_data t
          = (Raise (RaisedException e),
             generated ++ upload_trace (image_filename pose_name) image file
             ++ [sheet_write sheet_id i (uploaded_link file)])))
  /\ (forall before pose_data rest t t1 r t',
      let yoga_poses := before ++ pose_data :: rest in
      for_enumerate (main_loop_body W sheet_id api credentials (length yoga_poses))
        0 before t = (Ret tt, t1) ->
      main_loop_body W sheet_id api credentials (length yoga_poses) (length before)
        pose_data t1 = (Raise r, t') ->
      main_loop W sheet_id api credentials yoga_poses t = (Raise r, t'))
  /\ (forall argv_sheet_id t t2 t3 yoga_poses r t',
      api ∈ api_choices ->
      sheet_id = chosen_sheet_id W argv_sheet_id t ->
      authenticate_google W (t ++ main_opening argv_sheet_id api)
      = (Ret credentials, t2) ->
      get_sheet_data W sheet_id credentials t2 = (Ret yoga_poses, t3) ->
      main_loop W sheet_id api credentials yoga_poses
        (t3 ++ [retrieved_line (length yoga_poses)]) = (Raise r, t') ->
      main W argv_sheet_id (Some api) t = (Raise r, t')).
Proof.
  split; [|split; [|split; [|split; [|split]]]].
  - apply generate_image_returns.
  - intros total i pose_data rest t image d Ht Hgen Hfalsy.
    cbn [for_enumerate]. unfold bind at 1.
    by rewrite (main_loop_body_failed W sheet_id api credentials total i
                  pose_data t image d Ht Hgen Hfalsy).
  - intros Hs yoga_poses t. by apply main_loop_returns.
  - intros total i pose_data t d image pose_name generated created Ht Hgen Htruthy.
    pose proof (main_loop_body_generated W sheet_id api credentials total i
                  pose_data t image d Ht Hgen Htruthy) as Hbody.
    cbn zeta in Hbody. fold pose_name generated in Hbody.
    split; [|split].
    + intros e Hcreate. rewrite Hbody. unfold bind at 1.
      by rewrite (upload_image_to_drive_create_raises W credentials _ _ _ e Hcreate).
    + intros file e Hcreate Hperm. rewrite Hbody. unfold bind at 1.
      by rewrite (upload_image_to_drive_permission_raises W credentials _ _ _ file e
                    Hcreate Hperm).
    + intros file e Hcreate Hperm Hupdate. rewrite Hbody. unfold bind at 1.
      rewrite (upload_image_to_drive_returns W credentials _ _ _ file Hcreate Hperm).
      cbn zeta. fold (uploaded_link file).
      fold (upload_trace (image_filename pose_name) image file).
      unfold bind at 1.
      rewrite (update_sheet_with_image_raises W sheet_id credentials i _ _ e Hupdate).
      by rewrite <- !app_assoc.
  - intros before pose_data rest t t1 r t' yoga_poses Hbefore Hrow.
    unfold main_loop. subst yoga_poses.
    rewrite (for_enumerate_app _ before (pose_data :: rest) 0 t t1 Hbefore).
    cbn [Nat.add]. by apply for_enumerate_raises.
  - intros argv_sheet_id t t2 t3 yoga_poses r t' Hapi -> Hauth Hsheet Hloop.
    rewrite main_unfolded by done. rewrite Hauth. cbn zeta.
    by rewrite Hsheet, Hloop.
Qed.

Lemma C2_generation_failures_local_witness :
  for_enumerate (main_loop_body world_failed "sheet-1" "openai" "creds" 2) 0
    (rows_of_values two_poses) []
  = for_enumerate (main_loop_body world_failed "sheet-1" "openai" "creds" 2) 1
      (drop 1 (rows_of_values two_poses))
      [LogInfo "Processing pose 1/2: Tree";
       LogInfo "Generated prompt for Tree: flat Tree yoga pose, background.";
       LogInfo "Generating image for Tree...";
       LogError "OpenAI API key not found in environment variables";
       LogError "Failed to generate image for Tree"]
  /\ main_loop_body world_drive_down "sheet-1" "openai" "creds" 2 0
       (dict [("Content Title", "Tree"); ("Image Style", "flat")]) []
     = (Raise (RaisedException refused),
        [LogInfo "Processing pose 1/2: Tree";
         LogInfo "Generated prompt for Tree: flat Tree yoga pose, background.";
         LogInfo "Generating image for Tree...";
         HttpPost openai_url (json_headers "key")
           (openai_payload "flat Tree yoga pose, background.")]
        ++ [DriveCreate "yoga_tree.png" "image/png" png]).
Proof.
  split.
  - exact (proj1 (proj2 (C2_generation_failures_local world_failed "sheet-1" "openai" "creds"))
             2 0 (dict [("Content Title", "Tree"); ("Image Style", "flat")])
             (drop 1 (rows_of_values two_poses)) [] None
             [LogError "OpenAI API key not found in environment variables"]
             eq_refl eq_refl eq_refl).
  - exact (proj1 (proj1 (proj2 (proj2 (proj2
                    (C2_generation_failures_local world_drive_down "sheet-1" "openai"
                       "creds"))))
                    2 0 (dict [("Content Title", "Tree"); ("Image Style", "flat")]) []
                    [HttpPost openai_url (json_headers "key")
                       (openai_payload "flat Tree yoga pose, background.")]
                    png eq_refl eq_refl eq_refl)
             refused eq_refl).
Defined.

(** C2 as stated fails: when the upload raises, the exception leaves the
    loop and the run; the second row is never reached. *)
Lemma C2_counterexample :
  main world_drive_down (Some "sheet-1") (Some "openai") []
  = (Raise (RaisedException refused),
     [Print "Using OPENAI API for image generation";
      ServiceAccountLoad "service_account.json";
      LogInfo "Successfully authenticated using service account";
      SheetsGet "sheet-1" "Sheet1!A1:E";
      LogInfo "Retrieved 2 yoga poses from sheet";
      LogInfo "Processing pose 1/2: Tree";
      LogInfo "Generated prompt for Tree: flat Tree yoga pose, background.";
      LogInfo "Generating image for Tree...";
      HttpPost openai_url (json_headers "key")
        (openai_payload "flat Tree yoga pose, background.");
      DriveCreate "yoga_tree.png" "image/png" png]).
Proof. vm_compute. reflexivity. Qed.

(** C3, as amended.  A provider name outside the three choices stops the
    run in the argument parser, before anything else happens, and
    [generate_image] given such a name logs it and returns nothing without
    calling any provider.  A missing API key raises nothing: the provider
    logs it and returns nothing, before any request; and when every
    generation ends so, the batch still runs to its end, each titled row
    logged as failed. *)
Theorem C3_configuration_failures_amended (W : World) :
  (forall argv_sheet_id api t,
      api ∉ api_choices ->
      main W argv_sheet_id (Some api) t = (Raise (RaisedSystemExit 2), t))
  /\ (forall prompt api t,
      api ∉ api_choices ->
      generate_image W prompt api t
      = (Ret None, t ++ [LogError ("Unsupported API: " +:+ api)]))
  /\ (opt_truthy (getenv W "OPENAI_API_KEY") = false ->
      forall prompt t,
        generate_image W prompt "openai" t
        = (Ret None,
           t ++ [LogError "OpenAI API key not found in environment variables"]))
  /\ (opt_truthy (getenv W "IDEOGRAM_API_KEY") = false ->
      forall prompt t,
        generate_image W prompt "ideogram" t
        = (Ret None,
           t ++ [LogError "Ideogram API key not found in environment variables"]))
  /\ (opt_truthy (getenv W "STABILITY_API_KEY") = false ->
      forall prompt t,
        generate_image W prompt "stability" t
        = (Ret None,
           t ++ [LogError "Stability AI API key not found in environment variables"]))
  /\ (forall api msg,
      (forall prompt t,
          generate_image W prompt api t = (Ret None, t ++ [LogError msg])) ->
      forall sheet_id credentials yoga_poses t,
        main_loop W sheet_id api credentials yoga_poses t
        = (Ret tt, t ++ failed_rows msg (length yoga_poses) 0 yoga_poses)).
Proof.
  split; [|split; [|split; [|split; [|split]]]].
  - intros argv_sheet_id api t Hapi. unfold main, parse_arguments, bind at 1.
    by rewrite bool_decide_false.
  - intros. by apply generate_image_unknown.
  - intros. by apply generate_image_openai_no_key.
  - intros. by apply generate_image_ideogram_no_key.
  - intros. by apply generate_image_stability_no_key.
  - intros api msg Hgen sheet_id credentials yoga_poses t. unfold main_loop.
    by apply for_enumerate_all_failed.
Qed.

Lemma C3_configuration_failures_amended_witness :
  main world_no_keys (Some "sheet-1") (Some "dalle") [] = (Raise (RaisedSystemExit 2), [])
  /\ generate_image world_no_keys "tree" "ideogram" []
     = (Ret None, [LogError "Ideogram API key not found in environment variables"]).
Proof.
  pose proof (C3_configuration_failures_amended world_no_keys)
    as (Hexit & _ & _ & Hkey & _).
  split.
  - apply Hexit. unfold api_choices. rewrite !not_elem_of_cons, elem_of_nil.
    repeat split; try discriminate. tauto.
  - apply (Hkey eq_refl).
Defined.

(** C3 as stated fails: with no API key the run raises nothing; every row is
    taken up, logged as failed, and the run ends as usual. *)
Lemma C3_counterexample :
  getenv world_no_keys "IDEOGRAM_API_KEY" = None
  /\ main world_no_keys (Some "sheet-1") None []
     = (Ret tt,
        [Print "Using IDEOGRAM API for image generation";
         ServiceAccountLoad "service_account.json";
         LogInfo "Successfully authenticated using service account";
         SheetsGet "sheet-1" "Sheet1!A1:E";
         LogInfo "Retrieved 2 yoga poses from sheet";
         LogInfo "Processing pose 1/2: Tree";
         LogInfo "Generated prompt for Tree: flat Tree yoga pose, background.";
         LogInfo "Generating image for Tree...";
         LogError "Ideogram API key not found in environment variables";
         LogError "Failed to generate image for Tree";
         LogInfo "Processing pose 2/2: Cobra";
         LogInfo "Generated prompt for Cobra: Cobra yoga pose, background.";
         LogInfo "Generating image for Cobra...";
         LogError "Ideogram API key not found in environment variables";
         LogError "Failed to generate image for Cobra";
         LogInfo "Process completed!"]).
Proof. split; vm_compute; reflexivity. Qed.

(** * Further properties of the script *)

(** ** The polling provider, whatever the world answers *)

Section PollingCases.

Variable W : World.
Variables (headers : headers_t) (generation_id : string).

Local Abbreviation rounds := (poll_rounds headers generation_id).
Local Abbreviation round := (poll_round headers generation_id).
Local Abbreviation body := (ideogram_poll_body W headers generation_id).



(** While the statuses are not completed, the loop is at the round that
    follows them. *)
Lemma for_range_after n count start t0 :
  n < count ->
  (forall j, j < n ->
     exists st, poll_answer W headers generation_id t0 j st /\ completed st = false) ->
  for_range body start count t0
  = match body (start + n) (t0 ++ rounds n) with
    | (Ret Continue, t1) => for_range body (S (start + n)) (count - S n) t1
    | (Ret Break, t1) => (Ret None, t1)
    | (Ret (Return v), t1) => (Ret (Some v), t1)
    | (Raise r, t1) => (Raise r, t1)
    end.
Proof.
  revert count start t0. induction n as [|n IH]; intros count start t0 Hlt Hall;
    (destruct count as [|k]; [lia|]); cbn [for_range]; unfold bind at 1.
  - cbn [poll_rounds]. rewrite app_nil_r, Nat.add_0_r.
    replace (S k - 1) with k by lia.
    by destruct (body start t0) as [[[| |v]|r] t1].
  - destruct (Hall 0 ltac:(lia)) as (st0 & Hst0 & Hc0).
    rewrite (ideogram_poll_body_continue W headers generation_id _ _ _ Hst0 Hc0).
    rewrite (IH k (S start) (t0 ++ round)); [|lia|].
    + cbn [poll_rounds]. rewrite <- !app_assoc.
      replace (S start + n) with (start + S n) by lia.
      by replace (k - S n) with (S k - S (S n)) by lia.
    + intros j Hj. destruct (Hall (S j) ltac:(lia)) as (st' & Hst' & Hc').
      exists st'. split; [by apply poll_answer_shift|done].
Qed.

(** The three ways a round ends the loop without an image. *)
Lemma ideogram_poll_body_raises attempt t0 n e :
  ideogram_poll W (t0 ++ rounds n ++ [Sleep 2]) generation_id headers = Raises e ->
  body attempt (t0 ++ rounds n)
  = (Raise (RaisedException e), t0 ++ rounds (S n)).
Proof.
  intros Hpoll. unfold ideogram_poll_body, bind, emit, ask, of_reply, ret, raise.
  rewrite <- !app_assoc. rewrite Hpoll.
  by rewrite poll_rounds_S.
Qed.

Lemma ideogram_poll_body_no_url attempt t0 n st :
  poll_answer W headers generation_id t0 n st ->
  completed st = true ->
  opt_truthy (ig_image_url st) = false ->
  body attempt (t0 ++ rounds n) = (Ret Break, t0 ++ rounds (S n)).
Proof.
  unfold poll_answer, completed. intros Hpoll Hc Hurl.
  unfold ideogram_poll_body, bind, emit, ask, of_reply, ret, raise.
  rewrite <- !app_assoc. rewrite Hpoll, Hc.
  rewrite poll_rounds_S.
  destruct (ig_image_url st) as [url|]; [|done]. cbn in Hurl. by rewrite Hurl.
Qed.

Lemma ideogram_poll_body_bad_download attempt t0 n st image_url resp :
  poll_answer W headers generation_id t0 n st ->
  completed st = true ->
  ig_image_url st = Some image_url ->
  PyStr.truthy image_url = true ->
  http_get W (t0 ++ rounds (S n)) image_url = Returns resp ->
  status_code resp <> 200%Z ->
  body attempt (t0 ++ rounds n)
  = (Ret Break, t0 ++ rounds (S n) ++ [HttpGet image_url []]).
Proof.
  unfold poll_answer, completed. intros Hpoll Hc Hurl Htr Hget Hcode.
  unfold ideogram_poll_body, bind, emit, ask, of_reply, ret, raise.
  rewrite <- !app_assoc. rewrite Hpoll, Hc, Hurl, Htr.
  rewrite poll_rounds_S in *. rewrite <- !app_assoc in *. cbn [app] in *.
  unfold poll_round in Hget. cbn [app] in Hget. rewrite Hget.
  by rewrite bool_decide_false.
Qed.

Lemma ideogram_poll_body_download_raises attempt t0 n st image_url e :
  poll_answer W headers generation_id t0 n st ->
  completed st = true ->
  ig_image_url st = Some image_url ->
  PyStr.truthy image_url = true ->
  http_get W (t0 ++ rounds (S n)) image_url = Raises e ->
  body attempt (t0 ++ rounds n)
  = (Raise (RaisedException e), t0 ++ rounds (S n) ++ [HttpGet image_url []]).
Proof.
  unfold poll_answer, completed. intros Hpoll Hc Hurl Htr Hget.
  unfold ideogram_poll_body, bind, emit, ask, of_reply, ret, raise.
  rewrite <- !app_assoc. rewrite Hpoll, Hc, Hurl, Htr.
  rewrite poll_rounds_S in *. rewrite <- !app_assoc in *. cbn [app] in *.
  unfold poll_round in Hget. cbn [app] in Hget. by rewrite Hget.
Qed.

End PollingCases.

(** ** The polling provider: every way out *)

(** X4. When the submission is refused, or is answered without a generation
    identifier, the polling provider gives up at once: one error line, no
    wait and no status request. *)
Theorem X4_ideogram_no_polling_without_id (W : World) (prompt api_key : string)
    (t : trace) :
  let headers := json_headers api_key in
  let t0 := t ++ [HttpPost ideogram_url headers (ideogram_payload prompt)] in
  getenv W "IDEOGRAM_API_KEY" = Some api_key ->
  PyStr.truthy api_key = true ->
  (forall e,
      ideogram_generation W t headers (ideogram_payload prompt) = Raises e ->
      generate_image_ideogram W prompt t
      = (Ret None,
         t0 ++ [LogError ("Error generating image with Ideogram: " +:+ exc_text e)]))
  /\ (forall result,
      ideogram_generation W t headers (ideogram_payload prompt) = Returns result ->
      opt_truthy (ig_generation_id result) = false ->
      generate_image_ideogram W prompt t
      = (Ret None, t0 ++ [LogError "No generation ID returned from Ideogram API"])).
Proof.
  intros headers t0 Hkey Hkt. split.
  - intros e Hsub. unfold generate_image_ideogram. rewrite Hkey.
    cbn [opt_truthy from_option id]. rewrite Hkt. cbn [negb].
    unfold try_except, log_error, bind, ask, emit, of_reply, ret, raise.
    fold headers. by rewrite Hsub.
  - intros result Hsub Hid. unfold generate_image_ideogram. rewrite Hkey.
    cbn [opt_truthy from_option id]. rewrite Hkt. cbn [negb].
    unfold try_except, log_error, bind, ask, emit, of_reply, ret, raise.
    fold headers. by rewrite Hsub, Hid.
Qed.

Lemma X4_ideogram_no_polling_without_id_witness :
  generate_image_ideogram (polling_world (Raises refused) (fun _ => Raises refused) image_ok)
    "tree" []
  = (Ret None,
     [HttpPost ideogram_url (json_headers "key") (ideogram_payload "tree");
      LogError "Error generating image with Ideogram: connection refused"])
  /\ generate_image_ideogram
       (polling_world (Returns {| ig_generation_id := Some "" |})
          (fun _ => Raises refused) image_ok) "tree" []
     = (Ret None,
        [HttpPost ideogram_url (json_headers "key") (ideogram_payload "tree");
         LogError "No generation ID returned from Ideogram API"]).
Proof.
  split.
  - exact (proj1 (X4_ideogram_no_polling_without_id
                    (polling_world (Raises refused) (fun _ => Raises refused) image_ok)
                    "tree" "key" [] eq_refl eq_refl) refused eq_refl).
  - exact (proj2 (X4_ideogram_no_polling_without_id
                    (polling_world (Returns {| ig_generation_id := Some "" |})
                       (fun _ => Raises refused) image_ok)
                    "tree" "key" [] eq_refl eq_refl)
             {| ig_generation_id := Some "" |} eq_refl eq_refl).
Defined.



Section IdeogramStops.

Variable W : World.
Variables (prompt api_key generation_id : string) (t : trace).
Variable n : nat.

Let headers := json_headers api_key.
Let t0 := t ++ [HttpPost ideogram_url headers (ideogram_payload prompt)].

Hypothesis Hkey : getenv W "IDEOGRAM_API_KEY" = Some api_key.
Hypothesis Hkey_truthy : PyStr.truthy api_key = true.
Hypothesis Hsubmit :
  ideogram_generation W t headers (ideogram_payload prompt)
  = Returns {| ig_generation_id := Some generation_id |}.
Hypothesis Hid_truthy : PyStr.truthy generation_id = true.
Hypothesis Hn : n < 30.
Hypothesis Hbefore :
  forall j, j < n ->
    exists st, poll_answer W headers generation_id t0 j st
               /\ ig_state st <> Some "completed".

(** After [n] statuses that are not completed, the call is decided by round
    [n + 1]. *)
Lemma generate_image_ideogram_at_round :
  generate_image_ideogram W prompt t
  = match ideogram_poll_body W headers generation_id n
            (t0 ++ poll_rounds headers generation_id n) with
    | (Ret Continue, t1) =>
        match for_range (ideogram_poll_body W headers generation_id) (S n)
                (max_attempts - S n) t1 with
        | (Ret (Some image), t2) => (Ret image, t2)
        | (Ret None, t2) => (Ret None, t2 ++ [LogError timeout_message])
        | (Raise (RaisedException e), t2) =>
            (Ret None,
             t2 ++ [LogError ("Error generating image with Ideogram: " +:+ exc_text e)])
        | (Raise r, t2) => (Raise r, t2)
        end
    | (Ret Break, t1) => (Ret None, t1 ++ [LogError timeout_message])
    | (Ret (Return image), t1) => (Ret image, t1)
    | (Raise (RaisedException e), t1) =>
        (Ret None,
         t1 ++ [LogError ("Error generating image with Ideogram: " +:+ exc_text e)])
    | (Raise r, t1) => (Raise r, t1)
    end.
Proof.
  rewrite (generate_image_ideogram_submitted W prompt api_key generation_id t
             Hkey Hkey_truthy Hsubmit Hid_truthy).
  fold headers. fold t0.
  rewrite (for_range_after W headers generation_id n max_attempts 0 t0).
  - cbn [Nat.add].
    by destruct (ideogram_poll_body W headers generation_id n _)
      as [[[| |[image|]]|[e|code]] t1].
  - unfold max_attempts. lia.
  - intros j Hj. destruct (Hbefore j Hj) as (st & Hst & Hne).
    exists st. split; [done|]. by apply bool_decide_eq_false.
Qed.

End IdeogramStops.

(** X6. The polling stops at the first completed status: after [n] other
    statuses ([n] below 30), a completed status whose image downloads makes
    the call return that image after exactly [n + 1] status requests. *)
Theorem X6_ideogram_first_completed (W : World)
    (prompt api_key generation_id : string) (t : trace) (n : nat)
    (st : ideogram_status) (image_url : string) (resp : http_response) :
  let headers := json_headers api_key in
  let t0 := t ++ [HttpPost ideogram_url headers (ideogram_payload prompt)] in
  getenv W "IDEOGRAM_API_KEY" = Some api_key ->
  PyStr.truthy api_key = true ->
  ideogram_generation W t headers (ideogram_payload prompt)
  = Returns {| ig_generation_id := Some generation_id |} ->
  PyStr.truthy generation_id = true ->
  n < 30 ->
  (forall j, j < n ->
     exists st', poll_answer W headers generation_id t0 j st'
                 /\ ig_state st' <> Some "completed") ->
  poll_answer W headers generation_id t0 n st ->
  ig_state st = Some "completed" ->
  ig_image_url st = Some image_url ->
  PyStr.truthy image_url = true ->
  http_get W (t0 ++ poll_rounds headers generation_id (S n)) image_url = Returns resp ->
  status_code resp = 200%Z ->
  generate_image_ideogram W prompt t
  = (Ret (Some (content resp)),
     t0 ++ poll_rounds headers generation_id (S n) ++ [HttpGet image_url []]).
Proof.
  intros headers t0 Hkey Hkt Hsub Hit Hn Hbefore Hst Hc Hurl Htr Hget Hcode.
  apply (generate_image_ideogram_completion W prompt api_key generation_id t
           Hkey Hkt Hsub Hit n st image_url resp); try done.
  - intros j Hj. destruct (Hbefore j Hj) as (st' & Hst' & Hne).
    exists st'. split; [done|]. by apply bool_decide_eq_false.
  - by apply bool_decide_eq_true.
Qed.

Lemma X6_ideogram_first_completed_witness :
  generate_image_ideogram
    (polling_world submitted_ok (fun k => Returns (done_at 2 k)) image_ok) "tree" []
  = (Ret (Some png),
     [HttpPost ideogram_url (json_headers "key") (ideogram_payload "tree")]
     ++ poll_rounds (json_headers "key") "gen-1" 3
     ++ [HttpGet "https://img/1.png" []]).
Proof.
  apply (X6_ideogram_first_completed
           (polling_world submitted_ok (fun k => Returns (done_at 2 k)) image_ok)
           "tree" "key" "gen-1" [] 2
           {| ig_state := Some "completed"; ig_image_url := Some "https://img/1.png" |}
           "https://img/1.png" {| status_code := 200; content := png |});
    try reflexivity; [lia|].
  intros j Hj. exists (status_of "processing").
  do 2 (destruct j as [|j]; [split; [reflexivity|discriminate]|]). exfalso. lia.
Defined.

(** X7. A completed status that brings no usable image ends the polling at
    once, and the call reports it with the time-out line: either the status
    has no image URL (no download is tried), or the download answers with a
    status code other than 200. *)
Theorem X7_ideogram_completed_without_image (W : World)
    (prompt api_key generation_id : string) (t : trace) (n : nat)
    (st : ideogram_status) :
  let headers := json_headers api_key in
  let t0 := t ++ [HttpPost ideogram_url headers (ideogram_payload prompt)] in
  getenv W "IDEOGRAM_API_KEY" = Some api_key ->
  PyStr.truthy api_key = true ->
  ideogram_generation W t headers (ideogram_payload prompt)
  = Returns {| ig_generation_id := Some generation_id |} ->
  PyStr.truthy generation_id = true ->
  n < 30 ->
  (forall j, j < n ->
     exists st', poll_answer W headers generation_id t0 j st'
                 /\ ig_state st' <> Some "completed") ->
  poll_answer W headers generation_id t0 n st ->
  ig_state st = Some "completed" ->
  (opt_truthy (ig_image_url st) = false ->
   generate_image_ideogram W prompt t
   = (Ret None,
      t0 ++ poll_rounds headers generation_id (S n) ++ [LogError timeout_message]))
  /\ (forall image_url resp,
      ig_image_url st = Some image_url ->
      PyStr.truthy image_url = true ->
      http_get W (t0 ++ poll_rounds headers generation_id (S n)) image_url
      = Returns resp ->
      status_code resp <> 200%Z ->
      generate_image_ideogram W prompt t
      = (Ret None,
         t0 ++ poll_rounds headers generation_id (S n)
         ++ [HttpGet image_url []; LogError timeout_message])).
Proof.
  intros headers t0 Hkey Hkt Hsub Hit Hn Hbefore Hst Hc.
  apply (bool_decide_eq_true_2 (ig_state st = Some "completed")) in Hc.
  fold (completed st) in Hc.
  pose proof (generate_image_ideogram_at_round W prompt api_key generation_id t n
                Hkey Hkt Hsub Hit Hn Hbefore) as Hat.
  fold headers in Hat. fold t0 in Hat. split.
  - intros Hurl. rewrite Hat.
    rewrite (ideogram_poll_body_no_url W headers generation_id n t0 n st Hst Hc Hurl).
    by rewrite <- !app_assoc.
  - intros image_url resp Hurl Htr Hget Hcode. rewrite Hat.
    rewrite (ideogram_poll_body_bad_download W headers generation_id n t0 n st
               image_url resp Hst Hc Hurl Htr Hget Hcode).
    by rewrite <- !app_assoc.
Qed.

Lemma X7_ideogram_completed_without_image_witness :
  generate_image_ideogram
    (polling_world submitted_ok (fun _ => Returns (completed_with None)) image_ok)
    "tree" []
  = (Ret None,
     [HttpPost ideogram_url (json_headers "key") (ideogram_payload "tree")]
     ++ poll_rounds (json_headers "key") "gen-1" 1 ++ [LogError timeout_message])
  /\ generate_image_ideogram
       (polling_world submitted_ok
          (fun _ => Returns (completed_with (Some "https://img/1.png")))
          (Returns {| status_code := 404; content := [] |}))
       "tree" []
     = (Ret None,
        [HttpPost ideogram_url (json_headers "key") (ideogram_payload "tree")]
        ++ poll_rounds (json_headers "key") "gen-1" 1
        ++ [HttpGet "https://img/1.png" []; LogError timeout_message]).
Proof.
  split.
  - apply (X7_ideogram_completed_without_image
             (polling_world submitted_ok (fun _ => Returns (completed_with None)) image_ok)
             "tree" "key" "gen-1" [] 0 (completed_with None));
      try reflexivity; [lia|]. intros j Hj. exfalso. lia.
  - refine (proj2 (X7_ideogram_completed_without_image
             (polling_world submitted_ok
                (fun _ => Returns (completed_with (Some "https://img/1.png")))
                (Returns {| status_code := 404; content := [] |}))
             "tree" "key" "gen-1" [] 0 (completed_with (Some "https://img/1.png"))
             eq_refl eq_refl eq_refl eq_refl _ _ eq_refl eq_refl)
             "https://img/1.png" {| status_code := 404; content := [] |}
             eq_refl eq_refl eq_refl _); [lia| |discriminate].
    intros j Hj. exfalso. lia.
Defined.

(** X8. A network or HTTP error in the middle of the polling is caught: the
    polling stops at that round, the error text is logged, and the call
    returns nothing.  The same holds for an error of the image download. *)
Theorem X8_ideogram_error_while_polling (W : World)
    (prompt api_key generation_id : string) (t : trace) (n : nat) (e : exception) :
  let headers := json_headers api_key in
  let t0 := t ++ [HttpPost ideogram_url headers (ideogram_payload prompt)] in
  getenv W "IDEOGRAM_API_KEY" = Some api_key ->
  PyStr.truthy api_key = true ->
  ideogram_generation W t headers (ideogram_payload prompt)
  = Returns {| ig_generation_id := Some generation_id |} ->
  PyStr.truthy generation_id = true ->
  n < 30 ->
  (forall j, j < n ->
     exists st', poll_answer W headers generation_id t0 j st'
                 /\ ig_state st' <> Some "completed") ->
  (ideogram_poll W (t0 ++ poll_rounds headers generation_id n ++ [Sleep 2])
     generation_id headers = Raises e ->
   generate_image_ideogram W prompt t
   = (Ret None,
      t0 ++ poll_rounds headers generation_id (S n)
      ++ [LogError ("Error generating image with Ideogram: " +:+ exc_text e)]))
  /\ (forall st image_url,
      poll_answer W headers generation_id t0 n st ->
      ig_state st = Some "completed" ->
      ig_image_url st = Some image_url ->
      PyStr.truthy image_url = true ->
      http_get W (t0 ++ poll_rounds headers generation_id (S n)) image_url = Raises e ->
      generate_image_ideogram W prompt t
      = (Ret None,
         t0 ++ poll_rounds headers generation_id (S n)
         ++ [HttpGet image_url [];
             LogError ("Error generating image with Ideogram: " +:+ exc_text e)])).
Proof.
  intros headers t0 Hkey Hkt Hsub Hit Hn Hbefore.
  pose proof (generate_image_ideogram_at_round W prompt api_key generation_id t n
                Hkey Hkt Hsub Hit Hn Hbefore) as Hat.
  fold headers in Hat. fold t0 in Hat. split.
  - intros Hpoll. rewrite Hat.
    rewrite (ideogram_poll_body_raises W headers generation_id n t0 n e Hpoll).
    by rewrite <- !app_assoc.
  - intros st image_url Hst Hc Hurl Htr Hget. rewrite Hat.
    apply (bool_decide_eq_true_2 (ig_state st = Some "completed")) in Hc.
    fold (completed st) in Hc.
    rewrite (ideogram_poll_body_download_raises W headers generation_id n t0 n st
               image_url e Hst Hc Hurl Htr Hget).
    by rewrite <- !app_assoc.
Qed.

Lemma X8_ideogram_error_while_polling_witness :
  generate_image_ideogram
    (polling_world submitted_ok
       (fun k => if k <? 1 then Returns (status_of "processing") else Raises refused)
       image_ok)
    "tree" []
  = (Ret None,
     [HttpPost ideogram_url (json_headers "key") (ideogram_payload "tree")]
     ++ poll_rounds (json_headers "key") "gen-1" 2
     ++ [LogError "Error generating image with Ideogram: connection refused"]).
Proof.
  refine (proj1 (X8_ideogram_error_while_polling
            (polling_world submitted_ok
               (fun k => if k <? 1 then Returns (status_of "processing")
                         else Raises refused) image_ok)
            "tree" "key" "gen-1" [] 1 refused eq_refl eq_refl eq_refl eq_refl _ _)
            eq_refl); [lia|].
  intros j Hj. exists (status_of "processing").
  destruct j as [|j]; [split; [reflexivity|discriminate]|]. exfalso. lia.
Defined.

(** ** The two direct providers *)

(** X1. With a key, the direct provider sends exactly one request, to its
    own endpoint, with the key as bearer token and the prompt in the
    payload.  The first item of the answer, decoded, is the image, whatever
    follows it; in every other case the call returns nothing after one error
    line.  It never raises. *)
Theorem X1_openai_one_request (W : World) (prompt api_key : string) (t : trace) :
  let headers := json_headers api_key in
  let t1 := t ++ [HttpPost openai_url headers (openai_payload prompt)] in
  getenv W "OPENAI_API_KEY" = Some api_key ->
  PyStr.truthy api_key = true ->
  ((exists image, generate_image_openai W prompt t = (Ret (Some image), t1))
   \/ (exists e, generate_image_openai W prompt t
                 = (Ret None,
                    t1 ++ [LogError ("Error generating image with OpenAI: "
                                     +:+ exc_text e)])))
  /\ (forall b64 rest image,
      openai_generations W t headers (openai_payload prompt)
      = Returns {| oa_data := Some (Some b64 :: rest) |} ->
      b64decode W b64 = Returns image ->
      generate_image_openai W prompt t = (Ret (Some image), t1)).
Proof.
  intros headers t1 Hkey Hkt.
  unfold generate_image_openai. rewrite Hkey.
  cbn [opt_truthy from_option id]. rewrite Hkt. cbn [negb].
  unfold try_except, log_error, bind, ask, emit, of_reply, ret, raise.
  fold headers. fold t1. split.
  - destruct (openai_generations W t headers (openai_payload prompt))
      as [e|[[[|[b64|] rest]|]]].
    + right. by exists e.
    + right. by exists IndexError.
    + cbn. destruct (b64decode W b64) as [e|image].
      * right. by exists e.
      * left. by exists image.
    + right. by exists (KeyError "b64_json").
    + right. by exists (KeyError "data").
  - intros b64 rest image -> Hdec. cbn. by rewrite Hdec.
Qed.

Lemma X1_openai_one_request_witness :
  generate_image_openai
    (provider_world (Returns {| oa_data := Some [Some "iVBORw=="; Some "AAAA"] |})
       (Raises refused) (fun _ => Returns png)) "tree" []
  = (Ret (Some png), [HttpPost openai_url (json_headers "key") (openai_payload "tree")]).
Proof.
  exact (proj2 (X1_openai_one_request
                  (provider_world
                     (Returns {| oa_data := Some [Some "iVBORw=="; Some "AAAA"] |})
                     (Raises refused) (fun _ => Returns png))
                  "tree" "key" [] eq_refl eq_refl)
           "iVBORw==" [Some "AAAA"] png eq_refl eq_refl).
Defined.

(** X2. What the direct provider logs for each failure: the text of the
    exception when the request or the decoding raises; the missing key in
    quotes when the answer has no data or its first item no b64_json; the
    index error when the data list is empty. *)
Theorem X2_openai_failures (W : World) (prompt api_key : string) (t : trace) :
  let headers := json_headers api_key in
  let t1 := t ++ [HttpPost openai_url headers (openai_payload prompt)] in
  let failed msg :=
    generate_image_openai W prompt t
    = (Ret None, t1 ++ [LogError ("Error generating image with OpenAI: " +:+ msg)]) in
  let answer := openai_generations W t headers (openai_payload prompt) in
  getenv W "OPENAI_API_KEY" = Some api_key ->
  PyStr.truthy api_key = true ->
  (forall e, answer = Raises e -> failed (exc_text e))
  /\ (answer = Returns {| oa_data := None |} -> failed "'data'")
  /\ (answer = Returns {| oa_data := Some [] |} -> failed "list index out of range")
  /\ (forall rest, answer = Returns {| oa_data := Some (None :: rest) |} ->
        failed "'b64_json'")
  /\ (forall b64 rest e,
        answer = Returns {| oa_data := Some (Some b64 :: rest) |} ->
        b64decode W b64 = Raises e -> failed (exc_text e)).
Proof.
  intros headers t1 failed answer Hkey Hkt. subst failed answer.
  unfold generate_image_openai. rewrite Hkey.
  cbn [opt_truthy from_option id]. rewrite Hkt. cbn [negb].
  unfold try_except, log_error, bind, ask, emit, of_reply, ret, raise.
  fold headers. fold t1.
  repeat split; intros;
    repeat (match goal with H : _ = _ |- _ => rewrite H end; cbn [oa_data]);
    reflexivity.
Qed.

Lemma X2_openai_failures_witness :
  generate_image_openai
    (provider_world (Returns {| oa_data := Some [] |}) (Raises refused)
       (fun _ => Returns png)) "tree" []
  = (Ret None,
     [HttpPost openai_url (json_headers "key") (openai_payload "tree");
      LogError "Error generating image with OpenAI: list index out of range"])
  /\ generate_image_openai
       (provider_world (Returns {| oa_data := Some [Some "%%%"] |}) (Raises refused)
          (fun _ => Raises (Exception "binascii.Error" "Incorrect padding")))
       "tree" []
     = (Ret None,
        [HttpPost openai_url (json_headers "key") (openai_payload "tree");
         LogError "Error generating image with OpenAI: Incorrect padding"]).
Proof.
  split.
  - exact (proj1 (proj2 (proj2 (X2_openai_failures
             (provider_world (Returns {| oa_data := Some [] |}) (Raises refused)
                (fun _ => Returns png)) "tree" "key" [] eq_refl eq_refl))) eq_refl).
  - exact (proj2 (proj2 (proj2 (proj2 (X2_openai_failures
             (provider_world (Returns {| oa_data := Some [Some "%%%"] |}) (Raises refused)
                (fun _ => Raises (Exception "binascii.Error" "Incorrect padding")))
             "tree" "key" [] eq_refl eq_refl))))
             "%%%" [] (Exception "binascii.Error" "Incorrect padding") eq_refl eq_refl).
Defined.

(** X3. The provider with a list of artifacts: with a key it sends one
    request; the first artifact, decoded, is the image, whatever follows it;
    an answer with no artifacts key or with an empty list is a failure of
    its own, with its own log line and no exception text. *)
Theorem X3_stability_artifacts (W : World) (prompt api_key : string) (t : trace) :
  let headers := json_headers api_key in
  let t1 := t ++ [HttpPost stability_url headers (stability_payload prompt)] in
  let answer := stability_text_to_image W t headers (stability_payload prompt) in
  getenv W "STABILITY_API_KEY" = Some api_key ->
  PyStr.truthy api_key = true ->
  (forall b64 rest image,
      answer = Returns {| st_artifacts := Some (Some b64 :: rest) |} ->
      b64decode W b64 = Returns image ->
      generate_image_stability W prompt t = (Ret (Some image), t1))
  /\ (answer = Returns {| st_artifacts := None |}
      \/ answer = Returns {| st_artifacts := Some [] |} ->
      generate_image_stability W prompt t
      = (Ret None, t1 ++ [LogError "No image artifacts returned from Stability API"]))
  /\ (forall rest,
      answer = Returns {| st_artifacts := Some (None :: rest) |} ->
      generate_image_stability W prompt t
      = (Ret None, t1 ++ [LogError "Error generating image with Stability AI: 'base64'"]))
  /\ (forall e,
      answer = Raises e ->
      generate_image_stability W prompt t
      = (Ret None,
         t1 ++ [LogError ("Error generating image with Stability AI: " +:+ exc_text e)])).
Proof.
  intros headers t1 answer Hkey Hkt. subst answer.
  unfold generate_image_stability. rewrite Hkey.
  cbn [opt_truthy from_option id]. rewrite Hkt. cbn [negb].
  unfold try_except, log_error, bind, ask, emit, of_reply, ret, raise.
  fold headers. fold t1.
  split; [|split; [|split]].
  - intros b64 rest image -> Hdec. cbn. by rewrite Hdec.
  - by intros [-> | ->].
  - by intros rest ->.
  - by intros e ->.
Qed.

Lemma X3_stability_artifacts_witness :
  generate_image_stability
    (provider_world (Raises refused) (Returns {| st_artifacts := Some [] |})
       (fun _ => Returns png)) "tree" []
  = (Ret None,
     [HttpPost stability_url (json_headers "key") (stability_payload "tree");
      LogError "No image artifacts returned from Stability API"]).
Proof.
  exact (proj1 (proj2 (X3_stability_artifacts
           (provider_world (Raises refused) (Returns {| st_artifacts := Some [] |})
              (fun _ => Returns png)) "tree" "key" [] eq_refl eq_refl))
           (or_intror eq_refl)).
Defined.

(** ** Before the rows: arguments, credentials, sheet data *)


(** X9. Authentication fails loudly.  With no key file, nothing is loaded:
    one error line, and a FileNotFoundError leaves the function.  When the
    key file does not load, the error is logged and the very same exception
    is raised again.  When the key file loads, the credentials it gives are
    returned after one line of the log. *)
Theorem X9_authenticate_google_failures (W : World) (t : trace) :
  (path_exists W SERVICE_ACCOUNT_FILE = false ->
   authenticate_google W t
   = (Raise (RaisedException
               (Exception "FileNotFoundError"
                  "Service account key file service_account.json is missing")),
      t ++ [LogError "Service account file service_account.json not found."]))
  /\ (forall e,
      path_exists W SERVICE_ACCOUNT_FILE = true ->
      service_account_load W t = Raises e ->
      authenticate_google W t
      = (Raise (RaisedException e),
         t ++ [ServiceAccountLoad SERVICE_ACCOUNT_FILE;
               LogError ("Error authenticating with service account: "
                         +:+ exc_text e)]))
  /\ (forall credentials,
      path_exists W SERVICE_ACCOUNT_FILE = true ->
      service_account_load W t = Returns credentials ->
      authenticate_google W t
      = (Ret credentials,
         t ++ [ServiceAccountLoad SERVICE_ACCOUNT_FILE;
               LogInfo "Successfully authenticated using service account"])).
Proof.
  split; [|split].
  - apply authenticate_google_missing_file.
  - intros e. apply authenticate_google_load_fails.
  - intros credentials. apply authenticate_google_ok.
Qed.

Lemma X9_authenticate_google_failures_witness :
  authenticate_google
    (office_world false (Returns "creds") "typed" sheet_ok drive_ok (Returns tt) (Returns tt))
    []
  = (Raise (RaisedException
              (Exception "FileNotFoundError"
                 "Service account key file service_account.json is missing")),
     [LogError "Service account file service_account.json not found."])
  /\ authenticate_google
       (office_world true (Returns "creds") "typed" sheet_ok drive_ok (Returns tt) (Returns tt))
       []
     = (Ret "creds",
        [ServiceAccountLoad "service_account.json";
         LogInfo "Successfully authenticated using service account"]).
Proof.
  split.
  - exact (proj1 (X9_authenticate_google_failures
                    (office_world false (Returns "creds") "typed" sheet_ok drive_ok
                       (Returns tt) (Returns tt)) []) eq_refl).
  - exact (proj2 (proj2 (X9_authenticate_google_failures
                    (office_world true (Returns "creds") "typed" sheet_ok drive_ok
                       (Returns tt) (Returns tt)) [])) "creds" eq_refl eq_refl).
Defined.

(** X10. A failure before the rows ends the run at once and is not caught:
    with no key file, with a key file that does not load, or with a sheet
    that cannot be read, the run raises, and no row is taken up (no
    provider request, no upload, no sheet write). *)
Theorem X10_main_stops_before_rows (W : World) (argv_sheet_id : option string)
    (api : string) (t : trace) :
  let t1 := t ++ main_opening argv_sheet_id api in
  let sheet_id := chosen_sheet_id W argv_sheet_id t in
  api ∈ api_choices ->
  (path_exists W SERVICE_ACCOUNT_FILE = false ->
   main W argv_sheet_id (Some api) t
   = (Raise (RaisedException
               (Exception "FileNotFoundError"
                  "Service account key file service_account.json is missing")),
      t1 ++ [LogError "Service account file service_account.json not found."]))
  /\ (forall e,
      path_exists W SERVICE_ACCOUNT_FILE = true ->
      service_account_load W t1 = Raises e ->
      main W argv_sheet_id (Some api) t
      = (Raise (RaisedException e),
         t1 ++ [ServiceAccountLoad SERVICE_ACCOUNT_FILE;
                LogError ("Error authenticating with service account: "
                          +:+ exc_text e)]))
  /\ (forall credentials e,
      path_exists W SERVICE_ACCOUNT_FILE = true ->
      service_account_load W t1 = Returns credentials ->
      sheets_values_get W (t1 ++ authenticated) sheet_id "Sheet1!A1:E" = Raises e ->
      main W argv_sheet_id (Some api) t
      = (Raise (RaisedException e),
         t1 ++ authenticated ++ [SheetsGet sheet_id "Sheet1!A1:E"])).
Proof.
  intros t1 sheet_id Hapi. split; [|split].
  - intros Hfile. rewrite main_unfolded by done. fold t1.
    by rewrite authenticate_google_missing_file.
  - intros e Hfile Hload. rewrite main_unfolded by done. fold t1.
    by rewrite (authenticate_google_load_fails W t1 e).
  - intros credentials e Hfile Hload Hget. rewrite main_unfolded by done. fold t1.
    rewrite (authenticate_google_ok W t1 credentials) by done.
    cbn zeta. fold sheet_id.
    rewrite (get_sheet_data_raises W sheet_id credentials _ e Hget).
    by rewrite <- app_assoc.
Qed.

Lemma X10_main_stops_before_rows_witness :
  main (office_world true (Returns "creds") "typed" (Raises refused) drive_ok
          (Returns tt) (Returns tt))
    (Some "sheet-1") (Some "openai") []
  = (Raise (RaisedException refused),
     [Print "Using OPENAI API for image generation";
      ServiceAccountLoad "service_account.json";
      LogInfo "Successfully authenticated using service account";
      SheetsGet "sheet-1" "Sheet1!A1:E"]).
Proof.
  refine (proj2 (proj2 (X10_main_stops_before_rows
            (office_world true (Returns "creds") "typed" (Raises refused) drive_ok
               (Returns tt) (Returns tt))
            (Some "sheet-1") "openai" [] _)) "creds" refused eq_refl eq_refl eq_refl).
  unfold api_choices. constructor.
Defined.

Lemma rows_of_values_length headers rest :
  length (rows_of_values (headers :: rest)) = length rest.
Proof. cbn [rows_of_values]. apply length_map. Qed.

Lemma main_runs_rows (W : World) argv_sheet_id api t credentials headers rest :
  let t1 := t ++ main_opening argv_sheet_id api in
  let sheet_id := chosen_sheet_id W argv_sheet_id t in
  api ∈ api_choices ->
  path_exists W SERVICE_ACCOUNT_FILE = true ->
  service_account_load W t1 = Returns credentials ->
  sheets_values_get W (t1 ++ authenticated) sheet_id "Sheet1!A1:E"
  = Returns (Some (headers :: rest)) ->
  main W argv_sheet_id (Some api) t
  = match main_loop W sheet_id api credentials (rows_of_values (headers :: rest))
            (t1 ++ authenticated
             ++ [SheetsGet sheet_id "Sheet1!A1:E"; retrieved_line (length rest)]) with
    | (Ret _, t4) => (Ret tt, t4 ++ [LogInfo "Process completed!"])
    | (Raise r, t4) => (Raise r, t4)
    end.
Proof.
  intros t1 sheet_id Hapi Hfile Hload Hget.
  rewrite main_unfolded by done. fold t1.
  rewrite (authenticate_google_ok W t1 credentials) by done.
  cbn zeta. fold sheet_id.
  rewrite (get_sheet_data_rows W sheet_id credentials _ headers rest Hget).
  rewrite rows_of_values_length. by rewrite <- !app_assoc.
Qed.

(** X11. When the credentials load and the sheet has a header row, the run
    is the loop over the rows of the sheet, in order, after the opening
    lines; it ends with the closing log line exactly when the loop returns,
    and an exception of the loop leaves the run as it is.  When the storage
    and the sheet never raise, the run returns. *)
Theorem X11_main_runs_the_rows (W : World) (argv_sheet_id : option string)
    (api : string) (t : trace) (credentials : Credentials)
    (headers : list string) (rest : list (list string)) :
  let t1 := t ++ main_opening argv_sheet_id api in
  let sheet_id := chosen_sheet_id W argv_sheet_id t in
  let t3 := t1 ++ authenticated
            ++ [SheetsGet sheet_id "Sheet1!A1:E"; retrieved_line (length rest)] in
  api ∈ api_choices ->
  path_exists W SERVICE_ACCOUNT_FILE = true ->
  service_account_load W t1 = Returns credentials ->
  sheets_values_get W (t1 ++ authenticated) sheet_id "Sheet1!A1:E"
  = Returns (Some (headers :: rest)) ->
  main W argv_sheet_id (Some api) t
  = match main_loop W sheet_id api credentials (rows_of_values (headers :: rest)) t3 with
    | (Ret _, t4) => (Ret tt, t4 ++ [LogInfo "Process completed!"])
    | (Raise r, t4) => (Raise r, t4)
    end
  /\ (storage_never_raises W ->
      exists d, main W argv_sheet_id (Some api) t
                = (Ret tt, t3 ++ d ++ [LogInfo "Process completed!"])).
Proof.
  intros t1 sheet_id t3 Hapi Hfile Hload Hget.
  pose proof (main_runs_rows W argv_sheet_id api t credentials headers rest
                Hapi Hfile Hload Hget) as Hmain.
  fold t1 in Hmain. fold sheet_id in Hmain. fold t3 in Hmain.
  split; [exact Hmain|].
  intros Hs. rewrite Hmain.
  destruct (main_loop_returns W sheet_id api credentials
              (rows_of_values (headers :: rest)) t3 Hs) as [d ->].
  exists d. by rewrite <- app_assoc.
Qed.

Lemma X11_main_runs_the_rows_witness :
  main world_openai (Some "sheet-1") (Some "openai") []
  = match main_loop world_openai "sheet-1" "openai" "creds" (rows_of_values two_poses)
            ([Print "Using OPENAI API for image generation"] ++ authenticated
             ++ [SheetsGet "sheet-1" "Sheet1!A1:E"; retrieved_line 2]) with
    | (Ret _, t4) => (Ret tt, t4 ++ [LogInfo "Process completed!"])
    | (Raise r, t4) => (Raise r, t4)
    end.
Proof.
  refine (proj1 (X11_main_runs_the_rows world_openai (Some "sheet-1") "openai" []
                   "creds" ["Content Title"; "Image Style"] [["Tree"; "flat"]; ["Cobra"]]
                   _ eq_refl eq_refl eq_refl)).
  unfold api_choices. constructor.
Defined.

(** X12. A sheet with no values at all logs that no data was found; a sheet
    with only its header row does not.  Either way the run counts 0 poses,
    asks no provider, uploads and writes nothing, and ends normally. *)
Theorem X12_main_empty_sheet (W : World) (argv_sheet_id : option string)
    (api : string) (t : trace) (credentials : Credentials) :
  let t1 := t ++ main_opening argv_sheet_id api in
  let sheet_id := chosen_sheet_id W argv_sheet_id t in
  let answer := sheets_values_get W (t1 ++ authenticated) sheet_id "Sheet1!A1:E" in
  api ∈ api_choices ->
  path_exists W SERVICE_ACCOUNT_FILE = true ->
  service_account_load W t1 = Returns credentials ->
  (answer = Returns None \/ answer = Returns (Some []) ->
   main W argv_sheet_id (Some api) t
   = (Ret tt,
      t1 ++ authenticated
      ++ [SheetsGet sheet_id "Sheet1!A1:E"; LogError "No data found in sheet";
          LogInfo "Retrieved 0 yoga poses from sheet";
          LogInfo "Process completed!"]))
  /\ (forall headers,
      answer = Returns (Some [headers]) ->
      main W argv_sheet_id (Some api) t
      = (Ret tt,
         t1 ++ authenticated
         ++ [SheetsGet sheet_id "Sheet1!A1:E";
             LogInfo "Retrieved 0 yoga poses from sheet";
             LogInfo "Process completed!"])).
Proof.
  intros t1 sheet_id answer Hapi Hfile Hload. subst answer. split.
  - intros Hget. rewrite main_unfolded by done. fold t1.
    rewrite (authenticate_google_ok W t1 credentials) by done.
    cbn zeta. fold sheet_id.
    rewrite (get_sheet_data_empty W sheet_id credentials _ Hget).
    unfold main_loop. cbn [for_enumerate length]. unfold ret.
    rewrite <- !app_assoc. reflexivity.
  - intros headers Hget.
    rewrite (main_runs_rows W argv_sheet_id api t credentials headers [])
      by done.
    fold t1. fold sheet_id. change (rows_of_values [headers]) with (@nil row).
    unfold main_loop. cbn [for_enumerate]. unfold ret.
    rewrite <- !app_assoc. reflexivity.
Qed.

Lemma X12_main_empty_sheet_witness :
  main (office_world true (Returns "creds") "typed" (Returns None) drive_ok
          (Returns tt) (Returns tt))
    None (Some "ideogram") []
  = (Ret tt,
     [Input "Enter Google Sheet ID: ";
      Print "Using IDEOGRAM API for image generation";
      ServiceAccountLoad "service_account.json";
      LogInfo "Successfully authenticated using service account";
      SheetsGet "typed" "Sheet1!A1:E";
      LogError "No data found in sheet";
      LogInfo "Retrieved 0 yoga poses from sheet";
      LogInfo "Process completed!"]).
Proof.
  refine (proj1 (X12_main_empty_sheet
            (office_world true (Returns "creds") "typed" (Returns None) drive_ok
               (Returns tt) (Returns tt))
            None "ideogram" [] "creds" _ eq_refl eq_refl) (or_introl eq_refl)).
  unfold api_choices. do 2 constructor.
Defined.

Lemma dict_zip_absent (headers cells : list string) (k : string) :
  k ∉ headers -> dict (zip headers cells) !! k = None.
Proof.
  intros Hk. apply dict_lookup_none. intros Hin. apply Hk.
  apply list_elem_of_fmap in Hin as ([k' v] & -> & Hin).
  apply list_elem_of_lookup in Hin as [j Hj].
  rewrite lookup_zip_with in Hj.
  destruct (headers !! j) as [h'|] eqn:E; [|done]. cbn in Hj.
  destruct (cells !! j); [|done]. cbn in Hj.
  simplify_eq. cbn. by eapply list_elem_of_lookup_2.
Qed.

Lemma for_enumerate_untitled (W : World) sheet_id api credentials total yoga_poses :
  Forall (fun pose_data => titled pose_data = false) yoga_poses ->
  forall i t,
    for_enumerate (main_loop_body W sheet_id api credentials total) i yoga_poses t
    = (Ret tt, t).
Proof.
  induction 1 as [|x rest Hx _ IH]; intros i t; [done|].
  cbn [for_enumerate]. unfold bind.
  rewrite main_loop_body_untitled by done. apply IH.
Qed.

(** X13. A sheet whose header row has no column named Content Title is
    passed over in silence: every row counts as untitled, and the loop
    leaves the trace as it found it. *)
Theorem X13_no_title_column (W : World) (sheet_id api : string)
    (credentials : Credentials) (headers : list string)
    (rest : list (list string)) (t : trace) :
  "Content Title" ∉ headers ->
  Forall (fun pose_data => titled pose_data = false) (rows_of_values (headers :: rest))
  /\ main_loop W sheet_id api credentials (rows_of_values (headers :: rest)) t
     = (Ret tt, t).
Proof.
  intros Hk.
  assert (Forall (fun pose_data => titled pose_data = false)
            (rows_of_values (headers :: rest))) as Hall.
  { cbn [rows_of_values]. apply Forall_forall. intros pose_data Hin.
    apply list_elem_of_In, in_map_iff in Hin as (cells & <- & _).
    unfold titled, dict_get. by rewrite dict_zip_absent. }
  split; [exact Hall|]. unfold main_loop. by apply for_enumerate_untitled.
Qed.

Lemma X13_no_title_column_witness :
  main_loop world_openai "sheet-1" "openai" "creds"
    (rows_of_values [["Title"; "Image Style"]; ["Tree"; "flat"]; ["Cobra"]]) []
  = (Ret tt, []).
Proof.
  refine (proj2 (X13_no_title_column world_openai "sheet-1" "openai" "creds"
                   ["Title"; "Image Style"] [["Tree"; "flat"]; ["Cobra"]] [] _)).
  intros H. apply elem_of_cons in H as [H|H]; [discriminate|].
  apply elem_of_cons in H as [H|H]; [discriminate|]. by apply elem_of_nil in H.
Defined.

Lemma get_sheet_data_requests (W : World) sheet_id credentials t :
  exists o d,
    get_sheet_data W sheet_id credentials t
    = (o, t ++ SheetsGet sheet_id "Sheet1!A1:E" :: d).
Proof.
  unfold get_sheet_data, log_error, bind, ask, emit, of_reply, ret, raise.
  destruct (sheets_values_get W t sheet_id "Sheet1!A1:E") as [e|[[|headers rest]|]];
    cbn; rewrite <- ?app_assoc; by eexists _, _.
Qed.

Lemma main_reads_chosen_sheet (W : World) argv_sheet_id api t credentials :
  api ∈ api_choices ->
  path_exists W SERVICE_ACCOUNT_FILE = true ->
  service_account_load W (t ++ main_opening argv_sheet_id api) = Returns credentials ->
  exists o d,
    main W argv_sheet_id (Some api) t
    = (o, t ++ main_opening argv_sheet_id api ++ authenticated
          ++ SheetsGet (chosen_sheet_id W argv_sheet_id t) "Sheet1!A1:E" :: d).
Proof.
  intros Hapi Hfile Hload. rewrite main_unfolded by done.
  rewrite (authenticate_google_ok W _ credentials) by done. cbn zeta.
  set (sheet_id := chosen_sheet_id W argv_sheet_id t).
  destruct (get_sheet_data_requests W sheet_id credentials
              ((t ++ main_opening argv_sheet_id api) ++ authenticated))
    as (o & d & ->).
  destruct o as [poses|r].
  - unfold main_loop.
    destruct (for_enumerate_rows W sheet_id api credentials (length poses) poses 0
                ((((t ++ main_opening argv_sheet_id api) ++ authenticated)
                  ++ SheetsGet sheet_id "Sheet1!A1:E" :: d)
                 ++ [retrieved_line (length poses)]))
      as (o & ds & -> & _).
    destruct o as [[]|r].
    + eexists _, (d ++ [_] ++ concat ds ++ [_]).
      f_equal. rewrite <- !app_assoc. cbn [app]. reflexivity.
    + eexists _, (d ++ [_] ++ concat ds).
      f_equal. rewrite <- !app_assoc. cbn [app]. reflexivity.
  - eexists _, d. f_equal. by rewrite <- !app_assoc.
Qed.

(** X14. The sheet identifier: given on the command line, it is used as it
    is and nothing is asked; absent or empty, the run asks for it once,
    first of all, and reads the sheet whose identifier was typed. *)
Theorem X14_sheet_id_given_or_asked (W : World) (argv_sheet_id : option string)
    (api : string) (t : trace) (credentials : Credentials) :
  let opening := Print ("Using " +:+ PyStr.upper api +:+ " API for image generation") in
  api ∈ api_choices ->
  path_exists W SERVICE_ACCOUNT_FILE = true ->
  service_account_load W (t ++ main_opening argv_sheet_id api) = Returns credentials ->
  (opt_truthy argv_sheet_id = false ->
   exists o d,
     main W argv_sheet_id (Some api) t
     = (o, t ++ [Input "Enter Google Sheet ID: "; opening] ++ authenticated
           ++ SheetsGet (stdin_line W t) "Sheet1!A1:E" :: d))
  /\ (forall sheet_id,
      argv_sheet_id = Some sheet_id ->
      PyStr.truthy sheet_id = true ->
      exists o d,
        main W argv_sheet_id (Some api) t
        = (o, t ++ [opening] ++ authenticated
              ++ SheetsGet sheet_id "Sheet1!A1:E" :: d)).
Proof.
  intros opening Hapi Hfile Hload.
  destruct (main_reads_chosen_sheet W argv_sheet_id api t credentials Hapi Hfile Hload)
    as (o & d & Hmain).
  unfold main_opening, chosen_sheet_id in Hmain. split.
  - intros Hno. rewrite Hno in Hmain. by exists o, d.
  - intros sheet_id -> Hyes. cbn [opt_truthy from_option id] in Hmain.
    rewrite Hyes in Hmain. by exists o, d.
Qed.

Lemma X14_sheet_id_given_or_asked_witness :
  exists o d,
    main (office_world true (Returns "creds") "typed" sheet_ok drive_ok
            (Returns tt) (Returns tt)) (Some "") (Some "openai") []
    = (o, [] ++ [Input "Enter Google Sheet ID: ";
                 Print "Using OPENAI API for image generation"] ++ authenticated
          ++ SheetsGet "typed" "Sheet1!A1:E" :: d).
Proof.
  refine (proj1 (X14_sheet_id_given_or_asked
            (office_world true (Returns "creds") "typed" sheet_ok drive_ok
               (Returns tt) (Returns tt)) (Some "") "openai" [] "creds"
            _ eq_refl eq_refl) eq_refl).
  unfold api_choices. constructor.
Defined.


(** X15. The upload stops at the first request that raises: when the file
    cannot be created no permission is requested; when the permission
    request raises, the file is already created and no link is returned;
    and a created file that carries no download link gives the empty link. *)
Theorem X15_upload_stops_at_first_error (W : World) (image_data : bytes)
    (filename : string) (credentials : Credentials) (t : trace) :
  let created := DriveCreate filename "image/png" image_data in
  (forall e,
     drive_files_create W t filename image_data = Raises e ->
     upload_image_to_drive W image_data filename credentials t
     = (Raise (RaisedException e), t ++ [created]))
  /\ (forall file e,
        drive_files_create W t filename image_data = Returns file ->
        drive_permissions_create W (t ++ [created]) (file_id file) = Raises e ->
        upload_image_to_drive W image_data filename credentials t
        = (Raise (RaisedException e),
           t ++ [created; DrivePermission (file_id file) "anyone" "reader"]))
  /\ (forall file,
        drive_files_create W t filename image_data = Returns file ->
        drive_permissions_create W (t ++ [created]) (file_id file) = Returns tt ->
        webContentLink file = None ->
        upload_image_to_drive W image_data filename credentials t
        = (Ret "", t ++ upload_trace filename image_data file)).
Proof.
  intros created. split; [|split].
  - intros e Hcreate. by apply upload_image_to_drive_create_raises.
  - intros file e Hcreate Hperm. by apply upload_image_to_drive_permission_raises.
  - intros file Hcreate Hperm Hlink.
    rewrite (upload_image_to_drive_returns W credentials _ _ _ file Hcreate Hperm).
    unfold upload_trace, uploaded_link. by rewrite Hlink.
Qed.

Lemma X15_upload_stops_at_first_error_witness :
  upload_image_to_drive
    (office_world true (Returns "creds") "typed" sheet_ok drive_ok
       (Raises refused) (Returns tt)) png "yoga_tree.png" "creds" []
  = (Raise (RaisedException refused),
     [] ++ [DriveCreate "yoga_tree.png" "image/png" png;
            DrivePermission (Some "f1") "anyone" "reader"]).
Proof.
  exact (proj1 (proj2 (X15_upload_stops_at_first_error
           (office_world true (Returns "creds") "typed" sheet_ok drive_ok
              (Raises refused) (Returns tt)) png "yoga_tree.png" "creds" []))
           _ refused eq_refl eq_refl).
Defined.

(** X16. A titled row whose generation gives a non-empty image: that image
    is uploaded under the file name made from the title, the link the
    upload returns is the one put in the formula written to the cell of
    column E on the row's own line, and the row ends with the log of its
    success. *)
Theorem X16_row_image_to_cell (W : World) (sheet_id api : string)
    (credentials : Credentials) (total i : nat) (pose_data : row) (t d : trace)
    (image : bytes) (file : drive_file) :
  let pose_name := dict_get pose_data "Content Title" "" in
  let generated := (t ++ row_prologue total i pose_data) ++ d in
  titled pose_data = true ->
  generate_image W (craft_prompt_text pose_data) api (t ++ row_prologue total i pose_data)
  = (Ret (Some image), generated) ->
  bytes_truthy (Some image) = true ->
  drive_files_create W generated (image_filename pose_name) image = Returns file ->
  drive_permissions_create W
    (generated ++ [DriveCreate (image_filename pose_name) "image/png" image])
    (file_id file) = Returns tt ->
  sheets_values_update W
    (generated ++ upload_trace (image_filename pose_name) image file)
    sheet_id (range_name (Z.of_nat i + 1)%Z)
    [[image_formula (uploaded_link file)]] = Returns tt ->
  main_loop_body W sheet_id api credentials total i pose_data t
  = (Ret tt, generated ++ row_epilogue sheet_id i pose_name image file).
Proof.
  intros pose_name generated Ht Hgen Htruthy Hcreate Hperm Hupdate.
  rewrite (main_loop_body_generated W sheet_id api credentials total i pose_data
             t image d Ht Hgen Htruthy).
  fold pose_name generated. unfold bind at 1.
  rewrite (upload_image_to_drive_returns W credentials _ _ _ file Hcreate Hperm).
  cbn zeta. fold (uploaded_link file).
  fold (upload_trace (image_filename pose_name) image file).
  unfold bind at 1.
  rewrite (update_sheet_with_image_returns W sheet_id credentials i _ _ Hupdate).
  unfold log_info, emit, row_epilogue. by rewrite <- !app_assoc.
Qed.

Lemma X16_row_image_to_cell_witness :
  main_loop_body world_openai "sheet-1" "openai" "creds" 1 0 row_warrior []
  = (Ret tt,
     ([] ++ row_prologue 1 0 row_warrior)
     ++ [HttpPost openai_url (json_headers "key")
           (openai_payload (craft_prompt_text row_warrior))]
     ++ row_epilogue "sheet-1" 0 "Warrior II" png
          {| file_id := Some "f1";
             webContentLink := Some "https://drive.google.com/uc?id=f1&export=download" |}).
Proof.
  rewrite app_assoc.
  exact (X16_row_image_to_cell world_openai "sheet-1" "openai" "creds" 1 0
           row_warrior [] _ png _ eq_refl eq_refl eq_refl eq_refl eq_refl eq_refl).
Defined.


(** X17. A sheet write that raises ends the batch: the exception leaves the
    loop, the file uploaded for the row stays in the store, neither the
    update nor the success of the row is logged, and the rows after it are
    not touched. *)
Theorem X17_sheet_write_error_ends_batch (W : World) (sheet_id api : string)
    (credentials : Credentials) (before rest : list row) (pose_data : row)
    (t d : trace) (image : bytes) (file : drive_file) (e : exception) :
  let yoga_poses := before ++ pose_data :: rest in
  let i := length before in
  let pose_name := dict_get pose_data "Content Title" "" in
  let generated := (t ++ row_prologue (length yoga_poses) i pose_data) ++ d in
  Forall (fun pose_data => titled pose_data = false) before ->
  titled pose_data = true ->
  generate_image W (craft_prompt_text pose_data) api
    (t ++ row_prologue (length yoga_poses) i pose_data)
  = (Ret (Some image), generated) ->
  bytes_truthy (Some image) = true ->
  drive_files_create W generated (image_filename pose_name) image = Returns file ->
  drive_permissions_create W
    (generated ++ [DriveCreate (image_filename pose_name) "image/png" image])
    (file_id file) = Returns tt ->
  sheets_values_update W
    (generated ++ upload_trace (image_filename pose_name) image file)
    sheet_id (range_name (Z.of_nat i + 1)%Z)
    [[image_formula (uploaded_link file)]] = Raises e ->
  main_loop W sheet_id api credentials yoga_poses t
  = (Raise (RaisedException e),
     generated ++ upload_trace (image_filename pose_name) image file
     ++ [sheet_write sheet_id i (uploaded_link file)]).
Proof.
  intros yoga_poses i pose_name generated Hbefore Ht Hgen Htruthy Hcreate Hperm
    Hupdate.
  unfold main_loop. subst yoga_poses.
  rewrite for_enumerate_skip_untitled by done. cbn [Nat.add]. fold i.
  apply for_enumerate_raises.
  rewrite (main_loop_body_generated W sheet_id api credentials _ i pose_data
             t image d Ht Hgen Htruthy).
  fold pose_name generated. unfold bind at 1.
  rewrite (upload_image_to_drive_returns W credentials _ _ _ file Hcreate Hperm).
  cbn zeta. fold (uploaded_link file).
  fold (upload_trace (image_filename pose_name) image file).
  unfold bind at 1.
  rewrite (update_sheet_with_image_raises W sheet_id credentials i _ _ e Hupdate).
  by rewrite <- !app_assoc.
Qed.

Lemma X17_sheet_write_error_ends_batch_witness :
  main_loop
    (office_world true (Returns "creds") "typed" sheet_ok drive_ok (Returns tt)
       (Raises refused))
    "sheet-1" "openai" "creds" ([∅] ++ row_warrior :: [row_warrior]) []
  = (Raise (RaisedException refused),
     (([] ++ row_prologue 3 1 row_warrior)
      ++ [HttpPost openai_url (json_headers "key")
            (openai_payload (craft_prompt_text row_warrior))])
     ++ upload_trace "yoga_warrior_ii.png" png
          {| file_id := Some "f1";
             webContentLink := Some "https://drive.google.com/uc?id=f1&export=download" |}
     ++ [sheet_write "sheet-1" 1 "https://drive.google.com/uc?id=f1"]).
Proof.
  refine (X17_sheet_write_error_ends_batch
           (office_world true (Returns "creds") "typed" sheet_ok drive_ok (Returns tt)
              (Raises refused))
           "sheet-1" "openai" "creds" [∅] [row_warrior] row_warrior [] _ png _ refused
           _ eq_refl eq_refl eq_refl eq_refl eq_refl eq_refl).
  by repeat constructor.
Defined.

(** ** File names and cells *)

Lemma lower_char_idempotent (c : ascii) :
  PyStr.lower_char (PyStr.lower_char c) = PyStr.lower_char c.
Proof. by destruct c as [[] [] [] [] [] [] [] []]. Qed.

Lemma lower_idempotent (s : string) : PyStr.lower (PyStr.lower s) = PyStr.lower s.
Proof.
  unfold PyStr.lower. induction s as [|c r IH]; [reflexivity|].
  cbn [PyStr.map_chars]. by rewrite lower_char_idempotent, IH.
Qed.

Lemma replace_space_step (c : ascii) (r : string) :
  PyStr.replace_scan " " "_" 0 (String c r)
  = String (if decide (PyStr.space = c) then "_"%char else c)
      (PyStr.replace_scan " " "_" 0 r).
Proof.
  unfold PyStr.replace_scan at 1; fold PyStr.replace_scan.
  change " "%string with (String PyStr.space "").
  rewrite prefix_cons, prefix_nil.
  destruct (decide (PyStr.space = c)); reflexivity.
Qed.

Lemma replace_space_length (s : string) :
  String.length (PyStr.replace_scan " " "_" 0 s) = String.length s.
Proof.
  induction s as [|c r IH]; [reflexivity|].
  rewrite replace_space_step. cbn [String.length]. by rewrite IH.
Qed.

Lemma replace_space_fresh (s : string) :
  occurs PyStr.space (PyStr.replace_scan " " "_" 0 s) = false.
Proof.
  induction s as [|c r IH]; [reflexivity|].
  rewrite replace_space_step. cbn [occurs]. rewrite IH, orb_false_r.
  apply bool_decide_eq_false. by destruct (decide (PyStr.space = c)).
Qed.

Lemma replace_space_chars (s : string) :
  PyStr.replace_scan " " "_" 0 s = PyStr.map_chars underscored s.
Proof.
  induction s as [|c r IH]; [reflexivity|].
  rewrite replace_space_step. cbn [PyStr.map_chars]. by rewrite IH.
Qed.

(** X18. The name of the uploaded file is yoga_, then the title in lower
    case with each of its spaces turned into an underscore, character by
    character, then .png: it is nine characters longer than the title in
    lower case and holds no space; a title and its lower-case form get the
    same file name. *)
Theorem X18_image_filename_shape (pose_name : string) :
  image_filename pose_name
  = "yoga_" +:+ PyStr.map_chars underscored (PyStr.lower pose_name) +:+ ".png"
  /\ String.length (image_filename pose_name)
     = String.length (PyStr.lower pose_name) + 9
  /\ PyStr.contains " " (image_filename pose_name) = false
  /\ image_filename (PyStr.lower pose_name) = image_filename pose_name.
Proof.
  unfold image_filename. rewrite replace_nonempty by done.
  split; [|split; [|split]].
  - by rewrite replace_space_chars.
  - rewrite !str_app_length, replace_space_length. cbn. lia.
  - change " "%string with (String PyStr.space "").
    rewrite (contains_skip_fresh PyStr.space "" "yoga_") by reflexivity.
    rewrite contains_skip_fresh by apply replace_space_fresh.
    reflexivity.
  - by rewrite lower_idempotent.
Qed.

Lemma of_int_inj (a b : Z) : PyStr.of_int a = PyStr.of_int b -> a = b.
Proof.
  unfold PyStr.of_int. intros H. apply DecimalZ.to_int_inj.
  assert (forall z, NilZero.int_of_string (NilZero.string_of_int (Z.to_int z))
                    = Some (Z.to_int z)) as Hback.
  { intros z. apply NilZero.isi; intros Hz;
      pose proof (f_equal Z.of_int Hz) as Hz';
      rewrite DecimalZ.of_to in Hz';
      cbn in Hz'; subst z; discriminate Hz. }
  apply (f_equal NilZero.int_of_string) in H. rewrite !Hback in H. congruence.
Qed.

Lemma range_name_inj (a b : Z) : range_name a = range_name b -> a = b.
Proof.
  unfold range_name. rewrite !str_app_cons, !str_app_nil_l.
  intros H. simplify_eq. apply of_int_inj in H. lia.
Qed.

Lemma str_app_inv_r (a b s : string) : a +:+ s = b +:+ s -> a = b.
Proof.
  revert b. induction a as [|c a IH]; intros [|c' b] H.
  - reflexivity.
  - apply (f_equal String.length) in H.
    rewrite str_app_nil_l, str_app_cons in H. cbn [String.length] in H.
    rewrite str_app_length in H. lia.
  - apply (f_equal String.length) in H.
    rewrite str_app_nil_l, str_app_cons in H. cbn [String.length] in H.
    rewrite str_app_length in H. lia.
  - rewrite !str_app_cons in H. simplify_eq. f_equal. by apply IH.
Qed.

(** X19. Two rows never share a cell: the cell named for a row is the one
    named for another row exactly when the two rows are the same, and the
    sheet writes of two positions of the batch coincide only for the same
    position and the same link. *)
Theorem X19_one_cell_per_row :
  (forall a b : Z, String.eqb (range_name a) (range_name b) = Z.eqb a b)
  /\ (forall (sheet_id : string) (i j : nat) (u v : string),
        sheet_write sheet_id i u = sheet_write sheet_id j v <-> i = j /\ u = v).
Proof.
  split.
  - intros a b. destruct (Z.eqb_spec a b) as [->|Hne].
    + apply String.eqb_refl.
    + apply String.eqb_neq. intros H. by apply range_name_inj in H.
  - intros sheet_id i j u v. split; [|by intros [-> ->]].
    unfold sheet_write, image_formula. intros H.
    injection H as Hcell Hformula.
    rewrite !str_app_nil_l in Hcell. apply of_int_inj in Hcell.
    split; [lia|]. by eapply str_app_inv_r.
Qed.

(** ** The command line *)


